(** * go2v: a shallow embedding of the Go toolchain installer

  The installer is one Go [main] package: it detects the host
  architecture, resolves a release from the download catalog, fetches the
  archive, clears the previous installation, unpacks the archive and adds
  the [bin] directory to a shell profile.

  Go strings are byte sequences and are modelled by [string]; the file
  system, the console and the two HTTP endpoints are an explicit [world]
  that every effectful function threads through the [IO] monad.  [main]
  is cut into its stages, each one a function named after what it does
  and holding the statements of [main] in their order.  The lines of
  [debugPrint] are printed when the [--debug] flag is set, which the
  world records in [debugMode]; [getSystemInfo] and [mapArchitecture] are
  embedded as the values they return, without the debug line they print
  on the way.  The download takes what the server answers and the
  readings of the process clock as arguments; the numbers that the
  progress report sends through [float64] are left to a class. *)

From Stdlib Require Import ZArith NArith Ascii String List Bool.
From stdpp Require Import base option gmap strings list pretty.

Open Scope string_scope.

(* ================================================================== *)
(** * The parts of Go's [strings] package the installer calls *)
(* ================================================================== *)

Module Strings.

(** [strings.HasPrefix(s, prefix)]. *)
Fixpoint HasPrefix (s pre : string) {struct pre} : bool :=
  match pre, s with
  | EmptyString, _ => true
  | String _ _, EmptyString => false
  | String a pre', String b s' => if Ascii.eqb a b then HasPrefix s' pre' else false
  end.

(** [s[len(prefix):]] for a string that has the prefix. *)
Fixpoint drop (n : nat) (s : string) : string :=
  match n, s with
  | O, _ => s
  | S _, EmptyString => EmptyString
  | S n', String _ s' => drop n' s'
  end.

(** [strings.TrimPrefix(s, prefix)]: [s] without the leading [prefix], or
    [s] itself when it does not start with it. *)
Definition TrimPrefix (s pre : string) : string :=
  if HasPrefix s pre then drop (String.length pre) s else s.

(** [strings.Contains(s, substr)]. *)
Fixpoint Contains (s substr : string) : bool :=
  HasPrefix s substr ||
  match s with
  | EmptyString => false
  | String _ s' => Contains s' substr
  end.

(** [strings.Count(s, substr)] for a one-byte [substr]: the number of
    bytes of [s] equal to it. *)
Fixpoint CountByte (s : string) (c : ascii) : nat :=
  match s with
  | EmptyString => 0
  | String b s' => (if Ascii.eqb b c then 1 else 0) + CountByte s' c
  end.

(** [strings.Join(elems, sep)]. *)
Fixpoint Join (elems : list string) (sep : string) : string :=
  match elems with
  | [] => ""
  | [e] => e
  | e :: rest => e ++ sep ++ Join rest sep
  end.

(** [strings.Split(s, sep)] for a one-byte separator. *)
Fixpoint SplitByte (s : string) (sep : ascii) : list string :=
  match s with
  | EmptyString => [""]
  | String c s' =>
      if Ascii.eqb c sep then "" :: SplitByte s' sep
      else match SplitByte s' sep with
           | h :: t => String c h :: t
           | [] => [String c ""]
           end
  end.

(** Go's [ToLower] and [TrimSpace] have a fast path for ASCII bytes and
    otherwise work on the decoded runes with the tables of package
    [unicode].  Those tables are not part of the installer: what the two
    functions give on a string with a byte outside ASCII is left to this
    class. *)
Class UnicodeTables := {
  MapToLower : string -> string;
  TrimSpaceRunes : string -> string
}.

Definition isASCIIByte (c : ascii) : bool := (N_of_ascii c <? 128)%N.

Fixpoint isASCII (s : string) : bool :=
  match s with
  | EmptyString => true
  | String c s' => isASCIIByte c && isASCII s'
  end.

(** ['A' <= c && c <= 'Z'] then [c += 'a' - 'A']. *)
Definition lowerByte (c : ascii) : ascii :=
  let n := N_of_ascii c in
  if ((65 <=? n) && (n <=? 90))%N then ascii_of_N (n + 32) else c.

Fixpoint lowerASCII (s : string) : string :=
  match s with
  | EmptyString => EmptyString
  | String c s' => String (lowerByte c) (lowerASCII s')
  end.

Definition ToLower `{UnicodeTables} (s : string) : string :=
  if isASCII s then lowerASCII s else MapToLower s.

(** Go's [asciiSpace] table: tab, line feed, vertical tab, form feed,
    carriage return and space. *)
Definition asciiSpace (c : ascii) : bool :=
  let n := N_of_ascii c in ((9 <=? n) && (n <=? 13) || (n =? 32))%N.

Fixpoint trimLeftSpace (s : string) : string :=
  match s with
  | EmptyString => ""
  | String b s' => if asciiSpace b then trimLeftSpace s' else s
  end.

Fixpoint trimRightSpace (s : string) : string :=
  match s with
  | EmptyString => ""
  | String b s' =>
      let t := trimRightSpace s' in
      if asciiSpace b && String.eqb t "" then "" else String b t
  end.

(** [strings.TrimSpace(s)]. *)
Definition TrimSpace `{UnicodeTables} (s : string) : string :=
  if isASCII s then trimRightSpace (trimLeftSpace s) else TrimSpaceRunes s.

End Strings.

(* ================================================================== *)
(** * [path/filepath] on a Unix host *)
(* ================================================================== *)

Module Filepath.

Definition Separator : ascii := "/"%char.

(** One step of [Clean] over the path elements, the kept elements being
    held last-first: empty elements and [.] vanish, [..] removes the
    element before it, is dropped at the root, and is kept at the start
    of a relative path. *)
Definition cleanStep (rooted : bool) (kept : list string) (elem : string)
  : list string :=
  if String.eqb elem "" || String.eqb elem "." then kept
  else if String.eqb elem ".." then
    match kept with
    | top :: below => if String.eqb top ".." then elem :: kept else below
    | [] => if rooted then [] else [elem]
    end
  else elem :: kept.

(** [filepath.Clean(path)]. *)
Definition Clean (path : string) : string :=
  let rooted := Strings.HasPrefix path "/" in
  let kept := fold_left (cleanStep rooted) (Strings.SplitByte path Separator) [] in
  let body := Strings.Join (rev kept) "/" in
  if rooted then "/" ++ body
  else if String.eqb body "" then "." else body.

(** [filepath.Join(elem...)]: the elements from the first non-empty one
    on, joined by the separator and cleaned; [""] when all are empty. *)
Fixpoint Join (elem : list string) : string :=
  match elem with
  | [] => ""
  | e :: rest =>
      if String.eqb e "" then Join rest
      else Clean (Strings.Join elem "/")
  end.

(** The proper ancestors of a path, outermost first: the directories that
    [os.MkdirAll] makes on its way to the path. *)
Fixpoint ancestorsFrom (seen rest : string) : list string :=
  match rest with
  | EmptyString => []
  | String c rest' =>
      (if Ascii.eqb c Separator && negb (String.eqb seen "") then [seen] else [])
      ++ ancestorsFrom (seen ++ String c "") rest'
  end.

Definition ancestors (path : string) : list string := ancestorsFrom "" path.

End Filepath.

(* ================================================================== *)
(** * The release catalog *)
(* ================================================================== *)

(** One element of [GoVersionInfo.Files]. *)
Record FileInfo := {
  Filename : string;
  OS : string;
  Arch : string;
  Checksum : string;
  Size : Z;
  Kind : string
}.

(** One entry of the JSON catalog. *)
Record GoVersionInfo := {
  Version : string;
  Stable : bool;
  Files : list FileInfo
}.

Definition goVersionURL : string := "https://go.dev/dl/?mode=json".
Definition latestVersionTextURL : string := "https://go.dev/VERSION?m=text".
Definition systemProfileDDirextory : string := "/etc/profile.d".
Definition systemGoProfileFilename : string := "go.sh".

(* ================================================================== *)
(** * The world outside the process *)
(* ================================================================== *)

Module Os.

Inductive errno := ENOENT | EISDIR | ENOTDIR | EIO.

Definition errnoText (e : errno) : string :=
  match e with
  | ENOENT => "no such file or directory"
  | EISDIR => "is a directory"
  | ENOTDIR => "not a directory"
  | EIO => "input/output error"
  end.

(** Go's [error] values: an [*fs.PathError] of a system call, or a
    message built by [fmt.Errorf] (wrapped errors keep their text). *)
Inductive error :=
| PathError (op path : string) (e : errno)
| Errorf (msg : string).

(** [err.Error()], what [%v] prints. *)
Definition Error (e : error) : string :=
  match e with
  | PathError op path en => op ++ " " ++ path ++ ": " ++ errnoText en
  | Errorf msg => msg
  end.

(** [os.IsNotExist(err)]; [None] is Go's [nil]. *)
Definition IsNotExist (err : option error) : bool :=
  match err with
  | Some (PathError _ _ ENOENT) => true
  | _ => false
  end.

Inductive result (A : Type) :=
| Ok (a : A)
| Err (e : error).
Arguments Ok {A} a.
Arguments Err {A} e.

Inductive node :=
| Dir (perm : Z)
| File (perm : Z) (data : string).

Inductive syscall :=
| SStat | SOpen | SReadFile | SOpenFile | SWrite | SMkdirAll | SChmod | SRemoveAll.

#[global] Instance syscall_eq_dec : EqDecision syscall.
Proof. solve_decision. Defined.

(** What an HTTP GET of one endpoint gives: a transport failure, or a
    status with the body as the caller reads (and decodes) it. *)
Inductive response (A : Type) :=
| GetFailed (err : string)
| Got (status : Z) (body : result A).
Arguments GetFailed {A} err.
Arguments Got {A} status body.

Inductive stream := Stdout | Stderr.

(** The installer's environment.  [faults] lists the system calls that
    the environment refuses with an I/O error whatever the file tree
    holds (permissions, a full disk, a failing device); [journal] records
    every call issued that can change the file tree, oldest first;
    [requests] the URLs fetched; [console] the lines printed;
    [debugMode] the package variable that [flag.Parse] sets from
    [--debug]. *)
Record world := World {
  files : gmap string node;
  faults : list (syscall * string);
  journal : list (syscall * string);
  catalogEndpoint : response (list GoVersionInfo);
  textEndpoint : response string;
  requests : list string;
  console : list (stream * string);
  debugMode : bool
}.

Definition nl : string := String (ascii_of_nat 10) "".

(** ** State passing *)

Definition IO (A : Type) : Type := world -> A * world.

#[global] Instance IO_ret : MRet IO := fun A a w => (a, w).
#[global] Instance IO_bind : MBind IO :=
  fun A B f m w => let '(a, w') := m w in f a w'.

Definition setFiles (m : gmap string node) (w : world) : world :=
  World m (faults w) (journal w) (catalogEndpoint w) (textEndpoint w)
        (requests w) (console w) (debugMode w).

Definition logCall (c : syscall) (path : string) (w : world) : world :=
  World (files w) (faults w) (journal w ++ [(c, path)]) (catalogEndpoint w)
        (textEndpoint w) (requests w) (console w) (debugMode w).

Definition logRequest (url : string) (w : world) : world :=
  World (files w) (faults w) (journal w) (catalogEndpoint w) (textEndpoint w)
        (requests w ++ [url]) (console w) (debugMode w).

Definition emit (s : stream) (text : string) (w : world) : world :=
  World (files w) (faults w) (journal w) (catalogEndpoint w) (textEndpoint w)
        (requests w) (console w ++ [(s, text)]) (debugMode w).

(** [fmt.Printf] and [fmt.Fprintf(os.Stderr, ...)] with the format already
    filled in; [fmt.Println] adds the newline. *)
Definition Printf (text : string) : IO unit := fun w => (tt, emit Stdout text w).
Definition Println (text : string) : IO unit := fun w => (tt, emit Stdout (text ++ nl) w).
Definition Eprintf (text : string) : IO unit := fun w => (tt, emit Stderr text w).

Definition faulty (w : world) (c : syscall) (path : string) : bool :=
  bool_decide ((c, path) ∈ faults w).

(** ** System calls *)

(** [syscallMode(i)] of Go's [os] package, which [os.OpenFile], [os.Mkdir]
    and [os.Chmod] apply to the [FileMode] they are given: the nine
    permission bits, and the Unix bits for set-user-id, set-group-id and
    sticky where Go's [ModeSetuid] (bit 23), [ModeSetgid] (bit 22) and
    [ModeSticky] (bit 20) are set.  The process runs with an empty umask. *)
Definition syscallMode (i : Z) : Z :=
  Z.lor (Z.land i 511)
    (Z.lor (if Z.testbit i 23 then 2048 else 0)
       (Z.lor (if Z.testbit i 22 then 1024 else 0)
          (if Z.testbit i 20 then 512 else 0))).

(** [os.Stat(name)]: only its error is looked at by the installer. *)
Definition Stat (name : string) : IO (option error) := fun w =>
  if faulty w SStat name then (Some (PathError "stat" name EIO), w)
  else match files w !! name with
       | Some _ => (None, w)
       | None => (Some (PathError "stat" name ENOENT), w)
       end.

(** One directory of [os.MkdirAll]: kept when it is there, refused when a
    file has its name, made with [syscallMode(perm)] otherwise. *)
Definition mkdirStep (perm : Z) (acc : gmap string node * option error)
  (dir : string) : gmap string node * option error :=
  match acc with
  | (m, Some e) => (m, Some e)
  | (m, None) =>
      match m !! dir with
      | Some (Dir _) => (m, None)
      | Some (File _ _) => (m, Some (PathError "mkdir" dir ENOTDIR))
      | None => (<[dir := Dir (syscallMode perm)]> m, None)
      end
  end.

(** [os.MkdirAll(path, perm)]: the missing ancestors of [path], outermost
    first, then [path] itself. *)
Definition MkdirAll (path : string) (perm : Z) : IO (option error) := fun w =>
  let w := logCall SMkdirAll path w in
  if faulty w SMkdirAll path then (Some (PathError "mkdir" path EIO), w)
  else
    let '(m, err) := fold_left (mkdirStep perm)
                       (Filepath.ancestors path ++ [path]) (files w, None) in
    (err, setFiles m w).

(** [os.Chmod(name, mode)]. *)
Definition Chmod (name : string) (mode : Z) : IO (option error) := fun w =>
  let w := logCall SChmod name w in
  if faulty w SChmod name then (Some (PathError "chmod" name EIO), w)
  else match files w !! name with
       | Some (Dir _) =>
           (None, setFiles (<[name := Dir (syscallMode mode)]> (files w)) w)
       | Some (File _ data) =>
           (None, setFiles (<[name := File (syscallMode mode) data]> (files w)) w)
       | None => (Some (PathError "chmod" name ENOENT), w)
       end.

Definition O_RDONLY : Z := 0.
Definition O_WRONLY : Z := 1.
Definition O_RDWR : Z := 2.
Definition O_CREATE : Z := 64.
Definition O_TRUNC : Z := 512.
Definition O_APPEND : Z := 1024.

Definition hasFlag (flag bits : Z) : bool := negb (Z.land flag bits =? 0)%Z.

(** The directory a new file is made in has to be there; a path without a
    separator after its first byte lives in the root or in the working
    directory, which always are. *)
Definition parentIsDir (m : gmap string node) (name : string) : bool :=
  match last (Filepath.ancestors name) with
  | None => true
  | Some d => match m !! d with Some (Dir _) => true | _ => false end
  end.

(** [os.OpenFile(name, flag, perm)] for writing.  The handle is the name:
    every handle the installer opens is written once, on a file it has
    just truncated or opened for appending, so a write lands at the end. *)
Definition OpenFile (name : string) (flag perm : Z) : IO (result string) := fun w =>
  let w := if hasFlag flag (Z.lor O_CREATE O_TRUNC) then logCall SOpenFile name w else w in
  if faulty w SOpenFile name then (Err (PathError "open" name EIO), w)
  else match files w !! name with
       | Some (Dir _) => (Err (PathError "open" name EISDIR), w)
       | Some (File p data) =>
           (Ok name,
            if hasFlag flag O_TRUNC then setFiles (<[name := File p ""]> (files w)) w else w)
       | None =>
           if hasFlag flag O_CREATE && parentIsDir (files w) name
           then (Ok name, setFiles (<[name := File (syscallMode perm) ""]> (files w)) w)
           else (Err (PathError "open" name ENOENT), w)
       end.

(** [os.Create(name)]. *)
Definition Create (name : string) : IO (result string) :=
  OpenFile name (Z.lor O_RDWR (Z.lor O_CREATE O_TRUNC)) 438.

(** [file.WriteString(s)], and [io.Copy(file, r)] for a reader that yields
    [data]. *)
Definition WriteString (handle data : string) : IO (option error) := fun w =>
  let w := logCall SWrite handle w in
  if faulty w SWrite handle then (Some (PathError "write" handle EIO), w)
  else match files w !! handle with
       | Some (File p old) => (None, setFiles (<[handle := File p (old ++ data)]> (files w)) w)
       | _ => (Some (PathError "write" handle ENOENT), w)
       end.

(** [os.ReadFile(name)]. *)
Definition ReadFile (name : string) : IO (result string) := fun w =>
  if faulty w SReadFile name then (Err (PathError "open" name EIO), w)
  else match files w !! name with
       | Some (File _ data) => (Ok data, w)
       | Some (Dir _) => (Err (PathError "read" name EISDIR), w)
       | None => (Err (PathError "open" name ENOENT), w)
       end.

Definition within (root path : string) : bool :=
  String.eqb path root || Strings.HasPrefix path (root ++ "/").

(** [os.RemoveAll(path)]: [path] and everything below it; no error when
    there is nothing to remove. *)
Definition RemoveAll (path : string) : IO (option error) := fun w =>
  let w := logCall SRemoveAll path w in
  if faulty w SRemoveAll path then (Some (PathError "unlinkat" path EIO), w)
  else (None, setFiles (filter (fun kv => negb (within path kv.1)) (files w)) w).

End Os.

Export Os.

Import Strings.

(** [debugPrint(format, a...)] with the format already filled in. *)
Definition debugPrint (text : string) : IO unit := fun w =>
  if debugMode w then Printf ("Debug: " ++ text ++ nl) w else (tt, w).

(* ================================================================== *)
(** * Platform detection ([getSystemInfo], one file per build tag) *)
(* ================================================================== *)

(** [syscall.Utsname]: the two [[65]int8] fields that are read. *)
Record Utsname := {
  Release : list Z;
  Machine : list Z
}.

(** [byte(v)] for an [int8]: the value modulo 256. *)
Definition byteOfInt8 (v : Z) : ascii := ascii_of_N (Z.to_N (v mod 256)).

(** [bytesToString]: the bytes before the first zero. *)
Fixpoint bytesToString (bs : list Z) : string :=
  match bs with
  | [] => ""
  | v :: rest => if (v =? 0)%Z then "" else String (byteOfInt8 v) (bytesToString rest)
  end.

Fixpoint trimLeftByte (s : string) (c : ascii) : string :=
  match s with
  | EmptyString => ""
  | String b s' => if Ascii.eqb b c then trimLeftByte s' c else s
  end.

Fixpoint trimRightByte (s : string) (c : ascii) : string :=
  match s with
  | EmptyString => ""
  | String b s' =>
      let t := trimRightByte s' c in
      if Ascii.eqb b c && String.eqb t "" then "" else String b t
  end.

(** [strings.Trim(s, cutset)] for a one-byte cutset. *)
Definition TrimByte (s : string) (c : ascii) : string :=
  trimRightByte (trimLeftByte s c) c.

Definition NUL : ascii := ascii_of_nat 0.

Inductive buildTag := linux | darwin | freebsd | other.

(** [getSystemInfo] returns [(kernelVersion, architecture, err)].  On
    Linux [uname] is what [syscall.Uname] filled in, or its error. *)
Definition getSystemInfo (build : buildTag) (GOARCH : string)
  (uname : result Utsname) : string * string * option error :=
  match build with
  | linux =>
      match uname with
      | Err err =>
          ("", GOARCH,
           Some (Errorf ("failed to get system info using Uname, using runtime.GOARCH: "
                         ++ Error err)))
      | Ok u =>
          let kernelVersion := TrimByte (bytesToString (Release u)) NUL in
          let architecture := TrimByte (bytesToString (Machine u)) NUL in
          (kernelVersion, architecture, None)
      end
  | darwin => ("", GOARCH, None)
  | freebsd => ("", GOARCH, None)
  | other =>
      ("", GOARCH,
       Some (Errorf "syscall.Uname is not supported on this OS, using runtime.GOARCH"))
  end.

(* ================================================================== *)
(** * Architecture mapping *)
(* ================================================================== *)

(** A [case a, b:] of a [switch] over a string. *)
Definition caseOf (s : string) (labels : list string) : bool :=
  existsb (String.eqb s) labels.

Definition mapArchitecture `{UnicodeTables} (detectedArch : string) : string :=
  let lowerArch := ToLower detectedArch in
  if caseOf lowerArch ["x86_64"; "amd64"] then "amd64"
  else if caseOf lowerArch ["aarch64"; "arm64"] then "arm64"
  else if caseOf lowerArch ["i386"; "i686"] then "386"
  else if caseOf lowerArch ["armv6l"; "armv7l"] then "arm"
  else if caseOf lowerArch ["ppc64le"] then "ppc64le"
  else if caseOf lowerArch ["s390x"] then "s390x"
  else detectedArch.

(** How a stage of [main] ends: it goes on with a value, or the process
    leaves through [os.Exit]. *)
Inductive outcome (A : Type) :=
| Proceed (a : A)
| Exit (code : Z).
Arguments Proceed {A} a.
Arguments Exit {A} code.

(** [main], from the call of [getSystemInfo] to the mapped architecture. *)
Definition detectArchitecture `{UnicodeTables} (GOOS GOARCH : string)
  (info : string * string * option error) : IO (outcome string) :=
  let '(kernelVersion, detectedArchitecture, err) := info in
  match err with
  | Some e =>
      Eprintf ("Error: Failed to get system information: " ++ Error e ++ nl) ;;
      Printf ("Warning: Will use Go's build time system and architecture ("
              ++ GOOS ++ "/" ++ GOARCH ++ ")" ++ nl) ;;
      mret (Proceed GOARCH)
  | None =>
      Printf ("System Info: Kernel Version " ++ kernelVersion
              ++ ", Detected Architecture " ++ detectedArchitecture ++ nl) ;;
      let goArch := mapArchitecture detectedArchitecture in
      if String.eqb goArch "" then
        Eprintf ("Error: Could not map detected architecture '" ++ detectedArchitecture
                 ++ "' to a supported Go architecture." ++ nl) ;;
        mret (Exit 1)
      else
        Printf ("Mapped Go Architecture: " ++ goArch ++ nl) ;;
        mret (Proceed goArch)
  end.

(* ================================================================== *)
(** * Catalog client *)
(* ================================================================== *)

Definition httpGetCatalog : IO (response (list GoVersionInfo)) := fun w =>
  (catalogEndpoint w, logRequest goVersionURL w).

Definition httpGetText : IO (response string) := fun w =>
  (textEndpoint w, logRequest latestVersionTextURL w).

(** [getAllGoVersions]: the body of a 200 answer is the decoded JSON
    array, or the decoder's error. *)
Definition getAllGoVersions : IO (result (list GoVersionInfo)) :=
  resp ← httpGetCatalog;
  match resp with
  | GetFailed err =>
      mret (Err (Errorf ("unable to fetch version info from " ++ goVersionURL ++ ": " ++ err)))
  | Got status body =>
      if negb (status =? 200)%Z then
        mret (Err (Errorf ("failed to fetch version info from " ++ goVersionURL
                           ++ ", status code: " ++ pretty status)))
      else
        match body with
        | Err err =>
            mret (Err (Errorf ("failed to parse version info from " ++ goVersionURL
                               ++ ": " ++ Error err)))
        | Ok versions =>
            if (length versions =? 0)%nat then
              mret (Err (Errorf ("no Go version info found in " ++ goVersionURL)))
            else mret (Ok versions)
        end
  end.

(** [getLatestGoVersionFromTextHTTP]. *)
Definition getLatestGoVersionFromTextHTTP `{UnicodeTables} : IO (result string) :=
  resp ← httpGetText;
  match resp with
  | GetFailed err =>
      mret (Err (Errorf ("failed to fetch latest version from " ++ latestVersionTextURL
                         ++ " via HTTP: " ++ err)))
  | Got status body =>
      if negb (status =? 200)%Z then
        mret (Err (Errorf ("failed to fetch latest version from " ++ latestVersionTextURL
                           ++ " via HTTP, status code: " ++ pretty status)))
      else
        match body with
        | Err err =>
            mret (Err (Errorf ("failed to read response body from " ++ latestVersionTextURL
                               ++ ": " ++ Error err)))
        | Ok bodyBytes =>
            match SplitByte (TrimSpace bodyBytes) (ascii_of_nat 10) with
            | [] =>
                mret (Err (Errorf ("unexpected output format from " ++ latestVersionTextURL
                                   ++ " via HTTP")))
            | versionLine :: _ =>
                if negb (HasPrefix versionLine "go") then
                  mret (Err (Errorf ("unexpected version format in output from "
                                     ++ latestVersionTextURL ++ " via HTTP: " ++ versionLine)))
                else
                  let version := TrimPrefix versionLine "go" in
                  debugPrint ("Got latest version from text URL via HTTP: " ++ version) ;;
                  mret (Ok version)
            end
        end
  end.

(** [main]: the catalog is fetched once; a failure is reported and leaves
    [allVersions] nil ([None]).  A slice that [getAllGoVersions] returns
    without an error has an element, so it is not nil. *)
Definition fetchCatalog : IO (option (list GoVersionInfo)) :=
  debugPrint "Fetching all Go version information from JSON API..." ;;
  r ← getAllGoVersions;
  match r with
  | Err err =>
      Eprintf ("Error: Failed to get Go version list from JSON API: " ++ Error err ++ nl) ;;
      mret None
  | Ok allVersions =>
      debugPrint ("Fetched " ++ pretty (length allVersions)
                  ++ " Go versions from JSON API") ;;
      mret (Some allVersions)
  end.

(* ================================================================== *)
(** * Version resolution *)
(* ================================================================== *)

(** The three variables of [main] that resolution assigns. *)
Record selection := {
  versionToInstall : string;
  downloadURL : string;
  foundDownloadable : bool
}.

(** A [for ... range] loop whose body may [break]. *)
Inductive ctl (S : Type) :=
| Continue (s : S)
| Break (s : S).
Arguments Continue {S} s.
Arguments Break {S} s.

Fixpoint forRangeIO {A S : Type} (body : A -> S -> IO (ctl S)) (l : list A) (s : S)
  : IO S :=
  match l with
  | [] => mret s
  | a :: rest =>
      c ← body a s;
      match c with
      | Continue s' => forRangeIO body rest s'
      | Break s' => mret s'
      end
  end.

(** [file.OS == runtime.GOOS && file.Arch == goArch && file.Kind == "archive"]. *)
Definition hostArchive (GOOS goArch : string) (file : FileInfo) : bool :=
  String.eqb (OS file) GOOS && String.eqb (Arch file) goArch
  && String.eqb (Kind file) "archive".

(** The body of both loops over [v.Files]; they differ in one word of a
    debug line, [what]: "matching" in the loop for a requested version,
    "latest stable" in the other. *)
Definition pickFile (what GOOS goArch : string) (v : GoVersionInfo) (file : FileInfo)
  (st : selection) : IO (ctl selection) :=
  if hostArchive GOOS goArch file then
    debugPrint ("Found " ++ what ++ " download file for " ++ GOOS ++ "/" ++ goArch
                ++ ": " ++ Filename file) ;;
    mret (Break {| versionToInstall := TrimPrefix (Version v) "go";
                   downloadURL := "https://go.dev/dl/" ++ Filename file;
                   foundDownloadable := true |})
  else
    debugPrint ("Skipping file " ++ Filename file ++ " (OS: " ++ OS file ++ ", Arch: "
                ++ Arch file ++ "), expected " ++ GOOS ++ "/" ++ goArch) ;;
    mret (Continue st).

(** The body of the loop over [allVersions] for a requested version. *)
Definition searchRequested (GOOS goArch targetVer : string) (v : GoVersionInfo)
  (st : selection) : IO (ctl selection) :=
  st ← (if String.eqb (TrimPrefix (Version v) "go") targetVer then
          debugPrint ("Found matching version in JSON list: " ++ Version v) ;;
          forRangeIO (pickFile "matching" GOOS goArch v) (Files v) st
        else mret st);
  mret (if foundDownloadable st then Break st else Continue st).

(** The body of the loop over [allVersions] when no version is requested. *)
Definition searchStable (GOOS goArch : string) (v : GoVersionInfo)
  (st : selection) : IO (ctl selection) :=
  st ← (if Stable v then
          debugPrint ("Checking stable version: " ++ Version v) ;;
          forRangeIO (pickFile "latest stable" GOOS goArch v) (Files v) st
        else
          debugPrint ("Skipping non-stable version: " ++ Version v) ;;
          mret st);
  mret (if foundDownloadable st then Break st else Continue st).

Definition constructedURL (version GOOS goArch : string) : string :=
  "https://go.dev/dl/go" ++ version ++ "." ++ GOOS ++ "-" ++ goArch ++ ".tar.gz".

(** The body of the loop over [targetVersions]: both of its ends [break]. *)
Definition tryTarget (GOOS goArch : string) (allVersions : option (list GoVersionInfo))
  (targetVer : string) (st : selection) : IO (ctl selection) :=
  let originalTargetVer := targetVer in
  targetVer ← (if (CountByte targetVer "." =? 1)%nat then
                 let targetVer := targetVer ++ ".0" in
                 debugPrint ("Appended .0 to version: " ++ originalTargetVer ++ " -> "
                             ++ targetVer) ;;
                 mret targetVer
               else mret targetVer);
  st ← match allVersions with
       | Some versions => forRangeIO (searchRequested GOOS goArch targetVer) versions st
       | None => mret st
       end;
  if foundDownloadable st then mret (Break st)
  else
    Printf ("Warning: Could not find specified version " ++ originalTargetVer ++ " ("
            ++ GOOS ++ "/" ++ goArch ++ ") in JSON API. Attempting to construct URL..."
            ++ nl) ;;
    let url := constructedURL targetVer GOOS goArch in
    Printf ("Attempting to construct download URL: " ++ url ++ nl) ;;
    mret (Break {| versionToInstall := targetVer;
                   downloadURL := url;
                   foundDownloadable := true |}).

(** [main], from the declaration of [versionToInstall] and [downloadURL]
    to the end of the [if len(targetVersions) > 0] statement: the version
    and the URL to download, or an exit.  [%v] shows the requested
    versions between brackets with a space between them: the [String]
    method of [listArgs] has a pointer receiver, so it is not called for
    the value that [debugPrint] is given. *)
Definition selectRelease `{UnicodeTables} (GOOS goArch : string)
  (targetVersions : list string) (allVersions : option (list GoVersionInfo))
  : IO (outcome (string * string)) :=
  let st0 := {| versionToInstall := ""; downloadURL := ""; foundDownloadable := false |} in
  if (0 <? length targetVersions)%nat then
    debugPrint ("Target versions specified: [" ++ Strings.Join targetVersions " " ++ "]") ;;
    st ← forRangeIO (tryTarget GOOS goArch allVersions) targetVersions st0;
    if negb (foundDownloadable st) then
      Eprintf ("Error: No matching Go version found for installation. "
               ++ "Please check the version number and system architecture." ++ nl) ;;
      mret (Exit 1)
    else mret (Proceed (versionToInstall st, downloadURL st))
  else
    debugPrint "No target version specified" ;;
    st ← match allVersions with
         | Some versions =>
             debugPrint "Looking for latest stable version in JSON API" ;;
             forRangeIO (searchStable GOOS goArch) versions st0
         | None => mret st0
         end;
    r ← (if negb (foundDownloadable st) || String.eqb (downloadURL st) "" then
           Println ("Warning: Could not find latest stable version in JSON API. "
                    ++ "Attempting to get latest version from go.dev/VERSION?m=text "
                    ++ "using HTTP request...") ;;
           latest ← getLatestGoVersionFromTextHTTP;
           match latest with
           | Err err =>
               Eprintf ("Error: Failed to get latest Go version from text URL via HTTP: "
                        ++ Error err ++ nl) ;;
               Eprintf ("Error: Could not determine Go version to install." ++ nl) ;;
               mret (Exit 1)
           | Ok latestVer =>
               let url := constructedURL latestVer GOOS goArch in
               Printf ("Deduced latest version: " ++ latestVer
                       ++ ", Constructed download URL: " ++ url ++ nl) ;;
               mret (Proceed {| versionToInstall := latestVer;
                                downloadURL := url;
                                foundDownloadable := true |})
           end
         else mret (Proceed st));
    match r with
    | Exit code => mret (Exit code)
    | Proceed st =>
        if negb (foundDownloadable st) then
          Eprintf ("Error: Internal error: Failed to determine version and download URL."
                   ++ nl) ;;
          mret (Exit 1)
        else
          Printf ("No version specified, installing latest stable version: "
                  ++ versionToInstall st ++ nl) ;;
          mret (Proceed (versionToInstall st, downloadURL st))
    end.

(* ================================================================== *)
(** * Archive extraction *)
(* ================================================================== *)

Module Tar.

(** The fields of [tar.Header] that extraction reads. *)
Record Header := {
  Name : string;
  Typeflag : ascii;
  Mode : Z
}.

Definition TypeReg : ascii := "0"%char.
Definition TypeLink : ascii := "1"%char.
Definition TypeSymlink : ascii := "2"%char.
Definition TypeDir : ascii := "5"%char.

(** What [tr.Next()] yields, one call after the other: a header with the
    bytes of its entry, or an error other than [io.EOF]; the end of the
    list is [io.EOF]. *)
Inductive item :=
| Entry (header : Header) (data : string)
| Broken (err : error).

(** What [gzip.NewReader] makes of the bytes of a file: an error, or the
    stream the tar reader walks. *)
Inductive archive :=
| NotGzip (err : error)
| Stream (items : list item).

(** The gzip and tar formats belong to Go's library. *)
Class Codec := { decode : string -> archive }.

End Tar.

Import Tar.

(** [os.Open(name)] of the archive: its bytes, read as the decoder asks. *)
Definition Open (name : string) : IO (result string) := fun w =>
  if faulty w SOpen name then (Err (PathError "open" name EIO), w)
  else match files w !! name with
       | Some (File _ data) => (Ok data, w)
       | Some (Dir _) => (Err (PathError "read" name EISDIR), w)
       | None => (Err (PathError "open" name ENOENT), w)
       end.

(** [os.FileMode(header.Mode)]: an [int64] converted to [uint32]. *)
Definition FileMode (mode : Z) : Z := (mode mod 2 ^ 32)%Z.

(** [m.String()] of [fs.FileMode], which [%v] shows: a letter for each
    bit set from bit 31 downwards ("-" when none is), then the nine
    permission bits. *)
Fixpoint typeLetters (str : string) (i : Z) (m : Z) : string :=
  match str with
  | EmptyString => ""
  | String c rest =>
      if Z.testbit m (32 - 1 - i) then String c (typeLetters rest (i + 1) m)
      else typeLetters rest (i + 1) m
  end.

Fixpoint permLetters (rwx : string) (i : Z) (m : Z) : string :=
  match rwx with
  | EmptyString => ""
  | String c rest =>
      String (if Z.testbit m (9 - 1 - i) then c else "-"%char)
             (permLetters rest (i + 1) m)
  end.

Definition FileModeString (m : Z) : string :=
  let types := typeLetters "dalTLDpSugct?" 0 m in
  (if String.eqb types "" then "-" else types) ++ permLetters "rwxrwxrwx" 0 m.

(** The [for] loop of [extractTarGz] over the entries still to come. *)
Fixpoint extractEntries (destDir : string) (items : list item) : IO (option error) :=
  match items with
  | [] => mret None
  | Broken err :: _ => mret (Some err)
  | Entry header data :: rest =>
      let target := Filepath.Join [destDir; Name header] in
      if negb (HasPrefix target (destDir ++ "/")) then
        mret (Some (Errorf ("illegal file path: " ++ target)))
      else if Ascii.eqb (Typeflag header) TypeDir then
        err ← Stat target;
        if IsNotExist err then
          err ← MkdirAll target (FileMode (Mode header));
          match err with
          | Some e => mret (Some e)
          | None => extractEntries destDir rest
          end
        else
          match err with
          | Some e => mret (Some e)
          | None =>
              debugPrint ("Directory " ++ target ++ " already exists, setting mode to "
                          ++ FileModeString (FileMode (Mode header))) ;;
              err ← Chmod target (FileMode (Mode header));
              match err with
              | Some e => mret (Some e)
              | None => extractEntries destDir rest
              end
          end
      else if Ascii.eqb (Typeflag header) TypeReg then
        f ← OpenFile target (Z.lor O_CREATE (Z.lor O_RDWR O_TRUNC)) (FileMode (Mode header));
        match f with
        | Err e => mret (Some e)
        | Ok f =>
            err ← WriteString f data;
            match err with
            | Some e => mret (Some e)
            | None => extractEntries destDir rest
            end
        end
      else extractEntries destDir rest
  end.

Definition extractTarGz `{Codec} (filePath destDir : string) : IO (option error) :=
  file ← Open filePath;
  match file with
  | Err err => mret (Some err)
  | Ok bytes =>
      match decode bytes with
      | NotGzip err => mret (Some err)
      | Stream items => extractEntries destDir items
      end
  end.

(* ================================================================== *)
(** * [main]: clearing the old installation and unpacking *)
(* ================================================================== *)

(** [rootMode && os.Geteuid() == 0]. *)
Definition asRoot (rootMode : bool) (euid : Z) : bool := rootMode && (euid =? 0)%Z.

(** From "Cleaning up old installation directory" to the end of the
    [if _, err := os.Stat(cleanupPath)] statement.  Gives [installPath]. *)
Definition cleanupOldInstall (rootMode : bool) (euid : Z) (installPath : string)
  : IO string :=
  Printf ("Cleaning up old installation directory (if exists)...." ++ nl) ;;
  let cleanupPath := if asRoot rootMode euid then "/usr/local/go" else installPath in
  let installPath := if asRoot rootMode euid then "/usr/local/go" else installPath in
  (if asRoot rootMode euid then
     debugPrint ("Root mode enabled and has root privileges. "
                 ++ "Cleaning up global installation path: " ++ cleanupPath) ;;
     debugPrint ("Setting global installation path to: " ++ installPath)
   else debugPrint ("Cleaning up user installation path: " ++ cleanupPath)) ;;
  debugPrint ("Checking installation path for cleanup: " ++ cleanupPath) ;;
  err ← Stat cleanupPath;
  (if negb (IsNotExist err) then
     debugPrint "Old installation directory found, removing..." ;;
     err ← RemoveAll cleanupPath;
     match err with
     | Some e =>
         Eprintf ("Error: Failed to clean up old installation directory: "
                  ++ Error e ++ nl)
     | None => debugPrint "Old installation directory cleaned up"
     end
   else debugPrint "Old installation directory not found, skipping cleanup") ;;
  mret installPath.

(** From "Extracting installation package" to "Extraction complete". *)
Definition extractPackage `{Codec} (rootMode : bool) (euid : Z)
  (homeDir installPath downloadFilePath : string) : IO (outcome unit) :=
  Printf ("Extracting installation package to " ++ installPath ++ "..." ++ nl) ;;
  let extractDestDir :=
    if asRoot rootMode euid then "/usr/local" else Filepath.Join [homeDir; ".local"] in
  (if asRoot rootMode euid then
     debugPrint ("Root mode enabled and has root privileges. "
                 ++ "Extracting to global directory: " ++ extractDestDir)
   else debugPrint ("Extracting to user directory: " ++ extractDestDir)) ;;
  debugPrint ("Extracting " ++ downloadFilePath ++ " to " ++ extractDestDir) ;;
  err ← extractTarGz downloadFilePath extractDestDir;
  match err with
  | Some e =>
      Eprintf ("Error: Failed to extract installation package: " ++ Error e ++ nl) ;;
      mret (Exit 1)
  | None =>
      Printf ("Extraction complete" ++ nl) ;;
      mret (Proceed tt)
  end.

(** The two steps as [main] runs them, one after the other, with
    [installPath := filepath.Join(homeDir, ".local", "go")]. *)
Definition installPackage `{Codec} (rootMode : bool) (euid : Z)
  (homeDir downloadFilePath : string) : IO (outcome string) :=
  installPath ← cleanupOldInstall rootMode euid (Filepath.Join [homeDir; ".local"; "go"]);
  r ← extractPackage rootMode euid homeDir installPath downloadFilePath;
  match r with
  | Exit code => mret (Exit code)
  | Proceed _ => mret (Proceed installPath)
  end.

(* ================================================================== *)
(** * PATH configuration *)
(* ================================================================== *)

Definition quote : string := String (ascii_of_nat 34) "".

(** [fmt.Sprintf("export PATH=\"%s:$PATH\"", goBinPath)]. *)
Definition exportLineFor (goBinPath : string) : string :=
  "export PATH=" ++ quote ++ goBinPath ++ ":$PATH" ++ quote.

Definition printManualPathInstruction (installPath : string) : IO unit :=
  Println (nl ++ "Manual step required:") ;;
  Println "Please add Go's bin directory to your PATH environment variable" ;;
  Println ("You can add the following line to your shell configuration file "
           ++ "(e.g., ~/.bashrc, ~/.zshrc, ~/.profile):") ;;
  Printf (nl ++ "export PATH=" ++ quote ++ installPath ++ "/bin:$PATH" ++ quote ++ nl ++ nl) ;;
  Println "After adding the line, please run the following command to apply the changes:" ;;
  Printf ("source ~/.bashrc  (or your shell configuration file)" ++ nl).

Definition printUserActivationInstruction (profilePath : string) : IO unit :=
  Println (nl ++ "To activate the changes for your user, please either:") ;;
  Println "1. Log out and log back in" ;;
  Printf ("2. Run: source " ++ profilePath ++ nl) ;;
  Println (nl ++ "After that, you can run 'go version' to verify the installation").

Definition printGlobalActivationInstruction (profilePath : string) : IO unit :=
  Println (nl ++ "To activate the global changes, please either:") ;;
  Println "1. Log out and log back in (for all users)" ;;
  Printf ("2. Run: source " ++ profilePath ++ nl) ;;
  Println (nl ++ "After that, you can open a new terminal or run 'go version' "
           ++ "to verify the installation").

(** The three lines every failure of [configureUserPath] prints. *)
Definition manualFallback (what : string) (installPath : string) : IO unit :=
  Eprintf ("Warning: " ++ what ++ nl) ;;
  Println "Please manually add Go's bin directory to your PATH" ;;
  printManualPathInstruction installPath.

Definition configureUserPath (homeDir installPath : string) : IO unit :=
  let profilePath := Filepath.Join [homeDir; ".profile"] in
  let goBinPath := Filepath.Join [installPath; "bin"] in
  let exportLine := exportLineFor goBinPath in
  Printf ("Attempting to add Go bin directory to " ++ profilePath ++ "..." ++ nl) ;;
  err ← Stat profilePath;
  if IsNotExist err then
    Printf (".profile not found, creating " ++ profilePath ++ "..." ++ nl) ;;
    file ← Create profilePath;
    match file with
    | Err createErr =>
        manualFallback ("Failed to create " ++ profilePath ++ ": " ++ Error createErr)
                       installPath
    | Ok file =>
        writeErr ← WriteString file (exportLine ++ nl);
        match writeErr with
        | Some e =>
            manualFallback ("Failed to write to " ++ profilePath ++ ": " ++ Error e)
                           installPath
        | None =>
            Printf ("Added '" ++ exportLine ++ "' to " ++ profilePath ++ "." ++ nl) ;;
            printUserActivationInstruction profilePath
        end
    end
  else
    match err with
    | Some e =>
        manualFallback ("Failed to check " ++ profilePath ++ ": " ++ Error e) installPath
    | None =>
        content ← ReadFile profilePath;
        match content with
        | Err readErr =>
            manualFallback ("Failed to read " ++ profilePath ++ ": " ++ Error readErr)
                           installPath
        | Ok content =>
            if Contains content goBinPath then
              Printf (profilePath ++ " already contains Go bin directory in PATH. "
                      ++ "Skipping modification." ++ nl) ;;
              printUserActivationInstruction profilePath
            else
              file ← OpenFile profilePath (Z.lor O_APPEND O_WRONLY) 420;
              match file with
              | Err openErr =>
                  manualFallback ("Failed to open " ++ profilePath ++ " for appending: "
                                  ++ Error openErr) installPath
              | Ok file =>
                  writeErr ← WriteString file (nl ++ exportLine ++ nl);
                  match writeErr with
                  | Some e =>
                      manualFallback ("Failed to write to " ++ profilePath ++ ": "
                                      ++ Error e) installPath
                  | None =>
                      Printf ("Appended '" ++ exportLine ++ "' to " ++ profilePath
                              ++ "." ++ nl) ;;
                      printUserActivationInstruction profilePath
                  end
              end
        end
    end.

(** What every failure of the system-wide branch does: the message on the
    error stream, then the user configuration. *)
Definition userFallback (what : string) (homeDir installPath : string) : IO unit :=
  Eprintf (what ++ nl) ;;
  Println "Falling back to user configuration..." ;;
  configureUserPath homeDir installPath.

(** The system-wide branch of [main], taken when [--root] is set and the
    effective user is root. *)
Definition configureSystemPath (homeDir installPath : string) : IO unit :=
  let goBinPath := Filepath.Join [installPath; "bin"] in
  Println "Attempting to configure PATH globally..." ;;
  let systemGoProfilePath :=
    Filepath.Join [systemProfileDDirextory; systemGoProfileFilename] in
  let exportLine := exportLineFor goBinPath in
  err ← Stat systemProfileDDirextory;
  if IsNotExist err then
    userFallback
      ("Error: Directory " ++ systemProfileDDirextory
       ++ " does not exist. Cannot configure PATH globally.") homeDir installPath
  else
    match err with
    | Some e =>
        userFallback
          ("Error: Failed to check directory " ++ systemProfileDDirextory ++ ": "
           ++ Error e) homeDir installPath
    | None =>
        err ← Stat systemGoProfilePath;
        if IsNotExist err then
          Printf (systemGoProfileFilename ++ " not found, creating "
                  ++ systemGoProfilePath ++ "..." ++ nl) ;;
          file ← Create systemGoProfilePath;
          match file with
          | Err createErr =>
              userFallback
                ("Warning: Failed to create " ++ systemGoProfilePath ++ ": "
                 ++ Error createErr) homeDir installPath
          | Ok file =>
              writeErr ← WriteString file (exportLine ++ nl);
              match writeErr with
              | Some e =>
                  userFallback
                    ("Warning: Failed to write to " ++ systemGoProfilePath ++ ": "
                     ++ Error e) homeDir installPath
              | None =>
                  Printf ("Added '" ++ exportLine ++ "' to " ++ systemGoProfilePath
                          ++ "." ++ nl) ;;
                  printGlobalActivationInstruction systemGoProfilePath
              end
          end
        else
          match err with
          | Some e =>
              userFallback
                ("Warning: Failed to check " ++ systemGoProfilePath ++ ": " ++ Error e)
                homeDir installPath
          | None =>
              content ← ReadFile systemGoProfilePath;
              match content with
              | Err readErr =>
                  userFallback
                    ("Warning: Failed to read " ++ systemGoProfilePath ++ ": "
                     ++ Error readErr) homeDir installPath
              | Ok content =>
                  if Contains content goBinPath then
                    Printf (systemGoProfilePath
                            ++ " already contains Go bin directory in PATH. "
                            ++ "Skipping modification." ++ nl) ;;
                    printGlobalActivationInstruction systemGoProfilePath
                  else
                    file ← OpenFile systemGoProfilePath (Z.lor O_APPEND O_WRONLY) 420;
                    match file with
                    | Err openErr =>
                        userFallback
                          ("Warning: Failed to open " ++ systemGoProfilePath
                           ++ " for appending: " ++ Error openErr) homeDir installPath
                    | Ok file =>
                        writeErr ← WriteString file (nl ++ exportLine ++ nl);
                        match writeErr with
                        | Some e =>
                            userFallback
                              ("Warning: Failed to write to " ++ systemGoProfilePath
                               ++ ": " ++ Error e) homeDir installPath
                        | None =>
                            Printf ("Appended '" ++ exportLine ++ "' to "
                                    ++ systemGoProfilePath ++ "." ++ nl) ;;
                            printGlobalActivationInstruction systemGoProfilePath
                        end
                    end
              end
          end
    end.

(** [main], from [goBinPath := filepath.Join(installPath, "bin")] to the
    end of the [if rootMode && os.Geteuid() == 0] statement. *)
Definition configurePath (rootMode : bool) (euid : Z) (homeDir installPath : string)
  : IO unit :=
  if asRoot rootMode euid then configureSystemPath homeDir installPath
  else
    (if rootMode && negb (euid =? 0)%Z then
       Println ("Warning: --root flag set, but not running with root privileges. "
                ++ "Falling back to user configuration.")
     else Println "Configuring PATH for current user...") ;;
    configureUserPath homeDir installPath.

(* ================================================================== *)
(** * Reference semantics, in the words of the specification *)
(* ================================================================== *)

(** "Normalize it to append .0 when exactly one dot is present." *)
Definition normalizeVersion (requested : string) : string :=
  if (CountByte requested "." =? 1)%nat then requested ++ ".0" else requested.

(** "Strip the fixed prefix before equality-testing." *)
Definition strippedVersion (v : GoVersionInfo) : string := TrimPrefix (Version v) "go".

(** "An entry whose stripped version equals the normalized string; within
    that entry, an artifact whose OS, architecture and kind all match the
    host: take the first such match." *)
Definition catalogMatch (GOOS goArch key : string) (catalog : list GoVersionInfo)
  : option (GoVersionInfo * FileInfo) :=
  match find (fun v => String.eqb (strippedVersion v) key
                       && existsb (hostArchive GOOS goArch) (Files v)) catalog with
  | Some v =>
      match find (hostArchive GOOS goArch) (Files v) with
      | Some f => Some (v, f)
      | None => None
      end
  | None => None
  end.

(** "The first entry marked stable whose artifact list contains an
    OS/architecture/kind match." *)
Definition stableMatch (GOOS goArch : string) (catalog : list GoVersionInfo)
  : option (GoVersionInfo * FileInfo) :=
  match find (fun v => Stable v && existsb (hostArchive GOOS goArch) (Files v)) catalog with
  | Some v =>
      match find (hostArchive GOOS goArch) (Files v) with
      | Some f => Some (v, f)
      | None => None
      end
  | None => None
  end.

(** The catalog as [main] holds it: nil when the fetch failed. *)
Definition lookupCatalog (GOOS goArch : string)
  (allVersions : option (list GoVersionInfo)) (key : string)
  : option (GoVersionInfo * FileInfo) :=
  match allVersions with
  | Some catalog => catalogMatch GOOS goArch key catalog
  | None => None
  end.

(** "That artifact's exact filename URL", with the entry's stripped
    version. *)
Definition chosen (v : GoVersionInfo) (f : FileInfo) : selection :=
  {| versionToInstall := strippedVersion v;
     downloadURL := "https://go.dev/dl/" ++ Filename f;
     foundDownloadable := true |}.

(** The two lines printed when a URL is constructed for a request. *)
Definition constructionNotices (GOOS goArch requested version : string) (w : world)
  : world :=
  emit Stdout ("Attempting to construct download URL: "
               ++ constructedURL version GOOS goArch ++ nl)
    (emit Stdout ("Warning: Could not find specified version " ++ requested ++ " ("
                  ++ GOOS ++ "/" ++ goArch
                  ++ ") in JSON API. Attempting to construct URL..." ++ nl) w).

(** What the console shows when the latest version cannot be determined. *)
Definition latestWarning : string :=
  ("Warning: Could not find latest stable version in JSON API. "
   ++ "Attempting to get latest version from go.dev/VERSION?m=text "
   ++ "using HTTP request...") ++ nl.

Definition latestFailureLines (err : error) : list (stream * string) :=
  [(Stdout, latestWarning);
   (Stderr, "Error: Failed to get latest Go version from text URL via HTTP: "
            ++ Error err ++ nl);
   (Stderr, "Error: Could not determine Go version to install." ++ nl)].

(** What the console shows when the old installation cannot be removed. *)
Definition cleanupFailureLines (installPath : string) : list (stream * string) :=
  [(Stdout, "Cleaning up old installation directory (if exists)...." ++ nl);
   (Stderr, "Error: Failed to clean up old installation directory: "
            ++ Error (PathError "unlinkat" installPath EIO) ++ nl)].

(** The aliases of the architecture mapper and their canonical names. *)
Definition archAliases : list (string * string) :=
  [("x86_64", "amd64"); ("amd64", "amd64"); ("aarch64", "arm64"); ("arm64", "arm64");
   ("i386", "386"); ("i686", "386"); ("armv6l", "arm"); ("armv7l", "arm");
   ("ppc64le", "ppc64le"); ("s390x", "s390x")].

(* ================================================================== *)
(** * Summaries used by the proofs *)
(* ================================================================== *)

(** An ordinary path element: not empty, not [.], not [..], and without a
    separator. *)
Definition ordinary (elem : string) : Prop :=
  elem <> "" /\ elem <> "." /\ elem <> ".." /\ CountByte elem Filepath.Separator = 0.

(** [below d p]: [p] is the joined path of an entry name under [d] and has
    [d] followed by the separator as a prefix, the test of [extractTarGz]. *)
Definition below (d p : string) : Prop :=
  HasPrefix p (d ++ "/") = true /\ exists name, p = Filepath.Join [d; name].

(** [confined d w w']: from [w] to [w'] the refused calls are the same,
    every call journalled in between names a path [below] [d], and no file
    or directory that was there outside [d] has changed. *)
Definition confined (d : string) (w w' : world) : Prop :=
  faults w' = faults w
  /\ (exists new, journal w' = app (journal w) new
                  /\ Forall (fun call => below d call.2) new)
  /\ (forall p, HasPrefix p (d ++ "/") = false -> is_Some (files w !! p) ->
      files w' !! p = files w !! p).

(** The routine that [configureUserPath] and the system-wide branch of
    [main] both spell out: make sure the profile exports the bin path,
    [fail] with what went wrong, or be [done] with what to print. *)
Definition ensureExportLine (profilePath goBinPath shortName : string)
  (fail done : string -> IO unit) : IO unit :=
  let exportLine := exportLineFor goBinPath in
  err ← Stat profilePath;
  if IsNotExist err then
    Printf (shortName ++ " not found, creating " ++ profilePath ++ "..." ++ nl) ;;
    file ← Create profilePath;
    match file with
    | Err createErr =>
        fail ("Failed to create " ++ profilePath ++ ": " ++ Error createErr)
    | Ok file =>
        writeErr ← WriteString file (exportLine ++ nl);
        match writeErr with
        | Some e => fail ("Failed to write to " ++ profilePath ++ ": " ++ Error e)
        | None => done ("Added '" ++ exportLine ++ "' to " ++ profilePath ++ "." ++ nl)
        end
    end
  else
    match err with
    | Some e => fail ("Failed to check " ++ profilePath ++ ": " ++ Error e)
    | None =>
        content ← ReadFile profilePath;
        match content with
        | Err readErr =>
            fail ("Failed to read " ++ profilePath ++ ": " ++ Error readErr)
        | Ok content =>
            if Contains content goBinPath then
              done (profilePath ++ " already contains Go bin directory in PATH. "
                    ++ "Skipping modification." ++ nl)
            else
              file ← OpenFile profilePath (Z.lor O_APPEND O_WRONLY) 420;
              match file with
              | Err openErr =>
                  fail ("Failed to open " ++ profilePath ++ " for appending: "
                        ++ Error openErr)
              | Ok file =>
                  writeErr ← WriteString file (nl ++ exportLine ++ nl);
                  match writeErr with
                  | Some e =>
                      fail ("Failed to write to " ++ profilePath ++ ": " ++ Error e)
                  | None =>
                      done ("Appended '" ++ exportLine ++ "' to " ++ profilePath
                            ++ "." ++ nl)
                  end
              end
        end
    end.

(** What one run of the profile routine leaves at the profile path, and
    whether it ended in its failure handler: read off the node that is
    there, the calls the environment refuses on that path, and whether the
    directory of the path is there. *)
Definition ensureNode (goBinPath : string) (refused : syscall -> bool)
  (parentOk : bool) (cur : option node) : option node * bool :=
  if refused SStat then (cur, true)
  else
    match cur with
    | None =>
        if refused SOpenFile || negb parentOk then (None, true)
        else if refused SWrite then (Some (File 438 ""), true)
        else (Some (File 438 (exportLineFor goBinPath ++ nl)), false)
    | Some (Dir _) => (cur, true)
    | Some (File perm content) =>
        if refused SReadFile then (cur, true)
        else if Contains content goBinPath then (cur, false)
        else if refused SOpenFile then (cur, true)
        else if refused SWrite then (cur, true)
        else (Some (File perm (content ++ nl ++ exportLineFor goBinPath ++ nl)), false)
    end.

(** The file tree with the node at [path] replaced; [None] leaves it. *)
Definition writeBack (path : string) (n : option node) (m : gmap string node)
  : gmap string node :=
  match n with
  | Some x => <[path := x]> m
  | None => m
  end.

(** [faulty] read off the list of refused calls. *)
Definition refusedAt (refused : list (syscall * string)) (path : string) (c : syscall)
  : bool :=
  bool_decide ((c, path) ∈ refused).

(** [ensureNode] at [path] in the file tree [m]. *)
Definition ensured (goBinPath path : string) (refused : list (syscall * string))
  (m : gmap string node) : option node * bool :=
  ensureNode goBinPath (refusedAt refused path) (parentIsDir m path) (m !! path).

(** [touches B P w w0]: [w0] is [w] after one run of the profile routine
    on [P], as far as the file tree and the journal go. *)
Definition touches (goBinPath path : string) (w w0 : world) : Prop :=
  faults w0 = faults w
  /\ files w0 = writeBack path (ensured goBinPath path (faults w) (files w)).1 (files w)
  /\ exists new,
       journal w0 = app (journal w) new
       /\ Forall (fun call => call.2 = path) new
       /\ (forall perm content,
             files w !! path = Some (File perm content) ->
             Contains content goBinPath = true -> new = []).

(** The file tree after one run of the profile routine on [path]. *)
Definition after (goBinPath path : string) (refused : list (syscall * string))
  (m : gmap string node) : gmap string node :=
  writeBack path (ensured goBinPath path refused m).1 m.

(** The last byte of a string. *)
Fixpoint lastByte (s : string) : option ascii :=
  match s with
  | EmptyString => None
  | String c EmptyString => Some c
  | String _ s' => lastByte s'
  end.

(** Something is at [path]. *)
Definition present (m : gmap string node) (path : string) : bool :=
  match m !! path with Some _ => true | None => false end.

(** The file tree after the system-wide branch, read off the tree before
    it and the refused calls. *)
Definition sysDisk (goBinPath userProfile : string) (refused : list (syscall * string))
  (m : gmap string node) : gmap string node :=
  let systemProfile := Filepath.Join [systemProfileDDirextory; systemGoProfileFilename] in
  if refusedAt refused systemProfileDDirextory SStat
     || negb (present m systemProfileDDirextory)
  then after goBinPath userProfile refused m
  else
    let r := ensured goBinPath systemProfile refused m in
    let m1 := writeBack systemProfile r.1 m in
    if r.2 then after goBinPath userProfile refused m1 else m1.

(** Nothing but the console differs. *)
Definition silent (w w' : world) : Prop :=
  files w' = files w /\ faults w' = faults w /\ journal w' = journal w.

(** The node at [path] is as it was, and no call journalled in between
    names [path]. *)
Definition spares (path : string) (w w' : world) : Prop :=
  files w' !! path = files w !! path
  /\ exists new, journal w' = app (journal w) new
                 /\ Forall (fun call => call.2 <> path) new.

(** The file at [path] contains the bin path. *)
Definition holdsBinPath (goBinPath path : string) (w : world) : Prop :=
  exists perm content,
    files w !! path = Some (File perm content) /\ Contains content goBinPath = true.

(** The world after more lines on the console, oldest first. *)
Fixpoint emitAll (lines : list (stream * string)) (w : world) : world :=
  match lines with
  | [] => w
  | line :: rest => emitAll rest (emit line.1 line.2 w)
  end.

(** A line that [debugPrint] writes. *)
Definition debugLine (line : stream * string) : Prop :=
  exists text, line = (Stdout, "Debug: " ++ text ++ nl).

(** [debugged w w']: from [w] to [w'] only lines of [debugPrint] were
    printed, and none of them when debug mode is off. *)
Definition debugged (w w' : world) : Prop :=
  exists notes,
    w' = emitAll notes w /\ Forall debugLine notes
    /\ (debugMode w = false -> notes = []).

(* ================================================================== *)
(** * Fixtures for the worked examples *)
(* ================================================================== *)

(** Every string of the examples is ASCII, so these tables are not
    consulted there; the theorems hold for all tables. *)
Definition asciiTables : UnicodeTables :=
  {| MapToLower := fun s => s; TrimSpaceRunes := fun s => s |}.

(** A decoder that reads every file as one given stream. *)
Definition fixedCodec (items : list item) : Codec :=
  {| decode := fun _ => Stream items |}.

Definition emptyWorld : world :=
  {| files := ∅; faults := []; journal := [];
     catalogEndpoint := GetFailed "offline"; textEndpoint := GetFailed "offline";
     requests := []; console := []; debugMode := false |}.

Definition withTree (tree : list (string * node)) (refused : list (syscall * string))
  : world :=
  {| files := list_to_map tree; faults := refused; journal := [];
     catalogEndpoint := GetFailed "offline"; textEndpoint := GetFailed "offline";
     requests := []; console := []; debugMode := false |}.

Definition go1_22_0 : GoVersionInfo :=
  {| Version := "go1.22.0"; Stable := true;
     Files := [ {| Filename := "go1.22.0.src.tar.gz"; OS := ""; Arch := "";
                   Checksum := ""; Size := 27000000; Kind := "source" |};
                {| Filename := "go1.22.0.linux-amd64.tar.gz"; OS := "linux";
                   Arch := "amd64"; Checksum := ""; Size := 68000000;
                   Kind := "archive" |} ] |}.

Definition go1_23rc1 : GoVersionInfo :=
  {| Version := "go1.23rc1"; Stable := false;
     Files := [ {| Filename := "go1.23rc1.linux-amd64.tar.gz"; OS := "linux";
                   Arch := "amd64"; Checksum := ""; Size := 70000000;
                   Kind := "archive" |} ] |}.

(** Archive entries and file trees of the examples. *)
Definition goDirEntry : item :=
  Entry {| Name := "go/"; Typeflag := TypeDir; Mode := 493 |} "".

Definition versionEntry : item :=
  Entry {| Name := "go/VERSION"; Typeflag := TypeReg; Mode := 420 |} "go1.22.0".

Definition evilEntry (flag : ascii) : item :=
  Entry {| Name := "../../evil"; Typeflag := flag; Mode := 420 |} "payload".

Definition linkEntry : item :=
  Entry {| Name := "go/bin/gofmt"; Typeflag := TypeSymlink; Mode := 511 |} "".

Definition userTree : list (string * node) :=
  [("/tmp/go.tar.gz", File 420 "bytes"); ("/home", Dir 493); ("/home/u", Dir 493);
   ("/home/u/.local", Dir 493)].

Definition staleTree : list (string * node) :=
  [("/tmp/go.tar.gz", File 420 "bytes"); ("/home", Dir 493); ("/home/u", Dir 493);
   ("/home/u/.local", Dir 493); ("/home/u/.local/go", Dir 493);
   ("/home/u/.local/go/bin", Dir 493);
   ("/home/u/.local/go/bin/oldtool", File 493 "go1.19")].

(* ================================================================== *)
(** * Human-readable sizes ([formatBytes]) *)
(* ================================================================== *)

(** How a call ends: with a value, in a run-time panic, or not within the
    steps the model grants a loop. *)
Inductive ran (A : Type) :=
| Returns (a : A)
| Panics (what : string)
| Unfinished.
Arguments Returns {A} a.
Arguments Panics {A} what.
Arguments Unfinished {A}.

(** An [int64] after an arithmetic operation: the result wraps around. *)
Definition wrapInt64 (z : Z) : Z := ((z + 2 ^ 63) mod 2 ^ 64 - 2 ^ 63)%Z.

(** The numbers that go through [float64] and the verbs of [fmt] for
    them belong to Go's library. *)
Class Rendering := {
  (** [fmt.Sprintf("%.1f", float64(a)/float64(b))] *)
  quotient1 : Z -> Z -> string;
  (** [fmt.Sprintf("%.2f", float64(a)/float64(b)*100)] *)
  percent2 : Z -> Z -> string;
  (** [float64(a)/elapsed.Seconds()] as [int64(...)] converts it *)
  speedOf : Z -> Z -> Z;
  (** [elapsed.Truncate(time.Second)] as [%s] prints it *)
  truncatedSeconds : Z -> string
}.

(** [for n := bytes / unit; n >= unit; n /= unit { div *= unit; exp++ }],
    from the values of [n], [div] and [exp] before a test of the
    condition; [fuel] bounds the passes. *)
Fixpoint unitLoop (fuel : nat) (n div : Z) (exp : nat) : option (Z * nat) :=
  if (1024 <=? n)%Z then
    match fuel with
    | O => None
    | S fuel' => unitLoop fuel' (Z.quot n 1024) (wrapInt64 (div * 1024)) (S exp)
    end
  else Some (div, exp).

(** [formatBytes].  Each pass of the loop divides an [int64] by 1024: 64
    passes are more than any value allows. *)
Definition formatBytes `{Rendering} (bytes : Z) : ran string :=
  if (bytes <? 1024)%Z then Returns (pretty bytes ++ " B")
  else
    match unitLoop 64 (Z.quot bytes 1024) 1024 0 with
    | None => Unfinished
    | Some (div, exp) =>
        match String.get exp "KMGTPE" with
        | None => Panics "index out of range"
        | Some unit => Returns (quotient1 bytes div ++ " " ++ String unit "iB")
        end
    end.

(* ================================================================== *)
(** * Download with a progress report *)
(* ================================================================== *)

#[global] Instance ran_ret : MRet ran := fun A a => Returns a.
#[global] Instance ran_bind : MBind ran := fun A B f m =>
  match m with
  | Returns a => f a
  | Panics what => Panics what
  | Unfinished => Unfinished
  end.

(** The process clock: [readings k] is what the call number [k] of
    [time.Now] gives, in nanoseconds; [taken] counts the calls made. *)
Record timer := {
  readings : nat -> Z;
  taken : nat
}.

(** [time.Now()]. *)
Definition Now (t : timer) : Z * timer :=
  (readings t (taken t), {| readings := readings t; taken := S (taken t) |}).

(** [time.Since(t)] takes one reading.  [None] is the zero [time.Time],
    for which the difference saturates at the largest [Duration]. *)
Definition Since (since : option Z) (t : timer) : Z * timer :=
  let '(now, t) := Now t in
  (match since with
   | None => 2 ^ 63 - 1
   | Some before => now - before
   end%Z, t).

Record progressBarWriter := {
  Total : Z;
  downloaded : Z;
  start : Z;
  lastPrint : option Z
}.

Definition cr : string := String (ascii_of_nat 13) "".

(** [printProgress]: the text it hands to [fmt.Printf]. *)
Definition printProgress `{Rendering} (pb : progressBarWriter) (t : timer)
  : ran string * timer :=
  if (Total pb <=? 0)%Z then
    (size ← formatBytes (downloaded pb);
     mret (cr ++ "Downloaded: " ++ size), t)
  else
    let '(elapsed, t) := Since (Some (start pb)) t in
    (size ← formatBytes (downloaded pb);
     total ← formatBytes (Total pb);
     speed ← formatBytes (wrapInt64 (speedOf (downloaded pb) elapsed));
     mret (cr ++ "Downloading: " ++ percent2 (downloaded pb) (Total pb) ++ "% ("
           ++ size ++ " / " ++ total ++ ") Speed: " ++ speed ++ "/s Elapsed: "
           ++ truncatedSeconds elapsed), t).

(** [Write] of [progressBarWriter]: the pair it returns, with the writer
    and the clock as the call leaves them. *)
Definition Write `{Rendering} (pb : progressBarWriter) (t : timer) (p : string)
  : IO (ran (Z * option error) * progressBarWriter * timer) := fun w =>
  let n := Z.of_nat (String.length p) in
  let pb := {| Total := Total pb; downloaded := wrapInt64 (downloaded pb + n);
               start := start pb; lastPrint := lastPrint pb |} in
  let '(sinceLast, t) := Since (lastPrint pb) t in
  if (100000000 <? sinceLast)%Z || (downloaded pb =? Total pb)%Z then
    let '(text, t) := printProgress pb t in
    match text with
    | Returns text =>
        let '(now, t) := Now t in
        (Returns (n, None),
         {| Total := Total pb; downloaded := downloaded pb; start := start pb;
            lastPrint := Some now |}, t, emit Stdout text w)
    | Panics what => (Panics what, pb, t, w)
    | Unfinished => (Unfinished, pb, t, w)
    end
  else (Returns (n, None), pb, t, w).

(** What [resp.Body] yields, one read after the other: bytes, or an error
    other than [io.EOF]; the end of the list is [io.EOF]. *)
Inductive packet :=
| Chunk (data : string)
| Fault (err : error).

(** What [http.Get] of the download URL gives. *)
Inductive download :=
| Refused (err : string)
| Answer (status contentLength : Z) (body : list packet).

(** [io.Copy(out, io.TeeReader(resp.Body, progressBar))]: every read that
    brings bytes passes them to the progress writer and then to the file;
    an error of either ends the copy after the bytes were written. *)
Fixpoint copyBody `{Rendering} (out : string) (body : list packet)
  (pb : progressBarWriter) (t : timer) : IO (ran (option error)) :=
  match body with
  | [] => mret (Returns None)
  | Fault err :: _ => mret (Returns (Some err))
  | Chunk data :: rest =>
      if String.eqb data "" then copyBody out rest pb t
      else fun w =>
        let '(r, pb, t, w) := Write pb t data w in
        match r with
        | Returns (_, teeErr) =>
            let '(writeErr, w) := WriteString out data w in
            match writeErr, teeErr with
            | Some e, _ => (Returns (Some e), w)
            | None, Some e => (Returns (Some e), w)
            | None, None => copyBody out rest pb t w
            end
        | Panics what => (Panics what, w)
        | Unfinished => (Unfinished, w)
        end
  end.

(** [downloadFile(url, filepath)], with what the server answers. *)
Definition downloadFile `{Rendering} (t : timer) (resp : download)
  (url filepath : string) : IO (ran (option error)) := fun w =>
  let '(out, w) := Create filepath w in
  match out with
  | Err err => (Returns (Some err), w)
  | Ok out =>
      let w := logRequest url w in
      match resp with
      | Refused err => (Returns (Some (Errorf err)), w)
      | Answer status contentLength body =>
          if negb (status =? 200)%Z then
            (Returns (Some (Errorf ("download failed, status code: " ++ pretty status))), w)
          else
            let w := if (contentLength <=? 0)%Z
                     then emit Stdout ("Warning: Cannot get content length for progress bar"
                                       ++ nl) w
                     else w in
            let '(now, t) := Now t in
            let progressBar := {| Total := contentLength; downloaded := 0; start := now;
                                  lastPrint := None |} in
            let '(r, w) := copyBody out body progressBar t w in
            match r with
            | Returns err => (Returns err, emit Stdout nl w)
            | _ => (r, w)
            end
      end
  end.

(** The bytes a body delivers before it ends or fails, and how it ends. *)
Fixpoint received (body : list packet) : string :=
  match body with
  | Chunk data :: rest => data ++ received rest
  | _ => ""
  end.

Fixpoint verdict (body : list packet) : option error :=
  match body with
  | [] => None
  | Fault err :: _ => Some err
  | Chunk _ :: rest => verdict rest
  end.

(* ================================================================== *)
(** * [main]: the name of the downloaded file *)
(* ================================================================== *)

(** [filepath.Base(path)]: [.] for the empty path; otherwise the trailing
    separators are dropped and what follows the last separator left is
    the base, or the separator itself when nothing is left. *)
Definition Base (path : string) : string :=
  if String.eqb path "" then "."
  else
    let path := trimRightByte path Filepath.Separator in
    let path := default "" (last (SplitByte path Filepath.Separator)) in
    if String.eqb path "" then "/" else path.

(** [main], from "Confirmed download URL" to the end of the check of the
    file name; [tempDir] is what [os.TempDir()] gives.  The stage hands
    on [downloadFileName] and [downloadFilePath]. *)
Definition downloadTarget (tempDir downloadURL : string) : IO (outcome (string * string)) :=
  Printf ("Confirmed download URL: " ++ downloadURL ++ nl) ;;
  Printf ("Downloading installation package..." ++ nl) ;;
  let downloadFileName := Base downloadURL in
  let downloadFilePath := Filepath.Join [tempDir; downloadFileName] in
  debugPrint ("Download file name: " ++ downloadFileName) ;;
  debugPrint ("Download file path: " ++ downloadFilePath) ;;
  if String.eqb downloadFileName "." || String.eqb downloadFileName "" then
    Eprintf ("Error: Invalid download URL or file name extraction failed. Download URL: "
             ++ downloadURL ++ nl) ;;
    mret (Exit 1)
  else mret (Proceed (downloadFileName, downloadFilePath)).

(* ================================================================== *)
(** * Further summaries used by the proofs *)
(* ================================================================== *)

(** The [int8] a byte is stored as in a [[65]int8] field. *)
Definition int8OfByte (c : ascii) : Z :=
  let n := Z.of_N (N_of_ascii c) in
  if (n <? 128)%Z then n else (n - 256)%Z.

(** A string as the kernel lays it out in a field of [Utsname]. *)
Definition cString (s : string) : list Z := map int8OfByte (list_ascii_of_string s).

(** The joined path of an entry, [filepath.Join(destDir, header.Name)]. *)
Definition targetOf (destDir : string) (header : Header) : string :=
  Filepath.Join [destDir; Name header].

(** The joined paths of the entries of a stream, in their order. *)
Fixpoint targets (destDir : string) (items : list item) : list string :=
  match items with
  | [] => []
  | Entry header _ :: rest => targetOf destDir header :: targets destDir rest
  | Broken _ :: rest => targets destDir rest
  end.

(** Both are directories, or both are files. *)
Definition sameKind (a b : node) : bool :=
  match a, b with
  | Dir _, Dir _ => true
  | File _ _, File _ _ => true
  | _, _ => false
  end.

(** Whatever is in [m] is still in [m'], as a node of the same kind. *)
Definition keepsNodes (m m' : gmap string node) : Prop :=
  forall p n, m !! p = Some n -> exists n', m' !! p = Some n' /\ sameKind n n' = true.

(** The node at [p], when there is one, is the same in [w']. *)
Definition keepsAt (p : string) (w w' : world) : Prop :=
  is_Some (files w !! p) -> files w' !! p = files w !! p.

(** Only the console differs: the file tree, the refused calls, the
    journal and the requests are the same. *)
Definition onlyPrints (w w' : world) : Prop :=
  files w' = files w /\ faults w' = faults w /\ journal w' = journal w
  /\ requests w' = requests w.

(** A path element that [Clean] keeps without a look at the others. *)
Definition plain (e : string) : Prop := e <> "" /\ e <> "." /\ e <> "..".

(** The kept elements of [Clean], last-first: names, then (for a relative
    path only) the parent references the path starts with. *)
Definition stackOk (rooted : bool) (kept : list string) : Prop :=
  exists names dots,
    kept = (names ++ dots)%list /\ Forall plain names
    /\ Forall (fun e => e = "..") dots /\ (rooted = true -> dots = []).

(** The elements [Clean] keeps of a path. *)
Definition keptOf (path : string) : list string :=
  fold_left (Filepath.cleanStep (HasPrefix path "/"))
    (SplitByte path Filepath.Separator) [].

(** The export line as the manual instruction shows it, between line
    feeds. *)
Definition shownExportLine (goBinPath : string) : string :=
  nl ++ exportLineFor goBinPath ++ nl ++ nl.

(** A path as [Clean] leaves it when it keeps at least one element. *)
Definition cleanForm (d : string) : Prop :=
  d <> "" /\ keptOf d <> []
  /\ d = (if HasPrefix d "/" then "/" else "") ++ Strings.Join (rev (keptOf d)) "/".

(** [comesFrom ts p]: [p] is one of the paths [ts] or a directory on the
    way to one of them. *)
Definition comesFrom (ts : list string) (p : string) : Prop :=
  exists t, t ∈ ts /\ (p = t \/ p ∈ Filepath.ancestors t).

(** Whatever is in [w'] and was not in [w] comes from the paths [ts]. *)
Definition makesOnly (ts : list string) (w w' : world) : Prop :=
  forall p, files w !! p = None -> is_Some (files w' !! p) -> comesFrom ts p.

(* ================================================================== *)
(** * Further fixtures *)
(* ================================================================== *)

(** A stand-in for the float formats in the worked examples: the
    quotient cut, not rounded, after its first decimal. *)
Definition plainRendering : Rendering :=
  {| quotient1 := fun a b => pretty (a / b)%Z ++ "." ++ pretty (a * 10 / b mod 10)%Z;
     percent2 := fun a b => pretty (a * 100 / b)%Z ++ ".00";
     speedOf := fun a elapsed => if (elapsed =? 0)%Z then 0%Z else (a * 1000000000 / elapsed)%Z;
     truncatedSeconds := fun elapsed => pretty (elapsed / 1000000000)%Z ++ "s" |}.

(** A world without files in which the two endpoints answer as given. *)
Definition online (catalog : response (list GoVersionInfo)) (text : response string)
  : world :=
  {| files := ∅; faults := []; journal := [];
     catalogEndpoint := catalog; textEndpoint := text;
     requests := []; console := []; debugMode := false |}.

(** The same world when [--debug] was given. *)
Definition verbose (w : world) : world :=
  World (files w) (faults w) (journal w) (catalogEndpoint w) (textEndpoint w)
        (requests w) (console w) true.

(** The body of the text endpoint: the version line, then the time line. *)
Definition versionText : string :=
  "go1.22.3" ++ nl ++ "time 2024-05-07T16:25:52Z" ++ nl.

(** A clock that advances by 50 ms from one reading to the next. *)
Definition steadyClock : timer :=
  {| readings := fun k => (Z.of_nat k * 50000000)%Z; taken := 0 |}.

Definition linuxArchive : FileInfo :=
  {| Filename := "go1.22.0.linux-amd64.tar.gz"; OS := "linux"; Arch := "amd64";
     Checksum := ""; Size := 68000000; Kind := "archive" |}.

Definition sourceArchive : FileInfo :=
  {| Filename := "go1.22.0.src.tar.gz"; OS := ""; Arch := "";
     Checksum := ""; Size := 27000000; Kind := "source" |}.

(* ================================================================== *)
(** * Strings *)
(* ================================================================== *)

Section StringFacts.

#[local] Arguments String.append !s1 s2 / : simpl nomatch.

Lemma HasPrefix_app (p r : string) : HasPrefix (p ++ r) p = true.
Proof.
  induction p as [|a p IH]; simpl; [reflexivity|].
  rewrite Ascii.eqb_refl. exact IH.
Qed.

Lemma HasPrefix_true (s p : string) :
  HasPrefix s p = true -> exists r, s = p ++ r.
Proof.
  revert s. induction p as [|a p IH]; intros s Hs; simpl in *.
  - exists s. reflexivity.
  - destruct s as [|b s]; [discriminate|].
    destruct (Ascii.eqb a b) eqn:E; [|discriminate].
    apply Ascii.eqb_eq in E. subst b.
    destruct (IH _ Hs) as [r ->]. exists r. reflexivity.
Qed.

Lemma Contains_intro (l sub r : string) : Contains (l ++ sub ++ r) sub = true.
Proof.
  induction l as [|a l IH].
  - simpl. destruct (sub ++ r) eqn:E; simpl; rewrite <- E, HasPrefix_app; reflexivity.
  - simpl. rewrite IH. apply orb_true_r.
Qed.

Lemma Contains_true (s sub : string) :
  Contains s sub = true -> exists l r, s = l ++ sub ++ r.
Proof.
  induction s as [|a s IH]; simpl; intros H.
  - rewrite orb_false_r in H. apply HasPrefix_true in H as [r Hr].
    exists "", r. exact Hr.
  - apply orb_true_iff in H as [H|H].
    + apply HasPrefix_true in H as [r Hr]. exists "", r. exact Hr.
    + destruct (IH H) as (l & r & ->). exists (String a l), r. reflexivity.
Qed.

Lemma string_app_assoc (a b c : string) : (a ++ b) ++ c = a ++ (b ++ c).
Proof. induction a; simpl; congruence. Qed.

Lemma string_app_nil_r (a : string) : a ++ "" = a.
Proof. induction a; simpl; congruence. Qed.

End StringFacts.

(* ================================================================== *)
(** * Architecture mapping *)
(* ================================================================== *)

Section Architecture.

Context `{UnicodeTables}.

Lemma isASCIIByte_lowerByte (c : ascii) : isASCIIByte (lowerByte c) = isASCIIByte c.
Proof. destruct c as [[] [] [] [] [] [] [] []]; reflexivity. Qed.

Lemma isASCII_lowerASCII (s : string) : isASCII (lowerASCII s) = isASCII s.
Proof.
  induction s as [|c s IH]; simpl; [reflexivity|].
  rewrite isASCIIByte_lowerByte, IH. reflexivity.
Qed.

(** A string whose byte-wise lower-casing is ASCII takes the fast path. *)
Lemma ToLower_fast (s : string) :
  isASCII (lowerASCII s) = true -> ToLower s = lowerASCII s.
Proof.
  intros Hs. unfold ToLower. rewrite <- isASCII_lowerASCII, Hs. reflexivity.
Qed.

Lemma alias_is_ASCII (alias canon : string) :
  (alias, canon) ∈ archAliases -> isASCII alias = true.
Proof.
  unfold archAliases. rewrite !elem_of_cons, elem_of_nil.
  intros Hin.
  repeat destruct Hin as [Hin|Hin]; try (inversion Hin; reflexivity);
    try contradiction.
Qed.

Lemma mapArchitecture_of_lower (s alias canon : string) :
  (alias, canon) ∈ archAliases -> ToLower s = alias -> mapArchitecture s = canon.
Proof.
  unfold archAliases, mapArchitecture. rewrite !elem_of_cons, elem_of_nil.
  intros Hin ->.
  repeat destruct Hin as [Hin|Hin]; try (inversion Hin; reflexivity);
    try contradiction.
Qed.

Lemma caseOf_false (s : string) (labels : list string) :
  (forall l, l ∈ labels -> s <> l) -> caseOf s labels = false.
Proof.
  unfold caseOf. induction labels as [|l labels IH]; intros Hne; simpl; [reflexivity|].
  rewrite IH by (intros l' Hl'; apply Hne; right; exact Hl').
  rewrite orb_false_r. apply String.eqb_neq. apply Hne. left.
Qed.

Lemma mapArchitecture_unrecognized (s : string) :
  ToLower s ∉ archAliases.*1 -> mapArchitecture s = s.
Proof.
  intros Hnot. unfold mapArchitecture.
  rewrite !caseOf_false; [reflexivity|..];
    intros l Hl Heq; apply Hnot; rewrite Heq; clear Heq Hnot;
    simpl; rewrite !elem_of_cons, elem_of_nil in Hl;
    repeat destruct Hl as [->|Hl]; try contradiction;
    repeat constructor.
Qed.

Lemma mapArchitecture_nonempty (s : string) : s <> "" -> mapArchitecture s <> "".
Proof.
  intros Hs. unfold mapArchitecture.
  repeat match goal with
         | |- context [if ?b then _ else _] => destruct b
         end; try discriminate; exact Hs.
Qed.

Lemma mapArchitecture_empty : mapArchitecture "" = "".
Proof. reflexivity. Qed.

End Architecture.

Section ArchitectureStage.

Context `{UnicodeTables}.

Lemma detectArchitecture_exit (GOOS GOARCH kernel detected : string) (w : world) :
  (detectArchitecture GOOS GOARCH (kernel, detected, None) w).1 = Exit 1
  <-> detected = "".
Proof.
  unfold detectArchitecture, Printf, Eprintf, mbind, IO_bind, mret, IO_ret. simpl.
  destruct (String.eqb (mapArchitecture detected) "") eqn:E; simpl.
  - apply String.eqb_eq in E. split; [intros _|reflexivity].
    destruct (string_dec detected "") as [Hd|Hd]; [exact Hd|].
    destruct (mapArchitecture_nonempty detected Hd E).
  - apply String.eqb_neq in E. split; [discriminate|].
    intros ->. destruct E. apply mapArchitecture_empty.
Qed.

Lemma detectArchitecture_default (GOOS GOARCH kernel detected : string) (e : error)
  (w : world) :
  (detectArchitecture GOOS GOARCH (kernel, detected, Some e) w).1 = Proceed GOARCH.
Proof. reflexivity. Qed.

(** C9, amended.  [mapArchitecture] is a total function of its argument
    alone.  An input whose lower-casing is one of the aliases (for
    instance because lower-casing its ASCII letters gives the alias) maps
    to the canonical name of that alias; an input whose lower-casing is no
    alias is returned unchanged; a non-empty input never gives the empty
    string.  The fatal branch of [main] that follows the call is taken
    exactly when the detected architecture is itself the empty string,
    and never when detection reported an error. *)
Theorem mapArchitecture_contract (detectedArch : string) :
  (forall alias canon, (alias, canon) ∈ archAliases ->
     ToLower detectedArch = alias \/ lowerASCII detectedArch = alias ->
     mapArchitecture detectedArch = canon)
  /\ (ToLower detectedArch ∉ archAliases.*1 -> mapArchitecture detectedArch = detectedArch)
  /\ (detectedArch <> "" -> mapArchitecture detectedArch <> "")
  /\ (forall GOOS GOARCH kernel w,
        (detectArchitecture GOOS GOARCH (kernel, detectedArch, None) w).1 = Exit 1
        <-> detectedArch = "")
  /\ (forall GOOS GOARCH kernel e w,
        (detectArchitecture GOOS GOARCH (kernel, detectedArch, Some e) w).1
        = Proceed GOARCH).
Proof.
  split; [|split; [|split; [|split]]].
  - intros alias canon Hin [Hlow|Hlow];
      apply (mapArchitecture_of_lower _ alias canon Hin); [exact Hlow|].
    rewrite ToLower_fast; [exact Hlow|].
    rewrite Hlow. exact (alias_is_ASCII _ _ Hin).
  - apply mapArchitecture_unrecognized.
  - apply mapArchitecture_nonempty.
  - intros. apply detectArchitecture_exit.
  - intros. apply detectArchitecture_default.
Qed.

End ArchitectureStage.

(** The contract at ["X86_64"], an upper-case spelling of an alias. *)
Lemma mapArchitecture_contract_witness :
  @mapArchitecture asciiTables "X86_64" = "amd64"
  /\ @mapArchitecture asciiTables "X86_64" <> "".
Proof.
  destruct (@mapArchitecture_contract asciiTables "X86_64") as (Halias & _ & Hne & _).
  split.
  - apply (Halias "x86_64" "amd64"); [repeat constructor|right; reflexivity].
  - apply Hne. discriminate.
Defined.

(** C9 as stated fails: [uname] with an empty machine field makes Linux
    detection succeed with the empty architecture, the mapper returns it
    unchanged and [main] leaves through its fatal branch. *)
Lemma empty_machine_reaches_abort :
  let uname := {| Release := [53; 46; 49; 48; 0]%Z; Machine := repeat 0%Z 65 |} in
  getSystemInfo linux "amd64" (Ok uname) = ("5.10", "", None)
  /\ @mapArchitecture asciiTables "" = ""
  /\ (@detectArchitecture asciiTables "linux" "amd64"
        (getSystemInfo linux "amd64" (Ok uname)) emptyWorld).1 = Exit 1.
Proof. repeat split. Qed.

(* ================================================================== *)
(** * Debug lines *)
(* ================================================================== *)

Section DebugLines.

Lemma emitAll_app (a b : list (stream * string)) (w : world) :
  emitAll (a ++ b) w = emitAll b (emitAll a w).
Proof. revert w. induction a as [|line a IH]; intros w; [reflexivity|apply IH]. Qed.

Lemma emitAll_frame (notes : list (stream * string)) (w : world) :
  files (emitAll notes w) = files w /\ faults (emitAll notes w) = faults w
  /\ journal (emitAll notes w) = journal w
  /\ catalogEndpoint (emitAll notes w) = catalogEndpoint w
  /\ textEndpoint (emitAll notes w) = textEndpoint w
  /\ requests (emitAll notes w) = requests w
  /\ debugMode (emitAll notes w) = debugMode w
  /\ console (emitAll notes w) = app (console w) notes.
Proof.
  revert w. induction notes as [|line notes IH]; intros w; simpl.
  - rewrite app_nil_r. repeat split.
  - destruct (IH (emit line.1 line.2 w)) as (-> & -> & -> & -> & -> & -> & -> & ->).
    destruct line as [s text]. simpl. rewrite <- app_assoc. repeat split.
Qed.

Lemma debugged_refl (w : world) : debugged w w.
Proof. exists []. repeat split. constructor. Qed.

Lemma debugged_trans (w1 w2 w3 : world) :
  debugged w1 w2 -> debugged w2 w3 -> debugged w1 w3.
Proof.
  intros (a & -> & Ha & Hqa) (b & -> & Hb & Hqb).
  exists (a ++ b)%list. split; [symmetry; apply emitAll_app|]. split.
  - apply Forall_app. split; assumption.
  - intros Hq. rewrite (Hqa Hq) in *. simpl in Hqb. rewrite (Hqb Hq). reflexivity.
Qed.

Lemma debugPrint_run (text : string) (w : world) :
  exists w', debugPrint text w = (tt, w') /\ debugged w w'.
Proof.
  unfold debugPrint, Printf. destruct (debugMode w) eqn:Hd.
  - eexists. split; [reflexivity|].
    exists [(Stdout, "Debug: " ++ text ++ nl)]. split; [reflexivity|split].
    + constructor; [exists text; reflexivity|constructor].
    + intros Hq. congruence.
  - exists w. split; [reflexivity|apply debugged_refl].
Qed.

Lemma debugged_quiet (w w' : world) : debugged w w' -> debugMode w = false -> w' = w.
Proof. intros (notes & -> & _ & Hq) Hd. rewrite (Hq Hd). reflexivity. Qed.

Lemma debugged_frame (w w' : world) :
  debugged w w' ->
  files w' = files w /\ faults w' = faults w /\ journal w' = journal w
  /\ catalogEndpoint w' = catalogEndpoint w /\ textEndpoint w' = textEndpoint w
  /\ requests w' = requests w /\ debugMode w' = debugMode w.
Proof.
  intros (notes & -> & _).
  destruct (emitAll_frame notes w) as (? & ? & ? & ? & ? & ? & ? & _).
  repeat split; assumption.
Qed.

Lemma debugPrint_world (text : string) (w : world) :
  debugged w (debugPrint text w).2.
Proof. destruct (debugPrint_run text w) as (w' & -> & D). exact D. Qed.

(** [debugPrint] changes the console only. *)
Lemma debugPrint_frame (text : string) (w : world) :
  files (debugPrint text w).2 = files w /\ faults (debugPrint text w).2 = faults w
  /\ journal (debugPrint text w).2 = journal w
  /\ requests (debugPrint text w).2 = requests w.
Proof.
  destruct (debugged_frame _ _ (debugPrint_world text w))
    as (Hf & Hx & Hj & _ & _ & Hr & _).
  repeat split; assumption.
Qed.

End DebugLines.

(** One step of a proof through a [debugPrint]: [D] says what it left. *)
Ltac debug_step D :=
  match goal with
  | |- context [debugPrint ?text ?w] =>
      let w' := fresh "w" in
      destruct (debugPrint_run text w) as (w' & -> & D); cbv beta iota
  end.

(* ================================================================== *)
(** * Version resolution *)
(* ================================================================== *)

Section Resolution.

Context `{UnicodeTables}.
Variables GOOS goArch : string.

Lemma find_none_existsb {A} (p : A -> bool) (l : list A) :
  find p l = None <-> existsb p l = false.
Proof.
  induction l as [|a l IH]; simpl; [tauto|].
  destruct (p a); simpl; [split; discriminate|exact IH].
Qed.

Lemma find_split {A} (p : A -> bool) (l : list A) (x : A) :
  find p l = Some x ->
  exists pre post,
    l = (pre ++ x :: post)%list /\ p x = true /\ forall y, y ∈ pre -> p y = false.
Proof.
  induction l as [|a l IH]; simpl; [discriminate|].
  destruct (p a) eqn:Ea.
  - intros [= ->]. exists [], l. repeat split; [exact Ea|].
    intros y Hy. inversion Hy.
  - intros Hf. destruct (IH Hf) as (pre & post & -> & Hx & Hpre).
    exists (a :: pre), post. repeat split; [exact Hx|].
    intros y Hy. apply elem_of_cons in Hy as [->|Hy]; [exact Ea|exact (Hpre y Hy)].
Qed.

Lemma find_none_all {A} (p : A -> bool) (l : list A) :
  find p l = None -> forall y, y ∈ l -> p y = false.
Proof.
  induction l as [|a l IH]; simpl; intros Hf y Hy; [inversion Hy|].
  destruct (p a) eqn:Ea; [discriminate|].
  apply elem_of_cons in Hy as [->|Hy]; [exact Ea|exact (IH Hf y Hy)].
Qed.

Lemma find_some_of_elem {A} (p : A -> bool) (l : list A) (x : A) :
  x ∈ l -> p x = true -> exists y, find p l = Some y.
Proof.
  intros Hx Hp. destruct (find p l) as [y|] eqn:Ef; [exists y; reflexivity|].
  rewrite (find_none_all _ _ Ef x Hx) in Hp. discriminate.
Qed.

Lemma existsb_false_all {A} (p : A -> bool) (l : list A) :
  existsb p l = false -> forall y, y ∈ l -> p y = false.
Proof. intros Hex. apply find_none_all, find_none_existsb, Hex. Qed.

(** ** The loops against their first-match reading *)

Lemma forRangeIO_cons {A S : Type} (body : A -> S -> IO (ctl S)) (a : A) (rest : list A)
  (s : S) (w : world) :
  forRangeIO body (a :: rest) s w
  = match body a s w with
    | (Continue s', w') => forRangeIO body rest s' w'
    | (Break s', w') => (s', w')
    end.
Proof.
  simpl. unfold mbind, IO_bind. destruct (body a s w) as [[s'|s'] w']; reflexivity.
Qed.

Lemma pickFile_run (what : string) (v : GoVersionInfo) (f : FileInfo) (st : selection)
  (w : world) :
  exists w',
    debugged w w'
    /\ pickFile what GOOS goArch v f st w
       = (if hostArchive GOOS goArch f then Break (chosen v f) else Continue st, w').
Proof.
  unfold pickFile, mbind, IO_bind, mret, IO_ret.
  destruct (hostArchive GOOS goArch f).
  - destruct (debugPrint_run ("Found " ++ what ++ " download file for " ++ GOOS ++ "/"
                              ++ goArch ++ ": " ++ Filename f) w) as (w1 & -> & D1).
    exists w1. split; [exact D1|reflexivity].
  - destruct (debugPrint_run ("Skipping file " ++ Filename f ++ " (OS: " ++ OS f
                              ++ ", Arch: " ++ Arch f ++ "), expected " ++ GOOS ++ "/"
                              ++ goArch) w) as (w1 & -> & D1).
    exists w1. split; [exact D1|reflexivity].
Qed.

Lemma forRangeIO_pickFile (what : string) (v : GoVersionInfo) (fs : list FileInfo)
  (st : selection) (w : world) :
  exists w',
    debugged w w'
    /\ forRangeIO (pickFile what GOOS goArch v) fs st w
       = (match find (hostArchive GOOS goArch) fs with
          | Some f => chosen v f
          | None => st
          end, w').
Proof.
  revert w. induction fs as [|f fs IH]; intros w.
  - exists w. split; [apply debugged_refl|reflexivity].
  - rewrite forRangeIO_cons. cbn [find].
    destruct (pickFile_run what v f st w) as (w1 & D1 & ->).
    destruct (hostArchive GOOS goArch f).
    + exists w1. split; [exact D1|reflexivity].
    + destruct (IH w1) as (w2 & D2 & E2). exists w2.
      split; [exact (debugged_trans _ _ _ D1 D2)|exact E2].
Qed.

Lemma searchRequested_run (key : string) (v : GoVersionInfo) (st : selection)
  (w : world) :
  foundDownloadable st = false ->
  exists w',
    debugged w w'
    /\ searchRequested GOOS goArch key v st w
       = (if String.eqb (strippedVersion v) key
          then match find (hostArchive GOOS goArch) (Files v) with
               | Some f => Break (chosen v f)
               | None => Continue st
               end
          else Continue st, w').
Proof.
  intros Hst. unfold searchRequested, strippedVersion, mbind, IO_bind, mret, IO_ret.
  destruct (String.eqb (TrimPrefix (Version v) "go") key).
  - destruct (debugPrint_run ("Found matching version in JSON list: " ++ Version v) w)
      as (w1 & -> & D1).
    destruct (forRangeIO_pickFile "matching" v (Files v) st w1) as (w2 & D2 & ->).
    exists w2. split; [exact (debugged_trans _ _ _ D1 D2)|].
    destruct (find (hostArchive GOOS goArch) (Files v)); [reflexivity|].
    rewrite Hst. reflexivity.
  - exists w. split; [apply debugged_refl|]. rewrite Hst. reflexivity.
Qed.

Lemma forRangeIO_searchRequested (key : string) (cat : list GoVersionInfo)
  (st : selection) (w : world) :
  foundDownloadable st = false ->
  exists w',
    debugged w w'
    /\ forRangeIO (searchRequested GOOS goArch key) cat st w
       = (match catalogMatch GOOS goArch key cat with
          | Some (v, f) => chosen v f
          | None => st
          end, w').
Proof.
  intros Hst. unfold catalogMatch. revert w.
  induction cat as [|v cat IH]; intros w.
  - exists w. split; [apply debugged_refl|reflexivity].
  - rewrite forRangeIO_cons. cbn [find].
    destruct (searchRequested_run key v st w Hst) as (w1 & D1 & ->).
    destruct (String.eqb (strippedVersion v) key); cbn [andb].
    + destruct (find (hostArchive GOOS goArch) (Files v)) as [f|] eqn:Ef.
      * assert (existsb (hostArchive GOOS goArch) (Files v) = true) as ->.
        { destruct (existsb _ _) eqn:Ex; [reflexivity|].
          apply find_none_existsb in Ex. congruence. }
        rewrite Ef. exists w1. split; [exact D1|reflexivity].
      * rewrite (proj1 (find_none_existsb _ _) Ef).
        destruct (IH w1) as (w2 & D2 & E2). exists w2.
        split; [exact (debugged_trans _ _ _ D1 D2)|exact E2].
    + destruct (IH w1) as (w2 & D2 & E2). exists w2.
      split; [exact (debugged_trans _ _ _ D1 D2)|exact E2].
Qed.

Lemma searchStable_run (v : GoVersionInfo) (st : selection) (w : world) :
  foundDownloadable st = false ->
  exists w',
    debugged w w'
    /\ searchStable GOOS goArch v st w
       = (if Stable v
          then match find (hostArchive GOOS goArch) (Files v) with
               | Some f => Break (chosen v f)
               | None => Continue st
               end
          else Continue st, w').
Proof.
  intros Hst. unfold searchStable, mbind, IO_bind, mret, IO_ret.
  destruct (Stable v).
  - destruct (debugPrint_run ("Checking stable version: " ++ Version v) w)
      as (w1 & -> & D1).
    destruct (forRangeIO_pickFile "latest stable" v (Files v) st w1) as (w2 & D2 & ->).
    exists w2. split; [exact (debugged_trans _ _ _ D1 D2)|].
    destruct (find (hostArchive GOOS goArch) (Files v)); [reflexivity|].
    rewrite Hst. reflexivity.
  - destruct (debugPrint_run ("Skipping non-stable version: " ++ Version v) w)
      as (w1 & -> & D1).
    exists w1. split; [exact D1|]. rewrite Hst. reflexivity.
Qed.

Lemma forRangeIO_searchStable (cat : list GoVersionInfo) (st : selection) (w : world) :
  foundDownloadable st = false ->
  exists w',
    debugged w w'
    /\ forRangeIO (searchStable GOOS goArch) cat st w
       = (match stableMatch GOOS goArch cat with
          | Some (v, f) => chosen v f
          | None => st
          end, w').
Proof.
  intros Hst. unfold stableMatch. revert w.
  induction cat as [|v cat IH]; intros w.
  - exists w. split; [apply debugged_refl|reflexivity].
  - rewrite forRangeIO_cons. cbn [find].
    destruct (searchStable_run v st w Hst) as (w1 & D1 & ->).
    destruct (Stable v); cbn [andb].
    + destruct (find (hostArchive GOOS goArch) (Files v)) as [f|] eqn:Ef.
      * assert (existsb (hostArchive GOOS goArch) (Files v) = true) as ->.
        { destruct (existsb _ _) eqn:Ex; [reflexivity|].
          apply find_none_existsb in Ex. congruence. }
        rewrite Ef. exists w1. split; [exact D1|reflexivity].
      * rewrite (proj1 (find_none_existsb _ _) Ef).
        destruct (IH w1) as (w2 & D2 & E2). exists w2.
        split; [exact (debugged_trans _ _ _ D1 D2)|exact E2].
    + destruct (IH w1) as (w2 & D2 & E2). exists w2.
      split; [exact (debugged_trans _ _ _ D1 D2)|exact E2].
Qed.

(** ** What the first-match functions mean *)

Lemma catalogMatch_first (key : string) (cat : list GoVersionInfo)
  (v : GoVersionInfo) (f : FileInfo) :
  catalogMatch GOOS goArch key cat = Some (v, f) ->
  exists pre post fpre fpost,
    cat = (pre ++ v :: post)%list
    /\ (forall u, u ∈ pre -> TrimPrefix (Version u) "go" = key ->
        forall g, g ∈ Files u -> hostArchive GOOS goArch g = false)
    /\ TrimPrefix (Version v) "go" = key
    /\ Files v = (fpre ++ f :: fpost)%list
    /\ (forall g, g ∈ fpre -> hostArchive GOOS goArch g = false)
    /\ hostArchive GOOS goArch f = true.
Proof.
  unfold catalogMatch.
  destruct (find _ cat) as [v'|] eqn:Ev; [|discriminate].
  destruct (find _ (Files v')) as [f'|] eqn:Ef; [|discriminate].
  intros [= -> ->].
  destruct (find_split _ _ _ Ev) as (pre & post & -> & Hv & Hpre).
  destruct (find_split _ _ _ Ef) as (fpre & fpost & Hfiles & Hf & Hfpre).
  apply andb_true_iff in Hv as [Hkey _]. apply String.eqb_eq in Hkey.
  exists pre, post, fpre, fpost. repeat split; try assumption.
  intros u Hu Hku g Hg. specialize (Hpre u Hu). simpl in Hpre.
  unfold strippedVersion in Hpre. rewrite Hku, String.eqb_refl in Hpre.
  simpl in Hpre. exact (existsb_false_all _ _ Hpre g Hg).
Qed.

Lemma catalogMatch_none (key : string) (cat : list GoVersionInfo) :
  catalogMatch GOOS goArch key cat = None <->
  (forall v, v ∈ cat -> TrimPrefix (Version v) "go" = key ->
   forall f, f ∈ Files v -> hostArchive GOOS goArch f = false).
Proof.
  unfold catalogMatch. split.
  - destruct (find _ cat) as [v'|] eqn:Ev.
    + apply find_split in Ev as (_ & _ & _ & Hv & _).
      apply andb_true_iff in Hv as [_ Hex].
      destruct (find _ (Files v')) eqn:Ef; [discriminate|].
      apply find_none_existsb in Ef. congruence.
    + intros _ v Hv Hkey f Hf.
      pose proof (find_none_all _ _ Ev v Hv) as Hp. simpl in Hp.
      unfold strippedVersion in Hp. rewrite Hkey, String.eqb_refl in Hp.
      exact (existsb_false_all _ _ Hp f Hf).
  - intros Hall. destruct (find _ cat) as [v'|] eqn:Ev; [|reflexivity].
    apply find_split in Ev as (pre & post & -> & Hv & _).
    apply andb_true_iff in Hv as [Hkey Hex]. apply String.eqb_eq in Hkey.
    destruct (find _ (Files v')) as [f|] eqn:Ef; [|reflexivity].
    apply find_split in Ef as (fpre & fpost & Hfiles & Hf & _).
    rewrite (Hall v') in Hf; [discriminate| |exact Hkey|].
    + apply elem_of_app. right. left.
    + rewrite Hfiles. apply elem_of_app. right. left.
Qed.

Lemma stableMatch_first (cat : list GoVersionInfo) (v : GoVersionInfo) (f : FileInfo) :
  stableMatch GOOS goArch cat = Some (v, f) ->
  exists pre post fpre fpost,
    cat = (pre ++ v :: post)%list
    /\ (forall u, u ∈ pre -> Stable u = true ->
        forall g, g ∈ Files u -> hostArchive GOOS goArch g = false)
    /\ Stable v = true
    /\ Files v = (fpre ++ f :: fpost)%list
    /\ (forall g, g ∈ fpre -> hostArchive GOOS goArch g = false)
    /\ hostArchive GOOS goArch f = true.
Proof.
  unfold stableMatch.
  destruct (find _ cat) as [v'|] eqn:Ev; [|discriminate].
  destruct (find _ (Files v')) as [f'|] eqn:Ef; [|discriminate].
  intros [= -> ->].
  destruct (find_split _ _ _ Ev) as (pre & post & -> & Hv & Hpre).
  destruct (find_split _ _ _ Ef) as (fpre & fpost & Hfiles & Hf & Hfpre).
  apply andb_true_iff in Hv as [Hst _].
  exists pre, post, fpre, fpost. repeat split; try assumption.
  intros u Hu Hsu g Hg. specialize (Hpre u Hu). simpl in Hpre.
  rewrite Hsu in Hpre. simpl in Hpre. exact (existsb_false_all _ _ Hpre g Hg).
Qed.

Lemma stableMatch_some (cat : list GoVersionInfo) (v : GoVersionInfo) (f : FileInfo) :
  v ∈ cat -> Stable v = true -> f ∈ Files v -> hostArchive GOOS goArch f = true ->
  exists v' f', stableMatch GOOS goArch cat = Some (v', f').
Proof.
  intros Hv Hs Hf Hm. unfold stableMatch.
  destruct (find_some_of_elem (fun v => Stable v && existsb (hostArchive GOOS goArch) (Files v))
              cat v Hv) as [v' Ev'].
  { rewrite Hs. simpl. destruct (existsb _ _) eqn:Ex; [reflexivity|].
    rewrite (existsb_false_all _ _ Ex f Hf) in Hm. discriminate. }
  rewrite Ev'. apply find_split in Ev' as (_ & _ & _ & Hv' & _).
  apply andb_true_iff in Hv' as [_ Hex].
  destruct (find _ (Files v')) as [f'|] eqn:Ef; [exists v', f'; reflexivity|].
  apply find_none_existsb in Ef. congruence.
Qed.

Lemma stableMatch_none (cat : list GoVersionInfo) :
  (forall v, v ∈ cat -> Stable v = true ->
   forall f, f ∈ Files v -> hostArchive GOOS goArch f = false) ->
  stableMatch GOOS goArch cat = None.
Proof.
  intros Hall. destruct (stableMatch GOOS goArch cat) as [[v f]|] eqn:Em; [|reflexivity].
  apply stableMatch_first in Em
    as (pre & post & fpre & fpost & -> & _ & Hs & Hfiles & _ & Hf).
  rewrite (Hall v) in Hf; [discriminate| |exact Hs|].
  - apply elem_of_app. right. left.
  - rewrite Hfiles. apply elem_of_app. right. left.
Qed.

End Resolution.

Section Selection.

Context `{UnicodeTables}.
Variables GOOS goArch : string.

Lemma searchCatalog_run (allVersions : option (list GoVersionInfo)) (key : string)
  (st : selection) (w : world) :
  foundDownloadable st = false ->
  exists w',
    debugged w w'
    /\ match allVersions with
       | Some versions => forRangeIO (searchRequested GOOS goArch key) versions st
       | None => mret st
       end w
       = (match lookupCatalog GOOS goArch allVersions key with
          | Some (v, f) => chosen v f
          | None => st
          end, w').
Proof.
  intros Hst. destruct allVersions as [cat|].
  - exact (forRangeIO_searchRequested GOOS goArch key cat st w Hst).
  - exists w. split; [apply debugged_refl|reflexivity].
Qed.

Lemma tryTarget_run (allVersions : option (list GoVersionInfo)) (t : string)
  (st : selection) (w : world) :
  foundDownloadable st = false ->
  exists w',
    debugged w w'
    /\ tryTarget GOOS goArch allVersions t st w
       = match lookupCatalog GOOS goArch allVersions (normalizeVersion t) with
         | Some (v, f) => (Break (chosen v f), w')
         | None =>
             (Break {| versionToInstall := normalizeVersion t;
                       downloadURL := constructedURL (normalizeVersion t) GOOS goArch;
                       foundDownloadable := true |},
              constructionNotices GOOS goArch t (normalizeVersion t) w')
         end.
Proof.
  intros Hst. unfold tryTarget, normalizeVersion, mbind, IO_bind.
  destruct (CountByte t "." =? 1)%nat.
  - destruct (debugPrint_run ("Appended .0 to version: " ++ t ++ " -> " ++ t ++ ".0") w)
      as (w1 & -> & D1). unfold mret at 1, IO_ret at 1.
    destruct (searchCatalog_run allVersions (t ++ ".0") st w1 Hst) as (w2 & D2 & ->).
    exists w2. split; [exact (debugged_trans _ _ _ D1 D2)|].
    destruct (lookupCatalog GOOS goArch allVersions (t ++ ".0")) as [[v f]|];
      [reflexivity|].
    rewrite Hst. reflexivity.
  - unfold mret at 1, IO_ret at 1.
    destruct (searchCatalog_run allVersions t st w Hst) as (w2 & D2 & ->).
    exists w2. split; [exact D2|].
    destruct (lookupCatalog GOOS goArch allVersions t) as [[v f]|]; [reflexivity|].
    rewrite Hst. reflexivity.
Qed.

Lemma selectRelease_requested (t : string) (rest : list string)
  (allVersions : option (list GoVersionInfo)) (w : world) :
  exists w',
    debugged w w'
    /\ selectRelease GOOS goArch (t :: rest) allVersions w
       = match lookupCatalog GOOS goArch allVersions (normalizeVersion t) with
         | Some (v, f) =>
             (Proceed (strippedVersion v, "https://go.dev/dl/" ++ Filename f), w')
         | None =>
             (Proceed (normalizeVersion t,
                       constructedURL (normalizeVersion t) GOOS goArch),
              constructionNotices GOOS goArch t (normalizeVersion t) w')
         end.
Proof.
  unfold selectRelease. cbn [length Nat.ltb Nat.leb]. unfold mbind, IO_bind.
  destruct (debugPrint_run ("Target versions specified: ["
                            ++ Strings.Join (t :: rest) " " ++ "]") w)
    as (w1 & -> & D1).
  rewrite forRangeIO_cons.
  destruct (tryTarget_run allVersions t
              {| versionToInstall := ""; downloadURL := ""; foundDownloadable := false |}
              w1 eq_refl) as (w2 & D2 & ->).
  exists w2. split; [exact (debugged_trans _ _ _ D1 D2)|].
  destruct (lookupCatalog GOOS goArch allVersions (normalizeVersion t)) as [[v f]|];
    reflexivity.
Qed.

Lemma getLatest_result (w w' : world) :
  textEndpoint w' = textEndpoint w ->
  (getLatestGoVersionFromTextHTTP w').1 = (getLatestGoVersionFromTextHTTP w).1.
Proof.
  intros Hsame.
  unfold getLatestGoVersionFromTextHTTP, httpGetText, mbind, IO_bind, mret, IO_ret.
  rewrite Hsame.
  destruct (textEndpoint w) as [e|status [body|e]]; [reflexivity| |].
  - destruct (negb _); [reflexivity|].
    destruct (SplitByte _ _) as [|line lines]; [reflexivity|].
    destruct (negb _); [reflexivity|].
    destruct (debugPrint_run ("Got latest version from text URL via HTTP: "
                              ++ TrimPrefix line "go") (logRequest latestVersionTextURL w'))
      as (w1 & -> & _).
    destruct (debugPrint_run ("Got latest version from text URL via HTTP: "
                              ++ TrimPrefix line "go") (logRequest latestVersionTextURL w))
      as (w2 & -> & _).
    reflexivity.
  - destruct (negb _); reflexivity.
Qed.

Lemma getLatest_world (w : world) :
  debugged (logRequest latestVersionTextURL w) (getLatestGoVersionFromTextHTTP w).2
  /\ (forall err, (getLatestGoVersionFromTextHTTP w).1 = Err err ->
      (getLatestGoVersionFromTextHTTP w).2 = logRequest latestVersionTextURL w).
Proof.
  unfold getLatestGoVersionFromTextHTTP, httpGetText, mbind, IO_bind, mret, IO_ret.
  destruct (textEndpoint w) as [e|status [body|e]].
  - split; [apply debugged_refl|reflexivity].
  - destruct (negb _); [split; [apply debugged_refl|reflexivity]|].
    destruct (SplitByte _ _) as [|line lines]; [split; [apply debugged_refl|reflexivity]|].
    destruct (negb _); [split; [apply debugged_refl|reflexivity]|].
    destruct (debugPrint_run ("Got latest version from text URL via HTTP: "
                              ++ TrimPrefix line "go") (logRequest latestVersionTextURL w))
      as (w1 & -> & D1).
    split; [exact D1|discriminate].
  - destruct (negb _); split; solve [apply debugged_refl|reflexivity].
Qed.

Lemma selectRelease_latest_found (cat : list GoVersionInfo) (v : GoVersionInfo)
  (f : FileInfo) (w : world) :
  stableMatch GOOS goArch cat = Some (v, f) ->
  exists w',
    debugged w w'
    /\ selectRelease GOOS goArch [] (Some cat) w
       = (Proceed (strippedVersion v, "https://go.dev/dl/" ++ Filename f),
          emit Stdout ("No version specified, installing latest stable version: "
                       ++ strippedVersion v ++ nl) w').
Proof.
  intros Hm. unfold selectRelease. cbn [length Nat.ltb Nat.leb]. unfold mbind, IO_bind.
  destruct (debugPrint_run "No target version specified" w) as (w1 & -> & D1).
  destruct (debugPrint_run "Looking for latest stable version in JSON API" w1)
    as (w2 & -> & D2).
  destruct (forRangeIO_searchStable GOOS goArch cat
              {| versionToInstall := ""; downloadURL := ""; foundDownloadable := false |}
              w2 eq_refl) as (w3 & D3 & ->).
  rewrite Hm. exists w3.
  split; [exact (debugged_trans _ _ _ (debugged_trans _ _ _ D1 D2) D3)|reflexivity].
Qed.

Lemma selectRelease_latest_fallback (allVersions : option (list GoVersionInfo))
  (w : world) :
  match allVersions with
  | Some cat => stableMatch GOOS goArch cat = None
  | None => True
  end ->
  exists w1 w2,
    debugged w w1
    /\ debugged (logRequest latestVersionTextURL (emit Stdout latestWarning w1)) w2
    /\ selectRelease GOOS goArch [] allVersions w
       = match (getLatestGoVersionFromTextHTTP w).1 with
         | Err err =>
             (Exit 1,
              emit Stderr ("Error: Could not determine Go version to install." ++ nl)
                (emit Stderr
                   ("Error: Failed to get latest Go version from text URL via HTTP: "
                    ++ Error err ++ nl)
                   (logRequest latestVersionTextURL (emit Stdout latestWarning w1))))
         | Ok latestVer =>
             (Proceed (latestVer, constructedURL latestVer GOOS goArch),
              emit Stdout ("No version specified, installing latest stable version: "
                           ++ latestVer ++ nl)
                (emit Stdout ("Deduced latest version: " ++ latestVer
                              ++ ", Constructed download URL: "
                              ++ constructedURL latestVer GOOS goArch ++ nl) w2))
         end.
Proof.
  intros Hm. unfold selectRelease. cbn [length Nat.ltb Nat.leb]. unfold mbind, IO_bind.
  destruct (debugPrint_run "No target version specified" w) as (w0 & -> & D0).
  assert (exists w1,
            debugged w0 w1
            /\ match allVersions with
               | Some versions =>
                   fun w : world =>
                     let '(_, w') :=
                       debugPrint "Looking for latest stable version in JSON API" w in
                     forRangeIO (searchStable GOOS goArch) versions
                       {| versionToInstall := ""; downloadURL := "";
                          foundDownloadable := false |} w'
               | None =>
                   mret {| versionToInstall := ""; downloadURL := "";
                           foundDownloadable := false |}
               end w0
               = ({| versionToInstall := ""; downloadURL := ""; foundDownloadable := false |},
                  w1)) as (w1 & D1 & ->).
  { destruct allVersions as [cat|].
    - destruct (debugPrint_run "Looking for latest stable version in JSON API" w0)
        as (wa & -> & Da).
      destruct (forRangeIO_searchStable GOOS goArch cat
                  {| versionToInstall := ""; downloadURL := ""; foundDownloadable := false |}
                  wa eq_refl) as (wb & Db & ->).
      rewrite Hm. exists wb. split; [exact (debugged_trans _ _ _ Da Db)|reflexivity].
    - exists w0. split; [apply debugged_refl|reflexivity]. }
  pose proof (debugged_trans _ _ _ D0 D1) as D01.
  cbn [foundDownloadable downloadURL negb orb]. unfold Println, mret, IO_ret.
  fold latestWarning.
  destruct (getLatest_world (emit Stdout latestWarning w1)) as [Hw Hfail].
  assert ((getLatestGoVersionFromTextHTTP (emit Stdout latestWarning w1)).1
          = (getLatestGoVersionFromTextHTTP w).1) as Hr.
  { apply getLatest_result. simpl.
    destruct (debugged_frame _ _ D01) as (_ & _ & _ & _ & Ht & _). exact Ht. }
  destruct (getLatestGoVersionFromTextHTTP (emit Stdout latestWarning w1)) as [r w2].
  cbn [fst snd] in Hw, Hfail, Hr. rewrite <- Hr.
  exists w1, w2. split; [exact D01|]. split; [exact Hw|].
  destruct r as [latestVer|err]; [reflexivity|].
  rewrite (Hfail err eq_refl). reflexivity.
Qed.

(** A console at the end of a run that printed [lines] after debug lines
    only. *)
Lemma debugged_console (w w' : world) (lines : list (stream * string)) :
  debugged w w' ->
  exists notes,
    console (emitAll lines w') = app (console w) (app notes lines)
    /\ Forall debugLine notes
    /\ (debugMode w = false -> notes = []).
Proof.
  intros (notes & -> & Hn & Hq). exists notes. split; [|split; assumption].
  destruct (emitAll_frame lines (emitAll notes w)) as (_ & _ & _ & _ & _ & _ & _ & ->).
  destruct (emitAll_frame notes w) as (_ & _ & _ & _ & _ & _ & _ & ->).
  rewrite app_assoc. reflexivity.
Qed.

(** C2.  With no version requested: when the catalog has an entry marked
    stable with an artifact for the host OS, architecture and kind
    "archive", the resolver returns the stripped version of the first such
    entry with the URL of the catalog filename of its first such artifact,
    and fetches nothing (the text endpoint is not asked); when there is no
    such entry, or no catalog at all, and the call of the text endpoint
    fails, the process prints its diagnostics on the error stream and
    exits with status 1.  The console then ends with the warning and the
    two diagnostics; before them come the lines of [debugPrint], none of
    them without [--debug]. *)
Theorem latest_prefers_catalog (allVersions : option (list GoVersionInfo)) (w : world) :
  (forall cat v f,
     allVersions = Some cat ->
     v ∈ cat -> Stable v = true -> f ∈ Files v -> hostArchive GOOS goArch f = true ->
     exists pre v' post fpre f' fpost,
       cat = (pre ++ v' :: post)%list
       /\ (forall u, u ∈ pre -> Stable u = true ->
           forall g, g ∈ Files u -> hostArchive GOOS goArch g = false)
       /\ Stable v' = true
       /\ Files v' = (fpre ++ f' :: fpost)%list
       /\ (forall g, g ∈ fpre -> hostArchive GOOS goArch g = false)
       /\ hostArchive GOOS goArch f' = true
       /\ (selectRelease GOOS goArch [] allVersions w).1
          = Proceed (TrimPrefix (Version v') "go", "https://go.dev/dl/" ++ Filename f')
       /\ requests (selectRelease GOOS goArch [] allVersions w).2 = requests w)
  /\ (forall err,
        (forall cat, allVersions = Some cat ->
           forall v, v ∈ cat -> Stable v = true ->
           forall f, f ∈ Files v -> hostArchive GOOS goArch f = false) ->
        (getLatestGoVersionFromTextHTTP w).1 = Err err ->
        (selectRelease GOOS goArch [] allVersions w).1 = Exit 1
        /\ requests (selectRelease GOOS goArch [] allVersions w).2
           = (requests w ++ [latestVersionTextURL])%list
        /\ exists notes,
             console (selectRelease GOOS goArch [] allVersions w).2
             = app (console w) (app notes (latestFailureLines err))
             /\ Forall debugLine notes
             /\ (debugMode w = false -> notes = [])).
Proof.
  split.
  - intros cat v f -> Hv Hs Hf Hm.
    destruct (stableMatch_some GOOS goArch cat v f Hv Hs Hf Hm) as (v' & f' & Hsm).
    destruct (stableMatch_first GOOS goArch cat v' f' Hsm)
      as (pre & post & fpre & fpost & Hcat & Hpre & Hs' & Hfiles & Hfpre & Hf').
    exists pre, v', post, fpre, f', fpost.
    destruct (selectRelease_latest_found cat v' f' w Hsm) as (w' & D & ->).
    destruct (debugged_frame _ _ D) as (_ & _ & _ & _ & _ & Hreq & _).
    repeat split; assumption.
  - intros err Hnone Herr.
    destruct (selectRelease_latest_fallback allVersions w) as (w1 & w2 & D1 & _ & ->).
    { destruct allVersions as [cat|]; [|exact I].
      apply stableMatch_none. exact (Hnone cat eq_refl). }
    rewrite Herr. cbn [fst snd].
    destruct (debugged_frame _ _ D1) as (_ & _ & _ & _ & _ & Hreq & _).
    split; [reflexivity|]. split; [simpl; rewrite Hreq; reflexivity|].
    exact (debugged_console w w1 (latestFailureLines err) D1).
Qed.

(** C3, amended.  For a requested version with no catalog entry and
    artifact for the host (the catalog may be nil), the resolver does not
    fail: it returns the normalized version (the supplied string, with
    ".0" appended when it has exactly one dot) with the URL
    "https://go.dev/dl/go<normalized>.<os>-<arch>.tar.gz", and fetches
    nothing. *)
Theorem unmatched_request_constructs_url (t : string) (rest : list string)
  (allVersions : option (list GoVersionInfo)) (w : world) :
  (forall cat, allVersions = Some cat ->
     forall v, v ∈ cat -> TrimPrefix (Version v) "go" = normalizeVersion t ->
     forall f, f ∈ Files v -> hostArchive GOOS goArch f = false) ->
  (selectRelease GOOS goArch (t :: rest) allVersions w).1
  = Proceed (normalizeVersion t,
             "https://go.dev/dl/go" ++ normalizeVersion t ++ "." ++ GOOS ++ "-"
             ++ goArch ++ ".tar.gz")
  /\ requests (selectRelease GOOS goArch (t :: rest) allVersions w).2 = requests w
  /\ (CountByte t "." = 1 -> normalizeVersion t = t ++ ".0")
  /\ (CountByte t "." <> 1 -> normalizeVersion t = t).
Proof.
  intros Hnone. destruct (selectRelease_requested t rest allVersions w) as (w' & D & ->).
  assert (lookupCatalog GOOS goArch allVersions (normalizeVersion t) = None) as ->.
  { destruct allVersions as [cat|]; [|reflexivity].
    apply catalogMatch_none. exact (Hnone cat eq_refl). }
  destruct (debugged_frame _ _ D) as (_ & _ & _ & _ & _ & Hreq & _).
  split; [reflexivity|]. split; [exact Hreq|]. split.
  - intros Hc. unfold normalizeVersion. rewrite Hc. reflexivity.
  - intros Hc. unfold normalizeVersion.
    destruct (Nat.eqb_spec (CountByte t ".") 1); [contradiction|reflexivity].
Qed.

(** What the resolver returns for a requested version. *)
Lemma selectRelease_requested_result (t : string) (rest : list string)
  (allVersions : option (list GoVersionInfo)) (w : world) :
  (selectRelease GOOS goArch (t :: rest) allVersions w).1
  = match lookupCatalog GOOS goArch allVersions (normalizeVersion t) with
    | Some (v, f) => Proceed (strippedVersion v, "https://go.dev/dl/" ++ Filename f)
    | None => Proceed (normalizeVersion t, constructedURL (normalizeVersion t) GOOS goArch)
    end.
Proof.
  destruct (selectRelease_requested t rest allVersions w) as (w' & _ & ->).
  destruct (lookupCatalog GOOS goArch allVersions (normalizeVersion t)) as [[v f]|];
    reflexivity.
Qed.

(** C4, amended.  Of several requested versions the resolver reads the
    first only: the version and the URL it returns are those it returns
    when the first is the only request, whatever the later candidates
    are, and without [--debug], which lists the requests, the whole run
    is the same.  The result comes from the catalog when the first
    candidate, with ".0" appended when it has exactly one dot, has a
    catalog match for the host, and is constructed from that candidate
    when it has none; no later candidate is looked up. *)
Theorem first_request_decides (t : string) (rest : list string)
  (allVersions : option (list GoVersionInfo)) (w : world) :
  (selectRelease GOOS goArch (t :: rest) allVersions w).1
  = (selectRelease GOOS goArch [t] allVersions w).1
  /\ (debugMode w = false ->
      selectRelease GOOS goArch (t :: rest) allVersions w
      = selectRelease GOOS goArch [t] allVersions w)
  /\ (forall v f,
        lookupCatalog GOOS goArch allVersions (normalizeVersion t) = Some (v, f) ->
        (selectRelease GOOS goArch (t :: rest) allVersions w).1
        = Proceed (TrimPrefix (Version v) "go", "https://go.dev/dl/" ++ Filename f))
  /\ (lookupCatalog GOOS goArch allVersions (normalizeVersion t) = None ->
      (selectRelease GOOS goArch (t :: rest) allVersions w).1
      = Proceed (normalizeVersion t, constructedURL (normalizeVersion t) GOOS goArch)).
Proof.
  split; [rewrite !selectRelease_requested_result; reflexivity|]. split.
  - intros Hq.
    destruct (selectRelease_requested t rest allVersions w) as (w1 & D1 & ->).
    destruct (selectRelease_requested t [] allVersions w) as (w2 & D2 & ->).
    rewrite (debugged_quiet _ _ D1 Hq), (debugged_quiet _ _ D2 Hq). reflexivity.
  - rewrite !selectRelease_requested_result. split.
    + intros v f ->. reflexivity.
    + intros ->. reflexivity.
Qed.

(** C5.  For a requested version with exactly one dot the catalog is
    looked up under the request with ".0" appended: the result is taken
    from the first entry whose version without its "go" prefix equals that
    string and that has an artifact for the host, and from no other; when
    there is no such entry the URL is constructed from that string.  A
    request found in the catalog changes nothing in the world but for the
    lines of [debugPrint] on the console, and nothing at all without
    [--debug]. *)
Theorem one_dot_request_normalized (t : string) (rest : list string)
  (cat : list GoVersionInfo) (w : world) :
  CountByte t "." = 1 ->
  (forall v f,
     catalogMatch GOOS goArch (t ++ ".0") cat = Some (v, f) ->
     (exists w',
        selectRelease GOOS goArch (t :: rest) (Some cat) w
        = (Proceed (TrimPrefix (Version v) "go", "https://go.dev/dl/" ++ Filename f), w')
        /\ debugged w w')
     /\ (debugMode w = false ->
         selectRelease GOOS goArch (t :: rest) (Some cat) w
         = (Proceed (TrimPrefix (Version v) "go", "https://go.dev/dl/" ++ Filename f), w))
     /\ exists pre post fpre fpost,
         cat = (pre ++ v :: post)%list
         /\ (forall u, u ∈ pre -> TrimPrefix (Version u) "go" = t ++ ".0" ->
             forall g, g ∈ Files u -> hostArchive GOOS goArch g = false)
         /\ TrimPrefix (Version v) "go" = t ++ ".0"
         /\ Files v = (fpre ++ f :: fpost)%list
         /\ (forall g, g ∈ fpre -> hostArchive GOOS goArch g = false)
         /\ hostArchive GOOS goArch f = true)
  /\ (catalogMatch GOOS goArch (t ++ ".0") cat = None ->
      (selectRelease GOOS goArch (t :: rest) (Some cat) w).1
      = Proceed (t ++ ".0", constructedURL (t ++ ".0") GOOS goArch))
  /\ (catalogMatch GOOS goArch (t ++ ".0") cat = None <->
      forall v, v ∈ cat -> TrimPrefix (Version v) "go" = t ++ ".0" ->
      forall f, f ∈ Files v -> hostArchive GOOS goArch f = false).
Proof.
  intros Hdot.
  assert (normalizeVersion t = t ++ ".0") as Hn.
  { unfold normalizeVersion. rewrite Hdot. reflexivity. }
  split; [|split].
  - intros v f Hm.
    destruct (selectRelease_requested t rest (Some cat) w) as (w' & D & E).
    rewrite Hn in E. cbn [lookupCatalog] in E. rewrite Hm in E.
    split; [exists w'; split; [exact E|exact D]|]. split.
    + intros Hq. rewrite E, (debugged_quiet _ _ D Hq). reflexivity.
    + exact (catalogMatch_first GOOS goArch _ _ _ _ Hm).
  - intros Hm. rewrite selectRelease_requested_result, Hn. cbn [lookupCatalog].
    rewrite Hm. reflexivity.
  - apply catalogMatch_none.
Qed.

End Selection.

(** The catalog of the examples: a release candidate, then a stable
    release; both have an archive for linux/amd64. *)
Lemma latest_prefers_catalog_witness :
  (exists v' f',
     (@selectRelease asciiTables "linux" "amd64" [] (Some [go1_23rc1; go1_22_0])
        emptyWorld).1
     = Proceed (TrimPrefix (Version v') "go", "https://go.dev/dl/" ++ Filename f')
     /\ Stable v' = true /\ hostArchive "linux" "amd64" f' = true
     /\ requests (@selectRelease asciiTables "linux" "amd64" []
                    (Some [go1_23rc1; go1_22_0]) emptyWorld).2 = [])
  /\ (@selectRelease asciiTables "linux" "amd64" [] None emptyWorld).1 = Exit 1.
Proof.
  split.
  - destruct (@latest_prefers_catalog asciiTables "linux" "amd64"
                (Some [go1_23rc1; go1_22_0]) emptyWorld) as [Hfound _].
    destruct (Hfound [go1_23rc1; go1_22_0] go1_22_0
                {| Filename := "go1.22.0.linux-amd64.tar.gz"; OS := "linux";
                   Arch := "amd64"; Checksum := ""; Size := 68000000;
                   Kind := "archive" |} eq_refl)
      as (pre & v' & post & fpre & f' & fpost & _ & _ & Hs & _ & _ & Hf & Hres & Hreq).
    + right. left.
    + reflexivity.
    + right. left.
    + reflexivity.
    + exists v', f'. repeat split; assumption.
  - destruct (@latest_prefers_catalog asciiTables "linux" "amd64" None emptyWorld)
      as [_ Hfail].
    destruct (Hfail (Errorf ("failed to fetch latest version from "
                             ++ latestVersionTextURL ++ " via HTTP: " ++ "offline")))
      as (Hexit & _).
    + intros cat Hcat. discriminate Hcat.
    + reflexivity.
    + exact Hexit.
Defined.

Example latest_from_catalog :
  (@selectRelease asciiTables "linux" "amd64" [] (Some [go1_23rc1; go1_22_0])
     emptyWorld).1
  = Proceed ("1.22.0", "https://go.dev/dl/go1.22.0.linux-amd64.tar.gz").
Proof. reflexivity. Qed.

(** "1.21.0" is not in a catalog that lists 1.22.0 only. *)
Lemma unmatched_request_constructs_url_witness :
  (@selectRelease asciiTables "linux" "amd64" ["1.21.0"] (Some [go1_22_0]) emptyWorld).1
  = Proceed ("1.21.0", "https://go.dev/dl/go1.21.0.linux-amd64.tar.gz")
  /\ requests (@selectRelease asciiTables "linux" "amd64" ["1.21.0"] (Some [go1_22_0])
                 emptyWorld).2 = [].
Proof.
  destruct (@unmatched_request_constructs_url asciiTables "linux" "amd64" "1.21.0" []
              (Some [go1_22_0]) emptyWorld) as (Hres & Hreq & _).
  - intros cat [= <-] v Hv Hkey.
    apply list_elem_of_singleton in Hv. subst v. vm_compute in Hkey. discriminate Hkey.
  - split; [exact Hres|exact Hreq].
Defined.

(** C3 as stated fails: for the request "1.22" and no catalog, the
    version returned is "1.22.0", not the supplied string, and the URL is
    built from "1.22.0". *)
Lemma one_dot_request_not_returned_as_supplied :
  (@selectRelease asciiTables "linux" "amd64" ["1.22"] None emptyWorld).1
  = Proceed ("1.22.0", "https://go.dev/dl/go1.22.0.linux-amd64.tar.gz")
  /\ (@selectRelease asciiTables "linux" "amd64" ["1.22"] None emptyWorld).1
     <> Proceed ("1.22", "https://go.dev/dl/go1.22.linux-amd64.tar.gz").
Proof. split; [reflexivity|discriminate]. Qed.

(** C4 as stated fails.  Two versions are requested, 1.99.0 and 1.22.0;
    the catalog has an archive for the host for 1.22.0 and none for
    1.99.0.  The resolver returns a constructed URL for 1.99.0: the second
    request, which has a catalog match, is not chosen. *)
Theorem second_request_never_tried :
  catalogMatch "linux" "amd64" "1.99.0" [go1_22_0] = None
  /\ (exists f, catalogMatch "linux" "amd64" "1.22.0" [go1_22_0] = Some (go1_22_0, f))
  /\ (@selectRelease asciiTables "linux" "amd64" ["1.99.0"; "1.22.0"] (Some [go1_22_0])
        emptyWorld).1
     = Proceed ("1.99.0", "https://go.dev/dl/go1.99.0.linux-amd64.tar.gz").
Proof. split; [reflexivity|split; [eexists; reflexivity|reflexivity]]. Qed.

(** "1.22" is requested before "1.21.0": the entry "go1.22.0" decides, as
    it does when "1.22" is the only request. *)
Lemma first_request_decides_witness :
  (@selectRelease asciiTables "linux" "amd64" ["1.22"; "1.21.0"]
     (Some [go1_23rc1; go1_22_0]) emptyWorld).1
  = (@selectRelease asciiTables "linux" "amd64" ["1.22"]
       (Some [go1_23rc1; go1_22_0]) emptyWorld).1
  /\ (@selectRelease asciiTables "linux" "amd64" ["1.22"; "1.21.0"]
        (Some [go1_23rc1; go1_22_0]) emptyWorld).1
     = Proceed ("1.22.0", "https://go.dev/dl/go1.22.0.linux-amd64.tar.gz").
Proof.
  destruct (@first_request_decides asciiTables "linux" "amd64" "1.22" ["1.21.0"]
              (Some [go1_23rc1; go1_22_0]) emptyWorld) as (Hsame & _ & Hfound & _).
  split; [exact Hsame|].
  exact (Hfound go1_22_0
           {| Filename := "go1.22.0.linux-amd64.tar.gz"; OS := "linux";
              Arch := "amd64"; Checksum := ""; Size := 68000000;
              Kind := "archive" |} eq_refl).
Defined.

(** "1.22" finds the entry "go1.22.0". *)
Lemma one_dot_request_normalized_witness :
  CountByte "1.22" "." = 1
  /\ @selectRelease asciiTables "linux" "amd64" ["1.22"] (Some [go1_23rc1; go1_22_0])
       emptyWorld
     = (Proceed ("1.22.0", "https://go.dev/dl/go1.22.0.linux-amd64.tar.gz"), emptyWorld).
Proof.
  split; [reflexivity|].
  destruct (@one_dot_request_normalized asciiTables "linux" "amd64" "1.22" []
              [go1_23rc1; go1_22_0] emptyWorld eq_refl) as (Hfound & _).
  destruct (Hfound go1_22_0
              {| Filename := "go1.22.0.linux-amd64.tar.gz"; OS := "linux";
                 Arch := "amd64"; Checksum := ""; Size := 68000000;
                 Kind := "archive" |} eq_refl) as (_ & Hres & _).
  exact (Hres eq_refl).
Defined.

(* ================================================================== *)
(** * Archive extraction *)
(* ================================================================== *)

Section Paths.

#[local] Arguments String.append !s1 s2 / : simpl nomatch.

Lemma lastByte_app (x y : string) : y <> "" -> lastByte (x ++ y) = lastByte y.
Proof.
  intros Hy. induction x as [|c x IH]; [reflexivity|].
  simpl. rewrite IH. destruct (x ++ y) eqn:E; [|reflexivity].
  destruct x; simpl in E; [contradiction|discriminate].
Qed.

Lemma lastByte_some_nonempty (s : string) (c : ascii) : lastByte s = Some c -> s <> "".
Proof. intros H ->. discriminate. Qed.

Lemma SplitByte_nonempty (s : string) (sep : ascii) : SplitByte s sep <> [].
Proof.
  induction s as [|c s IH]; simpl; [discriminate|].
  destruct (Ascii.eqb c sep); [discriminate|].
  destruct (SplitByte s sep); [contradiction|discriminate].
Qed.

Lemma SplitByte_app (a c : string) (sep : ascii) :
  SplitByte (a ++ String sep c) sep = (SplitByte a sep ++ SplitByte c sep)%list.
Proof.
  induction a as [|x a IH]; simpl.
  - rewrite Ascii.eqb_refl. reflexivity.
  - destruct (Ascii.eqb x sep); [rewrite IH; reflexivity|].
    rewrite IH. pose proof (SplitByte_nonempty a sep) as Hne.
    destruct (SplitByte a sep); [contradiction|reflexivity].
Qed.

Lemma lastByte_Join (l : list string) (c : string) (sep : string) (b : ascii) :
  lastByte c = Some b -> lastByte (Strings.Join (l ++ [c]) sep) = Some b.
Proof.
  intros Hc. induction l as [|x l IH]; [exact Hc|].
  change ((x :: l) ++ [c])%list with (x :: (l ++ [c]))%list.
  destruct (l ++ [c])%list as [|y rest] eqn:E.
  { destruct l; discriminate. }
  change (Strings.Join (x :: y :: rest) sep)
    with (x ++ sep ++ Strings.Join (y :: rest) sep).
  rewrite !lastByte_app; [exact IH| |].
  - exact (lastByte_some_nonempty _ _ IH).
  - intros Hs. destruct sep; simpl in Hs; [|discriminate].
    exact (lastByte_some_nonempty _ _ IH Hs).
Qed.

(** A path joined with a last element that is an ordinary name ends with
    the last byte of that name. *)
Lemma lastByte_Clean (a name : string) (b : ascii) :
  SplitByte name Filepath.Separator = [name] ->
  (String.eqb name "" || String.eqb name ".") = false ->
  String.eqb name ".." = false ->
  lastByte name = Some b ->
  lastByte (Filepath.Clean (a ++ "/" ++ name)) = Some b.
Proof.
  intros Hsplit Hdot Hdotdot Hb. unfold Filepath.Clean.
  change (a ++ "/" ++ name) with (a ++ String Filepath.Separator name).
  rewrite SplitByte_app, Hsplit, fold_left_app.
  set (rooted := HasPrefix _ "/").
  set (kept := fold_left _ (SplitByte a _) []).
  cbn [fold_left].
  assert (Filepath.cleanStep rooted kept name = name :: kept) as ->.
  { unfold Filepath.cleanStep. rewrite Hdot, Hdotdot. reflexivity. }
  cbn [rev]. pose proof (lastByte_Join (rev kept) name "/" b Hb) as Hj.
  destruct rooted.
  - rewrite lastByte_app; [exact Hj|exact (lastByte_some_nonempty _ _ Hj)].
  - destruct (String.eqb_spec (Strings.Join (rev kept ++ [name]) "/") "") as [He|_];
      [|exact Hj].
    rewrite He in Hj. discriminate.
Qed.

Lemma userProfile_lastByte (homeDir : string) :
  lastByte (Filepath.Join [homeDir; ".profile"]) = Some "e"%char.
Proof.
  cbn [Filepath.Join].
  destruct (String.eqb homeDir ""); [reflexivity|].
  apply (lastByte_Clean homeDir ".profile"); reflexivity.
Qed.

Lemma userProfile_not_system (homeDir : string) :
  Filepath.Join [homeDir; ".profile"]
  <> Filepath.Join [systemProfileDDirextory; systemGoProfileFilename]
  /\ Filepath.Join [homeDir; ".profile"] <> systemProfileDDirextory.
Proof.
  pose proof (userProfile_lastByte homeDir) as Hl.
  split; intros Heq; rewrite Heq in Hl; discriminate Hl.
Qed.

End Paths.

Section Inside.

#[local] Arguments String.append !s1 s2 / : simpl nomatch.

Lemma SplitByte_sepfree (s : string) (sep : ascii) :
  Forall (fun e => CountByte e sep = 0) (SplitByte s sep).
Proof.
  induction s as [|c s IH]; simpl; [repeat constructor|].
  destruct (Ascii.eqb c sep) eqn:Ec; [constructor; [reflexivity|exact IH]|].
  destruct (SplitByte s sep) as [|h t]; [repeat constructor; simpl; rewrite Ec; reflexivity|].
  inversion IH as [|? ? Hh Ht]; subst. constructor; [|exact Ht].
  simpl. rewrite Ec, Hh. reflexivity.
Qed.

Lemma SplitByte_single (e : string) (sep : ascii) :
  CountByte e sep = 0 -> SplitByte e sep = [e].
Proof.
  induction e as [|c e IH]; simpl; [reflexivity|].
  destruct (Ascii.eqb c sep); [discriminate|]. intros Hc. rewrite (IH Hc). reflexivity.
Qed.

Lemma SplitByte_Join (l : list string) (sep : ascii) :
  l <> [] -> Forall (fun e => CountByte e sep = 0) l ->
  SplitByte (Strings.Join l (String sep "")) sep = l.
Proof.
  induction l as [|e l IH]; [contradiction|]. intros _ Hall.
  inversion Hall as [|? ? He Hl]; subst.
  destruct l as [|y rest]; [apply SplitByte_single; exact He|].
  change (Strings.Join (e :: y :: rest) (String sep ""))
    with (e ++ String sep "" ++ Strings.Join (y :: rest) (String sep "")).
  change (String sep "" ++ Strings.Join (y :: rest) (String sep ""))
    with (String sep (Strings.Join (y :: rest) (String sep ""))).
  rewrite SplitByte_app, (SplitByte_single e sep He), IH; [reflexivity|discriminate|exact Hl].
Qed.

Lemma cleanStep_ordinary (kept : list string) (elem : string) :
  CountByte elem Filepath.Separator = 0 ->
  Forall ordinary kept -> Forall ordinary (Filepath.cleanStep true kept elem).
Proof.
  intros Hsep Hkept. unfold Filepath.cleanStep.
  destruct (String.eqb_spec elem "") as [|Hne]; [exact Hkept|].
  destruct (String.eqb_spec elem ".") as [|Hnd]; [exact Hkept|]. cbn [orb].
  destruct (String.eqb_spec elem "..") as [|Hndd].
  - destruct kept as [|top below]; [constructor|].
    inversion Hkept as [|? ? Htop Hbelow]; subst.
    destruct (String.eqb_spec top "..") as [->|_]; [|exact Hbelow].
    destruct Htop as (_ & _ & Hdd & _). contradiction.
  - constructor; [|exact Hkept]. repeat split; assumption.
Qed.

Lemma fold_cleanStep_ordinary (elems kept : list string) :
  Forall (fun e => CountByte e Filepath.Separator = 0) elems ->
  Forall ordinary kept ->
  Forall ordinary (fold_left (Filepath.cleanStep true) elems kept).
Proof.
  revert kept. induction elems as [|e elems IH]; intros kept Hall Hkept; [exact Hkept|].
  inversion Hall; subst. cbn [fold_left]. apply IH; [assumption|].
  apply cleanStep_ordinary; assumption.
Qed.

(** A rooted path is cleaned to the root followed by ordinary elements. *)
Lemma Clean_rooted (path : string) :
  HasPrefix path "/" = true ->
  exists elems,
    Forall ordinary elems
    /\ Filepath.Clean path = "/" ++ Strings.Join elems "/"
    /\ (elems <> [] -> SplitByte (Strings.Join elems "/") Filepath.Separator = elems).
Proof.
  intros Hroot. unfold Filepath.Clean. rewrite Hroot.
  set (kept := fold_left _ _ []).
  assert (Forall ordinary kept) as Hkept.
  { apply fold_cleanStep_ordinary; [apply SplitByte_sepfree|constructor]. }
  exists (rev kept). split; [apply Forall_rev; exact Hkept|split; [reflexivity|]].
  intros Hne. apply (SplitByte_Join (rev kept) Filepath.Separator Hne).
  apply Forall_rev. eapply Forall_impl; [exact Hkept|].
  intros e (_ & _ & _ & Hsep). exact Hsep.
Qed.

Lemma Forall_suffix {A} (P : A -> Prop) (a b : list A) (x : A) (l : list A) :
  (a ++ b)%list = x :: l -> a <> [] -> Forall P l -> Forall P b.
Proof.
  intros Heq Ha Hl. destruct a as [|y a]; [contradiction|].
  injection Heq as _ Heq. rewrite <- Heq in Hl.
  apply Forall_app in Hl as [_ Hb]. exact Hb.
Qed.

(** For an absolute destination, a joined path that passes the prefix
    check is the destination, a separator, and ordinary elements below
    it: no parent reference is left in it. *)
Lemma joined_path_inside (destDir name : string) :
  HasPrefix destDir "/" = true ->
  HasPrefix (Filepath.Join [destDir; name]) (destDir ++ "/") = true ->
  exists rest,
    Filepath.Join [destDir; name] = destDir ++ "/" ++ rest
    /\ Forall ordinary (SplitByte rest Filepath.Separator).
Proof.
  intros Habs Hpre. apply HasPrefix_true in Hpre as [rest Hrest].
  rewrite string_app_assoc in Hrest. exists rest. split; [exact Hrest|].
  destruct destDir as [|c destDir]; [discriminate|].
  change (Filepath.Join [String c destDir; name])
    with (Filepath.Clean (Strings.Join [String c destDir; name] "/")) in Hrest.
  destruct (Clean_rooted (Strings.Join [String c destDir; name] "/"))
    as (elems & Hord & Hclean & Hsplit).
  { cbn [Strings.Join]. simpl. simpl in Habs. exact Habs. }
  rewrite Hclean in Hrest.
  assert (SplitByte ("/" ++ Strings.Join elems "/") Filepath.Separator
          = "" :: SplitByte (Strings.Join elems "/") Filepath.Separator) as Hleft.
  { simpl. reflexivity. }
  assert (SplitByte (String c destDir ++ "/" ++ rest) Filepath.Separator
          = (SplitByte (String c destDir) Filepath.Separator
             ++ SplitByte rest Filepath.Separator)%list) as Hright.
  { apply (SplitByte_app (String c destDir) rest Filepath.Separator). }
  rewrite Hrest, Hright in Hleft.
  destruct elems as [|e elems].
  - (* the cleaned path is the root: too short to hold the prefix *)
    change ("/" ++ Strings.Join [] "/") with (String "/" "") in Hrest.
    change (String c destDir ++ "/" ++ rest)
      with (String c (destDir ++ "/" ++ rest)) in Hrest.
    injection Hrest as _ Hrest. destruct destDir; discriminate Hrest.
  - rewrite Hsplit in Hleft by discriminate.
    eapply Forall_suffix; [exact Hleft|apply SplitByte_nonempty|exact Hord].
Qed.

End Inside.

Section Confinement.

Lemma confined_refl (d : string) (w : world) : confined d w w.
Proof.
  split; [reflexivity|split].
  - exists []. split; [symmetry; apply app_nil_r|constructor].
  - reflexivity.
Qed.

Lemma confined_trans (d : string) (w1 w2 w3 : world) :
  confined d w1 w2 -> confined d w2 w3 -> confined d w1 w3.
Proof.
  intros (Hf1 & (n1 & Hj1 & Hn1) & Hk1) (Hf2 & (n2 & Hj2 & Hn2) & Hk2).
  split; [congruence|split].
  - exists (n1 ++ n2)%list. split.
    + rewrite Hj2, Hj1. symmetry. apply app_assoc.
    + apply Forall_app. split; assumption.
  - intros p Hp Hsome. rewrite Hk2; [apply Hk1; assumption|exact Hp|].
    rewrite Hk1; assumption.
Qed.

Lemma mkdirStep_keeps (perm : Z) (dirs : list string) (m : gmap string node)
  (e : option error) (p : string) :
  is_Some (m !! p) ->
  (fold_left (mkdirStep perm) dirs (m, e)).1 !! p = m !! p.
Proof.
  revert m e. induction dirs as [|d dirs IH]; intros m e Hp; simpl; [reflexivity|].
  destruct e as [e|]; simpl; [apply IH; exact Hp|].
  destruct (m !! d) as [[perm'|perm' data]|] eqn:Ed; try (apply IH; exact Hp).
  rewrite IH.
  - apply lookup_insert_ne. intros ->. rewrite Ed in Hp. destruct Hp; discriminate.
  - rewrite lookup_insert_ne; [exact Hp|].
    intros ->. rewrite Ed in Hp. destruct Hp; discriminate.
Qed.

Lemma debugPrint_confined (d text : string) (w : world) :
  confined d w (debugPrint text w).2.
Proof.
  destruct (debugPrint_frame text w) as (Hf & Hx & Hj & _).
  split; [exact Hx|split].
  - exists []. split; [rewrite Hj; symmetry; apply app_nil_r|constructor].
  - intros p _ _. rewrite Hf. reflexivity.
Qed.

Lemma Stat_world (name : string) (w : world) : (Stat name w).2 = w.
Proof.
  unfold Stat. destruct (faulty w SStat name); [reflexivity|].
  destruct (files w !! name); reflexivity.
Qed.

Lemma confined_call (d : string) (c : syscall) (target : string) (w : world)
  (m : gmap string node) :
  below d target ->
  (forall p, p <> target -> is_Some (files w !! p) -> m !! p = files w !! p) ->
  confined d w (setFiles m (logCall c target w)).
Proof.
  intros Ht Hm. split; [reflexivity|split].
  - exists [(c, target)]. split; [reflexivity|].
    constructor; [exact Ht|constructor].
  - intros p Hp Hsome. simpl. apply Hm; [|exact Hsome].
    intros ->. destruct Ht as [Ht _]. congruence.
Qed.

Lemma confined_log (d : string) (c : syscall) (target : string) (w : world) :
  below d target -> confined d w (logCall c target w).
Proof.
  intros Ht. split; [reflexivity|split].
  - exists [(c, target)]. split; [reflexivity|].
    constructor; [exact Ht|constructor].
  - reflexivity.
Qed.

Lemma MkdirAll_confined (d target : string) (perm : Z) (w : world) :
  below d target -> confined d w (MkdirAll target perm w).2.
Proof.
  intros Ht. unfold MkdirAll.
  change (faulty (logCall SMkdirAll target w) SMkdirAll target)
    with (faulty w SMkdirAll target).
  destruct (faulty w SMkdirAll target); [apply confined_log; exact Ht|].
  simpl files.
  pose proof (mkdirStep_keeps perm (Filepath.ancestors target ++ [target])
                (files w) None) as Hkeep.
  destruct (fold_left _ _ _) as [m err]. simpl in *.
  apply confined_call; [exact Ht|]. intros p _ Hsome. apply Hkeep, Hsome.
Qed.

Lemma Chmod_confined (d target : string) (mode : Z) (w : world) :
  below d target -> confined d w (Chmod target mode w).2.
Proof.
  intros Ht. unfold Chmod.
  change (faulty (logCall SChmod target w) SChmod target)
    with (faulty w SChmod target).
  destruct (faulty w SChmod target); [apply confined_log; exact Ht|].
  simpl files.
  destruct (files w !! target) as [[perm|perm data]|]; simpl;
    [apply confined_call; [exact Ht|] ..|apply confined_log; exact Ht];
    intros p Hne _; apply lookup_insert_ne; congruence.
Qed.

Lemma WriteString_confined (d target data : string) (w : world) :
  below d target -> confined d w (WriteString target data w).2.
Proof.
  intros Ht. unfold WriteString.
  change (faulty (logCall SWrite target w) SWrite target)
    with (faulty w SWrite target).
  destruct (faulty w SWrite target); [apply confined_log; exact Ht|].
  simpl files.
  destruct (files w !! target) as [[perm|perm old]|]; simpl;
    [apply confined_log; exact Ht|apply confined_call; [exact Ht|]
    |apply confined_log; exact Ht].
  intros p Hne _; apply lookup_insert_ne; congruence.
Qed.

Lemma OpenFile_handle (name : string) (flag perm : Z) (w : world) (f : string) :
  (OpenFile name flag perm w).1 = Ok f -> f = name.
Proof.
  unfold OpenFile.
  destruct (faulty _ SOpenFile name); [discriminate|].
  destruct (files _ !! name) as [[p|p data]|]; simpl; try discriminate.
  - intros [= ->]. reflexivity.
  - destruct (_ && _); simpl; [intros [= ->]; reflexivity|discriminate].
Qed.

Lemma OpenFile_create_confined (d target : string) (perm : Z) (w : world) :
  below d target ->
  confined d w (OpenFile target (Z.lor O_CREATE (Z.lor O_RDWR O_TRUNC)) perm w).2.
Proof.
  intros Ht. unfold OpenFile.
  change (hasFlag (Z.lor O_CREATE (Z.lor O_RDWR O_TRUNC)) (Z.lor O_CREATE O_TRUNC))
    with true.
  change (hasFlag (Z.lor O_CREATE (Z.lor O_RDWR O_TRUNC)) O_TRUNC) with true.
  change (hasFlag (Z.lor O_CREATE (Z.lor O_RDWR O_TRUNC)) O_CREATE) with true.
  cbv iota.
  change (faulty (logCall SOpenFile target w) SOpenFile target)
    with (faulty w SOpenFile target).
  destruct (faulty w SOpenFile target); [apply confined_log; exact Ht|].
  simpl files.
  destruct (files w !! target) as [[p|p data]|]; simpl;
    [apply confined_log; exact Ht|apply confined_call; [exact Ht|]|].
  - intros q Hne _; apply lookup_insert_ne; congruence.
  - destruct (parentIsDir (files w) target); simpl;
      [apply confined_call; [exact Ht|]|apply confined_log; exact Ht].
    intros q Hne _; apply lookup_insert_ne; congruence.
Qed.


Lemma IO_bind_run {A B : Type} (m : IO A) (k : A -> IO B) (w : world) :
  (m ≫= k) w = k (m w).1 (m w).2.
Proof. unfold mbind, IO_bind. destruct (m w); reflexivity. Qed.

Lemma extractEntries_confined (d : string) (items : list item) (w : world) :
  confined d w (extractEntries d items w).2.
Proof.
  revert w. induction items as [|[header data|err] items IH]; intros w;
    [apply confined_refl| |apply confined_refl].
  cbn [extractEntries].
  destruct (HasPrefix (Filepath.Join [d; Name header]) (d ++ "/")) eqn:Hpre;
    cbn [negb]; [|apply confined_refl].
  assert (below d (Filepath.Join [d; Name header])) as Ht
    by (split; [exact Hpre|exists (Name header); reflexivity]).
  destruct (Ascii.eqb (Typeflag header) TypeDir).
  - rewrite IO_bind_run, Stat_world.
    destruct (IsNotExist (Stat (Filepath.Join [d; Name header]) w).1).
    + rewrite IO_bind_run.
      pose proof (MkdirAll_confined d _ (FileMode (Mode header)) w Ht) as Hc.
      destruct (MkdirAll _ _ w) as [[e|] w1]; simpl in *; [exact Hc|].
      exact (confined_trans _ _ _ _ Hc (IH w1)).
    + destruct (Stat _ w).1 as [e|]; [apply confined_refl|].
      rewrite IO_bind_run.
      match goal with
      | |- context [debugPrint ?text w] =>
          apply (confined_trans _ _ _ _ (debugPrint_confined d text w));
          generalize (debugPrint text w).2
      end.
      intros w0.
      rewrite IO_bind_run.
      pose proof (Chmod_confined d _ (FileMode (Mode header)) w0 Ht) as Hc.
      destruct (Chmod _ _ w0) as [[e|] w1]; simpl in *; [exact Hc|].
      exact (confined_trans _ _ _ _ Hc (IH w1)).
  - destruct (Ascii.eqb (Typeflag header) TypeReg); [|apply IH].
    rewrite IO_bind_run.
    pose proof (OpenFile_create_confined d _ (FileMode (Mode header)) w Ht) as Hc.
    pose proof (OpenFile_handle (Filepath.Join [d; Name header])
                  (Z.lor O_CREATE (Z.lor O_RDWR O_TRUNC)) (FileMode (Mode header)) w) as Hh.
    destruct (OpenFile _ _ _ w) as [[f|e] w1]; simpl in *; [|exact Hc].
    rewrite (Hh f eq_refl). rewrite IO_bind_run.
    pose proof (WriteString_confined d _ data w1 Ht) as Hc2.
    destruct (WriteString _ data w1) as [[e|] w2]; simpl in *;
      [exact (confined_trans _ _ _ _ Hc Hc2)|].
    exact (confined_trans _ _ _ _ Hc (confined_trans _ _ _ _ Hc2 (IH w2))).
Qed.

(** The loop on a stream cut in two: the second part runs in the world the
    first part leaves, unless the first part ended in an error. *)
Lemma extractEntries_app (d : string) (before rest : list item) (w : world) :
  extractEntries d (before ++ rest) w
  = match (extractEntries d before w).1 with
    | Some e => (Some e, (extractEntries d before w).2)
    | None => extractEntries d rest (extractEntries d before w).2
    end.
Proof.
  revert w. induction before as [|[header data|err] before IH]; intros w;
    [reflexivity| |reflexivity].
  cbn [extractEntries app].
  destruct (negb (HasPrefix (Filepath.Join [d; Name header]) (d ++ "/")));
    [reflexivity|].
  destruct (Ascii.eqb (Typeflag header) TypeDir).
  - rewrite !IO_bind_run.
    destruct (IsNotExist (Stat (Filepath.Join [d; Name header]) w).1).
    + rewrite !IO_bind_run. destruct (MkdirAll _ _ _).1; [reflexivity|apply IH].
    + destruct (Stat _ w).1; [reflexivity|].
      rewrite !IO_bind_run. destruct (Chmod _ _ _).1; [reflexivity|apply IH].
  - destruct (Ascii.eqb (Typeflag header) TypeReg); [|apply IH].
    rewrite !IO_bind_run. destruct (OpenFile _ _ _ w).1; [|reflexivity].
    rewrite !IO_bind_run. destruct (WriteString _ _ _).1; [reflexivity|apply IH].
Qed.

Lemma extractEntries_illegal (d : string) (header : Header) (data : string)
  (after : list item) (w : world) :
  HasPrefix (Filepath.Join [d; Name header]) (d ++ "/") = false ->
  extractEntries d (Entry header data :: after) w
  = (Some (Errorf ("illegal file path: " ++ Filepath.Join [d; Name header])), w).
Proof. intros Ht. cbn [extractEntries]. rewrite Ht. reflexivity. Qed.

Lemma extractEntries_other (d : string) (header : Header) (data : string)
  (after : list item) (w : world) :
  Typeflag header <> TypeDir -> Typeflag header <> TypeReg ->
  HasPrefix (Filepath.Join [d; Name header]) (d ++ "/") = true ->
  extractEntries d (Entry header data :: after) w = extractEntries d after w.
Proof.
  intros Hd Hr Ht. cbn [extractEntries]. rewrite Ht. cbn [negb].
  apply Ascii.eqb_neq in Hd, Hr. rewrite Hd, Hr. reflexivity.
Qed.

Lemma extractTarGz_stream `{Codec} (filePath destDir : string) (w : world)
  (perm : Z) (bytes : string) (items : list item) :
  faulty w SOpen filePath = false ->
  files w !! filePath = Some (File perm bytes) ->
  decode bytes = Stream items ->
  extractTarGz filePath destDir w = extractEntries destDir items w.
Proof.
  intros Hf Hfile Hdec. unfold extractTarGz, Open, mbind, IO_bind.
  rewrite Hf, Hfile, Hdec. reflexivity.
Qed.

Lemma extractTarGz_confined `{Codec} (filePath destDir : string) (w : world) :
  confined destDir w (extractTarGz filePath destDir w).2.
Proof.
  unfold extractTarGz, Open, mbind, IO_bind.
  destruct (faulty w SOpen filePath); [apply confined_refl|].
  destruct (files w !! filePath) as [[p|p bytes]|]; try apply confined_refl.
  destruct (decode bytes); [apply confined_refl|apply extractEntries_confined].
Qed.

End Confinement.

Section ExtractionClaims.

Context `{Codec}.

(** C1.  Every call of [extractTarGz] that can change the file tree names
    the joined path of an entry that has [destDir] followed by the
    separator as a prefix; for an absolute [destDir] such a path is
    [destDir], the separator, and ordinary elements, with no parent
    reference left.  Nothing that existed at a path without the prefix is
    altered.  When the joined path of an entry lacks the prefix,
    extraction returns an error (the "illegal file path" error when the
    entries before it went through) and stops there: the world is the one
    the entries before it left, whatever follows in the archive. *)
Theorem extraction_confined (filePath destDir : string) (w : world) :
  (exists new,
     journal (extractTarGz filePath destDir w).2 = app (journal w) new
     /\ Forall (fun call => HasPrefix call.2 (destDir ++ "/") = true) new
     /\ (HasPrefix destDir "/" = true ->
         Forall (fun call =>
                   exists rest,
                     call.2 = destDir ++ "/" ++ rest
                     /\ Forall ordinary (SplitByte rest Filepath.Separator)) new))
  /\ (forall p, HasPrefix p (destDir ++ "/") = false -> is_Some (files w !! p) ->
      files (extractTarGz filePath destDir w).2 !! p = files w !! p)
  /\ (forall perm bytes before header data after,
        faulty w SOpen filePath = false ->
        files w !! filePath = Some (File perm bytes) ->
        decode bytes = Stream (before ++ Entry header data :: after) ->
        HasPrefix (Filepath.Join [destDir; Name header]) (destDir ++ "/") = false ->
        exists e,
          (extractTarGz filePath destDir w).1 = Some e
          /\ (extractTarGz filePath destDir w).2 = (extractEntries destDir before w).2
          /\ ((extractEntries destDir before w).1 = None ->
              e = Errorf ("illegal file path: " ++ Filepath.Join [destDir; Name header]))).
Proof.
  destruct (extractTarGz_confined filePath destDir w) as (_ & (new & Hj & Hnew) & Hk).
  split; [|split; [exact Hk|]].
  - exists new. split; [exact Hj|split].
    + eapply Forall_impl; [exact Hnew|]. intros call [Hpre _]. exact Hpre.
    + intros Habs. eapply Forall_impl; [exact Hnew|].
      intros call [Hpre [name Hname]]. rewrite Hname in Hpre |- *.
      exact (joined_path_inside destDir name Habs Hpre).
  - intros perm bytes before header data after Hf Hfile Hdec Ht.
    rewrite (extractTarGz_stream _ _ _ _ _ _ Hf Hfile Hdec), extractEntries_app.
    destruct (extractEntries destDir before w) as [[e|] w1]; cbn [fst snd].
    + exists e. repeat split. discriminate.
    + rewrite (extractEntries_illegal _ _ _ _ _ Ht). eexists. repeat split.
Qed.

(** C7, amended.  An entry that is neither a directory nor a regular file
    and whose joined path passes the prefix check is skipped: extraction
    gives the result and the world it gives on the archive without that
    entry.  When its joined path fails the check it is refused like any
    other entry; nothing is created for it either. *)
Theorem other_entry_types_skipped (filePath destDir : string) (w : world)
  (perm : Z) (bytes : string) (before : list item) (header : Header) (data : string)
  (after : list item) :
  Typeflag header <> TypeDir -> Typeflag header <> TypeReg ->
  faulty w SOpen filePath = false ->
  files w !! filePath = Some (File perm bytes) ->
  decode bytes = Stream (before ++ Entry header data :: after) ->
  (HasPrefix (Filepath.Join [destDir; Name header]) (destDir ++ "/") = true ->
   extractTarGz filePath destDir w = extractEntries destDir (before ++ after) w)
  /\ (HasPrefix (Filepath.Join [destDir; Name header]) (destDir ++ "/") = false ->
      (extractTarGz filePath destDir w).2 = (extractEntries destDir before w).2
      /\ is_Some (extractTarGz filePath destDir w).1).
Proof.
  intros Hd Hr Hf Hfile Hdec.
  rewrite (extractTarGz_stream _ _ _ _ _ _ Hf Hfile Hdec), !extractEntries_app.
  split; intros Ht.
  - destruct (extractEntries destDir before w) as [[e|] w1]; cbn [fst snd]; [reflexivity|].
    apply extractEntries_other; assumption.
  - destruct (extractEntries destDir before w) as [[e|] w1]; cbn [fst snd].
    + split; [reflexivity|eexists; reflexivity].
    + rewrite (extractEntries_illegal _ _ _ _ _ Ht).
      split; [reflexivity|eexists; reflexivity].
Qed.

End ExtractionClaims.

Example extract_ok :
  let r := @extractTarGz (fixedCodec [goDirEntry; linkEntry; versionEntry])
             "/tmp/go.tar.gz" "/home/u/.local" (withTree userTree []) in
  r.1 = None
  /\ files r.2 !! "/home/u/.local/go" = Some (Dir 493)
  /\ files r.2 !! "/home/u/.local/go/VERSION" = Some (File 420 "go1.22.0")
  /\ files r.2 !! "/home/u/.local/go/bin/gofmt" = None
  /\ journal r.2 = [(SMkdirAll, "/home/u/.local/go"); (SOpenFile, "/home/u/.local/go/VERSION");
                    (SWrite, "/home/u/.local/go/VERSION")].
Proof. vm_compute. repeat split. Qed.

Lemma extraction_confined_witness :
  let r := @extractTarGz (fixedCodec [goDirEntry; evilEntry TypeReg; versionEntry])
             "/tmp/go.tar.gz" "/home/u/.local" (withTree userTree []) in
  exists e, r.1 = Some e /\ e = Errorf "illegal file path: /home/evil"
            /\ files r.2 !! "/home/evil" = None.
Proof.
  destruct (@extraction_confined (fixedCodec [goDirEntry; evilEntry TypeReg; versionEntry])
              "/tmp/go.tar.gz" "/home/u/.local" (withTree userTree []))
    as (_ & _ & Habort).
  destruct (Habort 420%Z "bytes" [goDirEntry]
              {| Name := "../../evil"; Typeflag := TypeReg; Mode := 420 |}
              "payload" [versionEntry]) as (e & He & Hw & Hmsg);
    [reflexivity..|].
  exists e. split; [exact He|split].
  - apply Hmsg. reflexivity.
  - cbv zeta. rewrite Hw. reflexivity.
Defined.

(** A symbolic link inside the destination, between a directory and a file. *)
Lemma other_entry_types_skipped_witness :
  @extractTarGz (fixedCodec [goDirEntry; linkEntry; versionEntry])
    "/tmp/go.tar.gz" "/home/u/.local" (withTree userTree [])
  = extractEntries "/home/u/.local" [goDirEntry; versionEntry] (withTree userTree []).
Proof.
  destruct (@other_entry_types_skipped (fixedCodec [goDirEntry; linkEntry; versionEntry])
              "/tmp/go.tar.gz" "/home/u/.local" (withTree userTree []) 420%Z "bytes"
              [goDirEntry]
              {| Name := "go/bin/gofmt"; Typeflag := TypeSymlink; Mode := 511 |} ""
              [versionEntry]) as [Hskip _];
    [intros E; inversion E|intros E; inversion E|reflexivity..|].
  apply Hskip. reflexivity.
Defined.

(** C7 as stated fails: a symbolic link named "../../evil" is not skipped
    in silence.  Extraction returns the "illegal file path" error for it
    and the file that follows it in the archive is not unpacked. *)
Lemma symlink_outside_is_refused :
  let r := @extractTarGz (fixedCodec [goDirEntry; evilEntry TypeSymlink; versionEntry])
             "/tmp/go.tar.gz" "/home/u/.local" (withTree userTree []) in
  TypeSymlink <> TypeDir /\ TypeSymlink <> TypeReg
  /\ r.1 = Some (Errorf "illegal file path: /home/evil")
  /\ files r.2 !! "/home/u/.local/go/VERSION" = None.
Proof. repeat split; intros E; inversion E. Qed.

(* ================================================================== *)
(** * PATH configuration *)
(* ================================================================== *)

Lemma configureUserPath_ensure (homeDir installPath : string) :
  configureUserPath homeDir installPath
  = (Printf ("Attempting to add Go bin directory to "
             ++ Filepath.Join [homeDir; ".profile"] ++ "..." ++ nl) ;;
     ensureExportLine (Filepath.Join [homeDir; ".profile"])
       (Filepath.Join [installPath; "bin"]) ".profile"
       (fun what => manualFallback what installPath)
       (fun msg => Printf msg ;;
                   printUserActivationInstruction (Filepath.Join [homeDir; ".profile"]))).
Proof. reflexivity. Qed.

Lemma configureSystemPath_ensure (homeDir installPath : string) :
  configureSystemPath homeDir installPath
  = (Println "Attempting to configure PATH globally..." ;;
     err ← Stat systemProfileDDirextory;
     if IsNotExist err then
       userFallback
         ("Error: Directory " ++ systemProfileDDirextory
          ++ " does not exist. Cannot configure PATH globally.") homeDir installPath
     else
       match err with
       | Some e =>
           userFallback
             ("Error: Failed to check directory " ++ systemProfileDDirextory ++ ": "
              ++ Error e) homeDir installPath
       | None =>
           ensureExportLine
             (Filepath.Join [systemProfileDDirextory; systemGoProfileFilename])
             (Filepath.Join [installPath; "bin"]) systemGoProfileFilename
             (fun what => userFallback ("Warning: " ++ what) homeDir installPath)
             (fun msg => Printf msg ;;
                         printGlobalActivationInstruction
                           (Filepath.Join [systemProfileDDirextory;
                                           systemGoProfileFilename]))
       end).
Proof. reflexivity. Qed.

Section Ensure.

Lemma faulty_emit s t w c p : faulty (emit s t w) c p = faulty w c p.
Proof. reflexivity. Qed.
Lemma faulty_logCall c' p' w c p : faulty (logCall c' p' w) c p = faulty w c p.
Proof. reflexivity. Qed.
Lemma faulty_setFiles m w c p : faulty (setFiles m w) c p = faulty w c p.
Proof. reflexivity. Qed.
Lemma faulty_refusedAt w c p : faulty w c p = refusedAt (faults w) p c.
Proof. reflexivity. Qed.

Lemma touches_intro (B P : string) (w w0 : world) (n : option node)
  (new : list (syscall * string)) :
  faults w0 = faults w ->
  (ensured B P (faults w) (files w)).1 = n ->
  files w0 = writeBack P n (files w) ->
  journal w0 = app (journal w) new ->
  Forall (fun call => call.2 = P) new ->
  (forall perm content,
     files w !! P = Some (File perm content) ->
     Contains content B = true -> new = []) ->
  touches B P w w0.
Proof.
  intros Hf Hn Hfiles Hj Hnew Hskip. split; [exact Hf|split].
  - rewrite Hn. exact Hfiles.
  - exists new. repeat split; assumption.
Qed.

Lemma Stat_fst (P : string) (w : world) :
  (Stat P w).1
  = if faulty w SStat P then Some (PathError "stat" P EIO)
    else match files w !! P with
         | Some _ => None
         | None => Some (PathError "stat" P ENOENT)
         end.
Proof.
  unfold Stat. destruct (faulty w SStat P); [reflexivity|].
  destruct (files w !! P); reflexivity.
Qed.

Lemma Create_run (P : string) (w : world) :
  Create P w
  = if faulty w SOpenFile P
    then (Err (PathError "open" P EIO), logCall SOpenFile P w)
    else match files w !! P with
         | Some (Dir _) => (Err (PathError "open" P EISDIR), logCall SOpenFile P w)
         | Some (File p _) =>
             (Ok P, setFiles (<[P := File p ""]> (files w)) (logCall SOpenFile P w))
         | None =>
             if parentIsDir (files w) P
             then (Ok P, setFiles (<[P := File 438 ""]> (files w)) (logCall SOpenFile P w))
             else (Err (PathError "open" P ENOENT), logCall SOpenFile P w)
         end.
Proof. reflexivity. Qed.

Lemma OpenFile_append_run (P : string) (w : world) :
  OpenFile P (Z.lor O_APPEND O_WRONLY) 420 w
  = if faulty w SOpenFile P then (Err (PathError "open" P EIO), w)
    else match files w !! P with
         | Some (Dir _) => (Err (PathError "open" P EISDIR), w)
         | Some (File _ _) => (Ok P, w)
         | None => (Err (PathError "open" P ENOENT), w)
         end.
Proof.
  unfold OpenFile.
  change (hasFlag (Z.lor O_APPEND O_WRONLY) (Z.lor O_CREATE O_TRUNC)) with false.
  change (hasFlag (Z.lor O_APPEND O_WRONLY) O_TRUNC) with false.
  change (hasFlag (Z.lor O_APPEND O_WRONLY) O_CREATE) with false.
  cbv iota. destruct (faulty w SOpenFile P); [reflexivity|].
  destruct (files w !! P) as [[p|p data]|]; reflexivity.
Qed.

Lemma ensured_eq (B P : string) (w : world) :
  ensured B P (faults w) (files w)
  = ensureNode B (fun c => faulty w c P) (parentIsDir (files w) P) (files w !! P).
Proof. reflexivity. Qed.

Ltac leaf n new :=
  eexists _, _; split; [|reflexivity];
  apply (touches_intro _ _ _ _ n new);
  [ reflexivity | | | | repeat constructor | ].

Lemma ensureExportLine_run (P B short : string) (fail done : string -> IO unit)
  (w : world) :
  exists w0 msg,
    touches B P w w0
    /\ ensureExportLine P B short fail done w
       = (if (ensured B P (faults w) (files w)).2 then fail msg else done msg) w0.
Proof.
  rewrite ensured_eq. unfold ensureExportLine, ensureNode.
  rewrite IO_bind_run, Stat_world, Stat_fst. cbn beta.
  destruct (faulty w SStat P) eqn:FStat; cbn [fst snd IsNotExist].
  { leaf (files w !! P) (@nil (syscall * string)).
    - rewrite ensured_eq. unfold ensureNode. cbn beta. rewrite FStat. reflexivity.
    - unfold writeBack. destruct (files w !! P) eqn:E; [|reflexivity].
      symmetry. apply insert_id, E.
    - symmetry. apply app_nil_r.
    - reflexivity. }
  destruct (files w !! P) as [[perm|perm content]|] eqn:Ecur; cbn [IsNotExist].
  - (* a directory has the name of the profile *)
    rewrite IO_bind_run. unfold ReadFile at 1 2. rewrite Ecur.
    destruct (faulty w SReadFile P); cbn [fst snd];
      leaf (Some (Dir perm)) (@nil (syscall * string));
      try (rewrite ensured_eq; unfold ensureNode; cbn beta;
           rewrite FStat, Ecur; reflexivity);
      try (symmetry; apply insert_id, Ecur);
      try (symmetry; apply app_nil_r); reflexivity.
  - (* the profile is there *)
    rewrite IO_bind_run. unfold ReadFile at 1 2. rewrite Ecur.
    destruct (faulty w SReadFile P) eqn:FRead; cbn [fst snd].
    { leaf (Some (File perm content)) (@nil (syscall * string)).
      - rewrite ensured_eq. unfold ensureNode. cbn beta.
        rewrite FStat, Ecur, FRead. reflexivity.
      - symmetry. apply insert_id, Ecur.
      - symmetry. apply app_nil_r.
      - reflexivity. }
    destruct (Contains content B) eqn:Ehas.
    { leaf (Some (File perm content)) (@nil (syscall * string)).
      - rewrite ensured_eq. unfold ensureNode. cbn beta.
        rewrite FStat, Ecur, FRead, Ehas. reflexivity.
      - symmetry. apply insert_id, Ecur.
      - symmetry. apply app_nil_r.
      - reflexivity. }
    rewrite IO_bind_run, OpenFile_append_run.
    destruct (faulty w SOpenFile P) eqn:FOpen; cbn [fst snd].
    { leaf (Some (File perm content)) (@nil (syscall * string)).
      - rewrite ensured_eq. unfold ensureNode. cbn beta.
        rewrite FStat, Ecur, FRead, Ehas, FOpen. reflexivity.
      - symmetry. apply insert_id, Ecur.
      - symmetry. apply app_nil_r.
      - reflexivity. }
    rewrite Ecur. cbn [fst snd]. rewrite IO_bind_run. unfold WriteString at 1 2.
    rewrite faulty_logCall.
    destruct (faulty w SWrite P) eqn:FWrite; cbn [fst snd].
    { leaf (Some (File perm content)) [(SWrite, P)].
      - rewrite ensured_eq. unfold ensureNode. cbn beta.
        rewrite FStat, Ecur, FRead, Ehas, FOpen, FWrite. reflexivity.
      - symmetry. apply insert_id, Ecur.
      - reflexivity.
      - intros perm' content' Hc Hhas. rewrite Ecur in Hc. congruence. }
    cbn [files logCall]. rewrite Ecur. cbn [fst snd].
    leaf (Some (File perm (content ++ nl ++ exportLineFor B ++ nl))) [(SWrite, P)].
    + rewrite ensured_eq. unfold ensureNode. cbn beta.
      rewrite FStat, Ecur, FRead, Ehas, FOpen, FWrite. reflexivity.
    + reflexivity.
    + reflexivity.
    + intros perm' content' Hc Hhas. rewrite Ecur in Hc. congruence.
  - (* no profile yet *)
    rewrite IO_bind_run. cbn [Printf fst snd]. rewrite IO_bind_run, Create_run.
    rewrite faulty_emit. cbn [files emit]. rewrite Ecur.
    destruct (faulty w SOpenFile P) eqn:FOpen; cbn [fst snd orb].
    { leaf (@None node) [(SOpenFile, P)].
      - rewrite ensured_eq. unfold ensureNode. cbn beta.
        rewrite FStat, Ecur, FOpen. reflexivity.
      - reflexivity.
      - reflexivity.
      - intros perm content Hc. congruence. }
    destruct (parentIsDir (files w) P) eqn:Eparent; cbn [fst snd negb].
    2:{ leaf (@None node) [(SOpenFile, P)].
        - rewrite ensured_eq. unfold ensureNode. cbn beta.
          rewrite FStat, Ecur, FOpen, Eparent. reflexivity.
        - reflexivity.
        - reflexivity.
        - intros perm content Hc. congruence. }
    rewrite IO_bind_run. unfold WriteString at 1 2.
    rewrite faulty_logCall, faulty_setFiles, faulty_logCall, faulty_emit.
    destruct (faulty w SWrite P) eqn:FWrite; cbn [fst snd].
    { leaf (Some (File 438 "")) [(SOpenFile, P); (SWrite, P)].
      - rewrite ensured_eq. unfold ensureNode. cbn beta.
        rewrite FStat, Ecur, FOpen, Eparent, FWrite. reflexivity.
      - reflexivity.
      - cbn [journal logCall setFiles emit]. rewrite <- app_assoc. reflexivity.
      - intros perm content Hc. congruence. }
    cbn [files logCall setFiles]. rewrite lookup_insert_eq. cbn [fst snd].
    leaf (Some (File 438 (exportLineFor B ++ nl))) [(SOpenFile, P); (SWrite, P)].
    + rewrite ensured_eq. unfold ensureNode. cbn beta.
      rewrite FStat, Ecur, FOpen, Eparent, FWrite. reflexivity.
    + cbn [files setFiles writeBack]. apply insert_insert_eq.
    + cbn [journal logCall setFiles emit]. rewrite <- app_assoc. reflexivity.
    + intros perm content Hc. congruence.
Qed.
End Ensure.

Section Summary.

Variable B : string.

Lemma Contains_exportLine (old pre : string) :
  Contains (old ++ pre ++ exportLineFor B ++ nl) B = true.
Proof.
  unfold exportLineFor.
  replace (old ++ pre ++ ("export PATH=" ++ quote ++ B ++ ":$PATH" ++ quote) ++ nl)
    with ((old ++ pre ++ "export PATH=" ++ quote) ++ B ++ (":$PATH" ++ quote ++ nl)).
  - apply Contains_intro.
  - rewrite !string_app_assoc. reflexivity.
Qed.

Lemma Contains_created : Contains (exportLineFor B ++ nl) B = true.
Proof. exact (Contains_exportLine "" ""). Qed.

Lemma Contains_appended (content : string) :
  Contains (content ++ nl ++ exportLineFor B ++ nl) B = true.
Proof. exact (Contains_exportLine content nl). Qed.

Lemma ensureNode_none (F : syscall -> bool) (pok : bool) (cur : option node) :
  (ensureNode B F pok cur).1 = None -> cur = None.
Proof.
  unfold ensureNode. destruct (F SStat); [intros H; exact H|].
  destruct cur as [[perm|perm content]|]; [discriminate| |reflexivity].
  repeat match goal with |- context [if ?b then _ else _] => destruct b end;
    discriminate.
Qed.

Lemma ensureNode_has (F : syscall -> bool) (pok : bool) (perm : Z) (content : string) :
  Contains content B = true ->
  (ensureNode B F pok (Some (File perm content))).1 = Some (File perm content).
Proof.
  intros Hhas. unfold ensureNode. rewrite Hhas.
  destruct (F SStat), (F SReadFile); reflexivity.
Qed.

Lemma ensureNode_idem (F : syscall -> bool) (pok pok' : bool) (cur : option node) :
  ((ensureNode B F pok cur).1 = None -> pok' = pok) ->
  (ensureNode B F pok' (ensureNode B F pok cur).1).1 = (ensureNode B F pok cur).1.
Proof.
  unfold ensureNode.
  destruct (F SStat); cbn [fst]; [reflexivity|].
  destruct cur as [[perm|perm content]|]; cbn [fst]; [reflexivity| |].
  - destruct (F SReadFile); cbn [fst]; [reflexivity|].
    destruct (Contains content B) eqn:Ehas; cbn [fst]; [rewrite Ehas; reflexivity|].
    destruct (F SOpenFile); cbn [fst]; [rewrite Ehas; reflexivity|].
    destruct (F SWrite); cbn [fst]; [rewrite Ehas; reflexivity|].
    rewrite Contains_appended. reflexivity.
  - destruct (F SOpenFile); cbn [orb fst]; [reflexivity|].
    destruct pok; cbn [negb fst].
    2:{ intros Hp. rewrite (Hp eq_refl). reflexivity. }
    intros _. destruct (F SWrite); cbn [fst].
    + destruct (F SReadFile); [reflexivity|].
      destruct (Contains "" B); reflexivity.
    + destruct (F SReadFile); [reflexivity|]. rewrite Contains_created. reflexivity.
Qed.

Lemma ensureNode_flag (F : syscall -> bool) (pok pok' : bool) (cur : option node) :
  (ensureNode B F pok cur).2 = false -> F SReadFile = false ->
  (ensureNode B F pok' (ensureNode B F pok cur).1).2 = false.
Proof.
  intros Hflag FRead. revert Hflag. unfold ensureNode. rewrite FRead.
  destruct (F SStat); cbn [fst snd]; [discriminate|].
  destruct cur as [[perm|perm content]|]; cbn [fst snd]; [discriminate| |].
  - destruct (Contains content B) eqn:Ehas; cbn [fst snd].
    { intros _. rewrite Ehas. reflexivity. }
    destruct (F SOpenFile); [discriminate|].
    destruct (F SWrite); [discriminate|]. cbn [fst snd].
    intros _. rewrite Contains_appended. reflexivity.
  - destruct (F SOpenFile || negb pok); [discriminate|].
    destruct (F SWrite); [discriminate|]. cbn [fst snd].
    intros _. rewrite Contains_created. reflexivity.
Qed.

Variable refused : list (syscall * string).

Lemma after_other (P q : string) (m : gmap string node) :
  q <> P -> after B P refused m !! q = m !! q.
Proof.
  intros Hq. unfold after, writeBack.
  destruct (ensured B P refused m).1; [|reflexivity].
  apply lookup_insert_ne. congruence.
Qed.

Lemma after_self (P : string) (m : gmap string node) :
  after B P refused m !! P = (ensured B P refused m).1.
Proof.
  unfold after, writeBack.
  destruct (ensured B P refused m).1 eqn:En; [apply lookup_insert_eq|].
  apply ensureNode_none in En. exact En.
Qed.

Lemma writeBack_same (P : string) (n : option node) (m : gmap string node) :
  m !! P = n -> writeBack P n m = m.
Proof.
  intros <-. unfold writeBack. destruct (m !! P) eqn:E; [|reflexivity].
  apply insert_id, E.
Qed.

Lemma parentIsDir_ext (P : string) (m m' : gmap string node) :
  (forall d, last (Filepath.ancestors P) = Some d -> m' !! d = m !! d) ->
  parentIsDir m' P = parentIsDir m P.
Proof.
  intros Hd. unfold parentIsDir.
  destruct (last (Filepath.ancestors P)) as [d|]; [|reflexivity].
  rewrite (Hd d eq_refl). reflexivity.
Qed.

Lemma ensured_again (P : string) (m m' : gmap string node) :
  m' !! P = (ensured B P refused m).1 ->
  ((ensured B P refused m).1 = None -> parentIsDir m' P = parentIsDir m P) ->
  (ensured B P refused m').1 = (ensured B P refused m).1.
Proof.
  intros Hself Hparent. unfold ensured at 1. rewrite Hself.
  apply ensureNode_idem. exact Hparent.
Qed.

Lemma after_idem (P : string) (m : gmap string node) :
  after B P refused (after B P refused m) = after B P refused m.
Proof.
  unfold after at 1. apply writeBack_same.
  rewrite after_self. symmetry. apply ensured_again; [apply after_self|].
  intros Hn. unfold after. rewrite Hn. reflexivity.
Qed.

End Summary.


Section Configure.

Lemma silent_refl (w : world) : silent w w.
Proof. repeat split. Qed.

Lemma touches_silent_l (B P : string) (w w1 w2 : world) :
  silent w w1 -> touches B P w1 w2 -> touches B P w w2.
Proof.
  intros (Hf & Hr & Hj) Ht. unfold touches in *. rewrite Hf, Hr, Hj in Ht. exact Ht.
Qed.

Lemma touches_silent_r (B P : string) (w w1 w2 : world) :
  touches B P w w1 -> silent w1 w2 -> touches B P w w2.
Proof.
  intros Ht (Hf & Hr & Hj). unfold touches in *. rewrite Hf, Hr, Hj. exact Ht.
Qed.

Lemma touches_faults (B P : string) (w w' : world) :
  touches B P w w' -> faults w' = faults w.
Proof. intros (Hf & _). exact Hf. Qed.

Lemma touches_files (B P : string) (w w' : world) :
  touches B P w w' -> files w' = after B P (faults w) (files w).
Proof. intros (_ & Hfiles & _). exact Hfiles. Qed.

Lemma spares_refl (T : string) (w : world) : spares T w w.
Proof.
  split; [reflexivity|]. exists []. split; [symmetry; apply app_nil_r|constructor].
Qed.

Lemma spares_trans (T : string) (w1 w2 w3 : world) :
  spares T w1 w2 -> spares T w2 w3 -> spares T w1 w3.
Proof.
  intros (Hf1 & n1 & Hj1 & Hn1) (Hf2 & n2 & Hj2 & Hn2).
  split; [congruence|]. exists (n1 ++ n2)%list. split.
  - rewrite Hj2, Hj1. symmetry. apply app_assoc.
  - apply Forall_app. split; assumption.
Qed.

Lemma silent_spares (T : string) (w w' : world) : silent w w' -> spares T w w'.
Proof.
  intros (Hf & _ & Hj). split; [rewrite Hf; reflexivity|].
  exists []. split; [rewrite Hj; symmetry; apply app_nil_r|constructor].
Qed.

Lemma touches_spares_other (B P T : string) (w w' : world) :
  T <> P -> touches B P w w' -> spares T w w'.
Proof.
  intros Hne (_ & Hfiles & new & Hj & Hnew & _). split.
  - rewrite Hfiles. apply (after_other B (faults w) P T (files w) Hne).
  - exists new. split; [exact Hj|].
    eapply Forall_impl; [exact Hnew|]. intros call -> . congruence.
Qed.

Lemma touches_holds (B P : string) (w w' : world) :
  holdsBinPath B P w -> touches B P w w' ->
  files w' = files w /\ journal w' = journal w.
Proof.
  intros (perm & content & Hcur & Hhas) (_ & Hfiles & new & Hj & _ & Hskip).
  split.
  - rewrite Hfiles. apply writeBack_same. unfold ensured. rewrite Hcur.
    symmetry. apply ensureNode_has. exact Hhas.
  - rewrite Hj, (Hskip perm content Hcur Hhas). apply app_nil_r.
Qed.

Lemma touches_spares_self (B P : string) (w w' : world) :
  holdsBinPath B P w -> touches B P w w' -> spares P w w'.
Proof.
  intros Hh Ht. destruct (touches_holds B P w w' Hh Ht) as [Hf Hj].
  apply silent_spares. repeat split; [exact Hf| |exact Hj].
  exact (touches_faults _ _ _ _ Ht).
Qed.

Lemma configureUserPath_touches (homeDir installPath : string) (w : world) :
  touches (Filepath.Join [installPath; "bin"]) (Filepath.Join [homeDir; ".profile"])
    w (configureUserPath homeDir installPath w).2.
Proof.
  rewrite configureUserPath_ensure, IO_bind_run. cbn [Printf fst snd].
  match goal with
  | |- context [ensureExportLine ?P ?B ?s ?f ?d ?w0] =>
      destruct (ensureExportLine_run P B s f d w0) as (w1 & msg & Ht & ->)
  end.
  apply (touches_silent_l _ _ _ _ _ (silent_refl _)) in Ht.
  eapply touches_silent_r; [exact Ht|].
  destruct (ensured _ _ _ _).2; repeat split.
Qed.

Lemma userFallback_touches (what homeDir installPath : string) (w : world) :
  touches (Filepath.Join [installPath; "bin"]) (Filepath.Join [homeDir; ".profile"])
    w (userFallback what homeDir installPath w).2.
Proof.
  unfold userFallback. rewrite !IO_bind_run. cbn [Eprintf Println fst snd].
  eapply touches_silent_l; [|apply configureUserPath_touches]. repeat split.
Qed.

(** The system-wide branch as two steps: the routine on the system
    profile, unless the directory check fails, and the routine on the
    user profile when that was refused. *)
Lemma configureSystemPath_run (homeDir installPath : string) (w : world) :
  let B := Filepath.Join [installPath; "bin"] in
  let Pu := Filepath.Join [homeDir; ".profile"] in
  let Ps := Filepath.Join [systemProfileDDirextory; systemGoProfileFilename] in
  let w' := (configureSystemPath homeDir installPath w).2 in
  exists w0,
    if refusedAt (faults w) systemProfileDDirextory SStat
       || negb (present (files w) systemProfileDDirextory)
    then silent w w0 /\ touches B Pu w0 w'
    else touches B Ps w w0
         /\ (if (ensured B Ps (faults w) (files w)).2
             then touches B Pu w0 w' else silent w0 w').
Proof.
  cbv zeta. rewrite configureSystemPath_ensure, IO_bind_run. cbn [Println fst snd].
  rewrite IO_bind_run, Stat_world, Stat_fst, faulty_emit. cbn [files emit].
  rewrite <- faulty_refusedAt. unfold present.
  destruct (faulty w SStat systemProfileDDirextory); cbn [IsNotExist orb].
  { eexists. split; [|apply userFallback_touches]. repeat split. }
  destruct (files w !! systemProfileDDirextory); cbn [IsNotExist negb].
  2:{ eexists. split; [|apply userFallback_touches]. repeat split. }
  match goal with
  | |- context [ensureExportLine ?P ?B ?s ?f ?d ?w0] =>
      destruct (ensureExportLine_run P B s f d w0) as (w1 & msg & Ht & ->)
  end.
  apply (touches_silent_l _ _ w) in Ht; [|repeat split].
  exists w1. split; [exact Ht|].
  change (faults (emit Stdout ("Attempting to configure PATH globally..." ++ nl) w))
    with (faults w).
  change (files (emit Stdout ("Attempting to configure PATH globally..." ++ nl) w))
    with (files w).
  destruct (ensured _ _ _ _).2; [apply userFallback_touches|repeat split].
Qed.

End Configure.

Section Done.

Variables homeDir installPath : string.

Lemma ensureNode_done (B : string) (F : syscall -> bool) (pok : bool)
  (cur : option node) :
  (ensureNode B F pok cur).2 = false ->
  exists perm content,
    (ensureNode B F pok cur).1 = Some (File perm content)
    /\ Contains content B = true.
Proof.
  unfold ensureNode. destruct (F SStat); [discriminate|].
  destruct cur as [[perm|perm content]|]; [discriminate| |].
  - destruct (F SReadFile); [discriminate|].
    destruct (Contains content B) eqn:Ehas; [intros _; eauto|].
    destruct (F SOpenFile); [discriminate|]. destruct (F SWrite); [discriminate|].
    intros _. eexists _, _. split; [reflexivity|apply Contains_appended].
  - destruct (F SOpenFile || negb pok); [discriminate|].
    destruct (F SWrite); [discriminate|].
    intros _. eexists _, _. split; [reflexivity|apply Contains_created].
Qed.

(** When the routine is not refused anything on the user profile, the
    home directory is there and the profile is not a directory, one run
    leaves a profile that contains the bin path. *)
Lemma configureUserPath_holds (w : world) :
  let B := Filepath.Join [installPath; "bin"] in
  let Pu := Filepath.Join [homeDir; ".profile"] in
  (forall c, faulty w c Pu = false) ->
  parentIsDir (files w) Pu = true ->
  (forall perm, files w !! Pu <> Some (Dir perm)) ->
  holdsBinPath B Pu (configureUserPath homeDir installPath w).2.
Proof.
  cbv zeta. intros Hfree Hparent Hfile.
  pose proof (touches_files _ _ _ _ (configureUserPath_touches homeDir installPath w))
    as Hfiles.
  destruct (ensureNode_done (Filepath.Join [installPath; "bin"])
              (refusedAt (faults w) (Filepath.Join [homeDir; ".profile"]))
              (parentIsDir (files w) (Filepath.Join [homeDir; ".profile"]))
              (files w !! Filepath.Join [homeDir; ".profile"]))
    as (perm & content & Hn & Hhas).
  { unfold ensureNode. rewrite <- !faulty_refusedAt, !Hfree, Hparent.
    destruct (files w !! _) as [[perm|perm content]|] eqn:Ecur;
      [destruct (Hfile perm eq_refl)| |reflexivity].
    destruct (Contains content _); reflexivity. }
  exists perm, content. split; [|exact Hhas].
  rewrite Hfiles, after_self. exact Hn.
Qed.

End Done.

Section ConfigureClaims.

Variables homeDir installPath : string.

Let B := Filepath.Join [installPath; "bin"].
Let Pu := Filepath.Join [homeDir; ".profile"].
Let Ps := Filepath.Join [systemProfileDDirextory; systemGoProfileFilename].

Lemma configureSystemPath_disk (w : world) :
  faults (configureSystemPath homeDir installPath w).2 = faults w
  /\ files (configureSystemPath homeDir installPath w).2
     = sysDisk B Pu (faults w) (files w).
Proof.
  destruct (configureSystemPath_run homeDir installPath w) as [w0 Hrun].
  unfold sysDisk. fold B Pu Ps in Hrun |- *.
  destruct (refusedAt _ _ _ || negb _).
  - destruct Hrun as [(Hf & Hr & _) Ht].
    rewrite (touches_faults _ _ _ _ Ht), (touches_files _ _ _ _ Ht), Hf, Hr.
    split; reflexivity.
  - destruct Hrun as [Ht Hrest].
    pose proof (touches_faults _ _ _ _ Ht) as Hr0.
    pose proof (touches_files _ _ _ _ Ht) as Hf0. unfold after in Hf0.
    cbv zeta. destruct (ensured B Ps (faults w) (files w)).2.
    + rewrite (touches_faults _ _ _ _ Hrest), (touches_files _ _ _ _ Hrest), Hr0, Hf0.
      split; reflexivity.
    + destruct Hrest as (Hf & Hr & _). rewrite Hf, Hr, Hr0, Hf0. split; reflexivity.
Qed.

Lemma sysDisk_other (refused : list (syscall * string)) (m : gmap string node)
  (q : string) :
  q <> Ps -> q <> Pu -> sysDisk B Pu refused m !! q = m !! q.
Proof.
  intros Hs Hu. unfold sysDisk. fold Ps.
  destruct (_ || _); [apply after_other; exact Hu|].
  cbv zeta. destruct (ensured B Ps refused m).2.
  - rewrite after_other by exact Hu. apply (after_other B refused Ps q m Hs).
  - apply (after_other B refused Ps q m Hs).
Qed.

Lemma sysDisk_idem (refused : list (syscall * string)) (m : gmap string node) :
  refusedAt refused Ps SReadFile = false ->
  sysDisk B Pu refused (sysDisk B Pu refused m) = sysDisk B Pu refused m.
Proof.
  intros FRead.
  destruct (userProfile_not_system homeDir) as [Hus Hud]. fold Pu Ps in Hus, Hud.
  assert (systemProfileDDirextory <> Ps) as Hds by discriminate.
  assert (present (sysDisk B Pu refused m) systemProfileDDirextory
          = present m systemProfileDDirextory) as Hpresent.
  { unfold present. rewrite sysDisk_other by congruence. reflexivity. }
  unfold sysDisk at 1. fold Ps. rewrite Hpresent.
  unfold sysDisk. fold Ps.
  destruct (_ || _); [apply after_idem|]. cbv zeta.
  change (writeBack Ps (ensured B Ps refused m).1 m) with (after B Ps refused m).
  set (m1 := after B Ps refused m).
  destruct (ensured B Ps refused m).2 eqn:Eflag.
  - set (X := after B Pu refused m1).
    assert (X !! Ps = (ensured B Ps refused m).1) as Hself.
    { unfold X. rewrite after_other by congruence. apply after_self. }
    assert ((ensured B Ps refused X).1 = (ensured B Ps refused m).1) as Hagain.
    { apply ensured_again; [exact Hself|]. intros _.
      apply parentIsDir_ext. intros d Hd.
      change (last (Filepath.ancestors Ps)) with (Some systemProfileDDirextory) in Hd.
      injection Hd as <-.
      unfold X, m1. rewrite !after_other by congruence. reflexivity. }
    rewrite Hagain, (writeBack_same Ps _ X Hself).
    destruct (ensured B Ps refused X).2; [apply after_idem|reflexivity].
  - assert (m1 !! Ps = (ensured B Ps refused m).1) as Hself by apply after_self.
    assert ((ensured B Ps refused m1).1 = (ensured B Ps refused m).1) as Hagain.
    { apply ensured_again; [exact Hself|]. intros Hn.
      unfold m1, after. rewrite Hn. reflexivity. }
    rewrite Hagain, (writeBack_same Ps _ m1 Hself).
    assert ((ensured B Ps refused m1).2 = false) as ->; [|reflexivity].
    unfold ensured at 1. rewrite Hself. apply ensureNode_flag; assumption.
Qed.

(** The system profile itself is the same after two runs as after one,
    whatever the environment refuses. *)
Lemma sysDisk_again_system (refused : list (syscall * string)) (m : gmap string node) :
  sysDisk B Pu refused (sysDisk B Pu refused m) !! Ps = sysDisk B Pu refused m !! Ps.
Proof.
  destruct (userProfile_not_system homeDir) as [Hus Hud]. fold Pu Ps in Hus, Hud.
  assert (systemProfileDDirextory <> Ps) as Hds by discriminate.
  assert (present (sysDisk B Pu refused m) systemProfileDDirextory
          = present m systemProfileDDirextory) as Hpresent.
  { unfold present. rewrite sysDisk_other by congruence. reflexivity. }
  unfold sysDisk at 1. fold Ps. rewrite Hpresent.
  unfold sysDisk. fold Ps.
  destruct (_ || _); [apply after_other; congruence|]. cbv zeta.
  change (writeBack Ps (ensured B Ps refused m).1 m) with (after B Ps refused m).
  set (m1 := after B Ps refused m).
  destruct (ensured B Ps refused m).2 eqn:Eflag.
  - set (X := after B Pu refused m1).
    assert (X !! Ps = (ensured B Ps refused m).1) as Hself.
    { unfold X. rewrite after_other by congruence. apply after_self. }
    assert ((ensured B Ps refused X).1 = (ensured B Ps refused m).1) as Hagain.
    { apply ensured_again; [exact Hself|]. intros _.
      apply parentIsDir_ext. intros d Hd.
      change (last (Filepath.ancestors Ps)) with (Some systemProfileDDirextory) in Hd.
      injection Hd as <-.
      unfold X, m1. rewrite !after_other by congruence. reflexivity. }
    rewrite Hagain, (writeBack_same Ps _ X Hself).
    destruct (ensured B Ps refused X).2; [apply after_other; congruence|reflexivity].
  - assert (m1 !! Ps = (ensured B Ps refused m).1) as Hself by apply after_self.
    assert ((ensured B Ps refused m1).1 = (ensured B Ps refused m).1) as Hagain.
    { apply ensured_again; [exact Hself|]. intros Hn.
      unfold m1, after. rewrite Hn. reflexivity. }
    rewrite Hagain, (writeBack_same Ps _ m1 Hself).
    destruct (ensured B Ps refused m1).2; [apply after_other; congruence|reflexivity].
Qed.

Lemma configureSystemPath_spares (T : string) (w : world) :
  T = Pu \/ T = Ps -> holdsBinPath B T w ->
  spares T w (configureSystemPath homeDir installPath w).2.
Proof.
  intros HT Hholds.
  destruct (userProfile_not_system homeDir) as [Hus _]. fold Pu Ps in Hus.
  assert (forall w0 w1, spares T w w0 -> touches B Pu w0 w1 -> spares T w w1) as Huser.
  { intros w0 w1 Hsp Ht. apply (spares_trans _ _ _ _ Hsp).
    destruct HT as [->| ->].
    - apply (touches_spares_self B); [|exact Ht].
      destruct Hholds as (perm & content & Hcur & Hhas).
      exists perm, content. split; [|exact Hhas].
      destruct Hsp as [Hfile _]. rewrite Hfile. exact Hcur.
    - apply (touches_spares_other B Pu); [congruence|exact Ht]. }
  destruct (configureSystemPath_run homeDir installPath w) as [w0 Hrun].
  fold B Pu Ps in Hrun.
  destruct (refusedAt _ _ _ || negb _).
  - destruct Hrun as [Hs Ht]. exact (Huser _ _ (silent_spares _ _ _ Hs) Ht).
  - destruct Hrun as [Ht Hrest].
    assert (spares T w w0) as Hsp.
    { destruct HT as [->| ->].
      - apply (touches_spares_other B Ps); [exact Hus|exact Ht].
      - apply (touches_spares_self B); assumption. }
    destruct (ensured B Ps (faults w) (files w)).2.
    + exact (Huser _ _ Hsp Hrest).
    + exact (spares_trans _ _ _ _ Hsp (silent_spares _ _ _ Hrest)).
Qed.

Lemma configurePath_user (rootMode : bool) (euid : Z) (w : world) :
  asRoot rootMode euid = false ->
  touches B Pu w (configurePath rootMode euid homeDir installPath w).2.
Proof.
  intros Hroot. unfold configurePath. rewrite Hroot, IO_bind_run.
  eapply touches_silent_l; [|apply configureUserPath_touches].
  destruct (rootMode && negb (euid =? 0)%Z); repeat split.
Qed.

Lemma faulty_of_faults (w w' : world) (c : syscall) (p : string) :
  faults w' = faults w -> faulty w' c p = faulty w c p.
Proof. intros Hf. unfold faulty. rewrite Hf. reflexivity. Qed.

(** C6.  A profile file, the user's or the system-wide one, whose content
    already contains the bin path is left as it is by the configuration,
    and no call that could change it is issued on it; in the user-scoped
    configuration nothing at all is written then.  A second run leaves
    unchanged every profile that contains the bin path after the first;
    the profile being configured (the system profile in the system-wide
    branch, the user profile otherwise) is the same after two runs as
    after one; and so is the whole file tree, which for the system-wide
    branch supposes that the environment does not refuse to read the
    system profile (a refused read makes that branch fall back to the
    user profile). *)
Theorem path_configuration_idempotent (rootMode : bool) (euid : Z) (w : world) :
  let once := (configurePath rootMode euid homeDir installPath w).2 in
  let twice := (configurePath rootMode euid homeDir installPath once).2 in
  (forall T perm content,
     T = Pu \/ T = Ps ->
     files w !! T = Some (File perm content) -> Contains content B = true ->
     files once !! T = Some (File perm content)
     /\ exists new, journal once = app (journal w) new
                    /\ Forall (fun call => call.2 <> T) new)
  /\ (asRoot rootMode euid = false ->
      forall perm content,
        files w !! Pu = Some (File perm content) -> Contains content B = true ->
        files once = files w /\ journal once = journal w)
  /\ (forall T perm content,
        T = Pu \/ T = Ps ->
        files once !! T = Some (File perm content) -> Contains content B = true ->
        files twice !! T = Some (File perm content))
  /\ files twice !! (if asRoot rootMode euid then Ps else Pu)
     = files once !! (if asRoot rootMode euid then Ps else Pu)
  /\ ((asRoot rootMode euid = true -> faulty w SReadFile Ps = false) ->
      files twice = files once).
Proof.
  cbv zeta.
  assert (forall w0 T perm content,
            T = Pu \/ T = Ps ->
            files w0 !! T = Some (File perm content) -> Contains content B = true ->
            spares T w0 (configurePath rootMode euid homeDir installPath w0).2) as Hspares.
  { intros w0 T perm content HT Hcur Hhas.
    assert (holdsBinPath B T w0) as Hholds by (exists perm, content; split; assumption).
    destruct (asRoot rootMode euid) eqn:Hroot.
    - unfold configurePath. rewrite Hroot.
      apply configureSystemPath_spares; assumption.
    - pose proof (configurePath_user rootMode euid w0 Hroot) as Ht.
      destruct (userProfile_not_system homeDir) as [Hus _]. fold Pu Ps in Hus.
      destruct HT as [->| ->].
      + apply (touches_spares_self B); assumption.
      + apply (touches_spares_other B Pu); [congruence|exact Ht]. }
  split; [|split; [|split; [|split]]].
  - intros T perm content HT Hcur Hhas.
    destruct (Hspares w T perm content HT Hcur Hhas) as [Hfile Hj].
    rewrite Hfile. split; [exact Hcur|exact Hj].
  - intros Hroot perm content Hcur Hhas.
    apply (touches_holds B Pu); [|apply configurePath_user; exact Hroot].
    exists perm, content. split; assumption.
  - intros T perm content HT Hcur Hhas.
    destruct (Hspares _ T perm content HT Hcur Hhas) as [Hfile _].
    rewrite Hfile. exact Hcur.
  - destruct (asRoot rootMode euid) eqn:Hroot.
    + unfold configurePath. rewrite Hroot.
      destruct (configureSystemPath_disk w) as [Hr Hf].
      destruct (configureSystemPath_disk (configureSystemPath homeDir installPath w).2)
        as [_ Hf2].
      rewrite Hf2, Hr, Hf. apply sysDisk_again_system.
    + pose proof (configurePath_user rootMode euid w Hroot) as Ht.
      pose proof (configurePath_user rootMode euid _ Hroot
                  : touches B Pu (configurePath rootMode euid homeDir installPath w).2 _)
        as Ht2.
      rewrite (touches_files _ _ _ _ Ht2), (touches_faults _ _ _ _ Ht),
        (touches_files _ _ _ _ Ht), after_idem. reflexivity.
  - intros Hread. destruct (asRoot rootMode euid) eqn:Hroot.
    + unfold configurePath. rewrite Hroot.
      destruct (configureSystemPath_disk w) as [Hr Hf].
      destruct (configureSystemPath_disk (configureSystemPath homeDir installPath w).2)
        as [_ Hf2].
      rewrite Hf2, Hr, Hf. apply sysDisk_idem. exact (Hread eq_refl).
    + pose proof (configurePath_user rootMode euid w Hroot) as Ht.
      pose proof (configurePath_user rootMode euid _ Hroot
                  : touches B Pu (configurePath rootMode euid homeDir installPath w).2 _)
        as Ht2.
      rewrite (touches_files _ _ _ _ Ht2), (touches_faults _ _ _ _ Ht),
        (touches_files _ _ _ _ Ht).
      apply after_idem.
Qed.

End ConfigureClaims.

(** A profile that already exports the bin path, and a home directory
    without a profile. *)
Lemma path_configuration_idempotent_witness :
  let w := withTree [("/home", Dir 493); ("/home/u", Dir 493);
                     ("/home/u/.profile",
                      File 420 (exportLineFor "/home/u/.local/go/bin" ++ nl))] [] in
  let fresh := withTree [("/home", Dir 493); ("/home/u", Dir 493)] [] in
  let once := (configurePath false 1000 "/home/u" "/home/u/.local/go" fresh).2 in
  (files (configurePath false 1000 "/home/u" "/home/u/.local/go" w).2 = files w
   /\ journal (configurePath false 1000 "/home/u" "/home/u/.local/go" w).2 = journal w)
  /\ files (configurePath false 1000 "/home/u" "/home/u/.local/go" once).2 = files once.
Proof.
  cbv zeta. split.
  - destruct (path_configuration_idempotent "/home/u" "/home/u/.local/go" false 1000
                (withTree [("/home", Dir 493); ("/home/u", Dir 493);
                           ("/home/u/.profile",
                            File 420 (exportLineFor "/home/u/.local/go/bin" ++ nl))] []))
      as (_ & Hskip & _ & _ & _).
    apply (Hskip eq_refl 420%Z (exportLineFor "/home/u/.local/go/bin" ++ nl));
      reflexivity.
  - destruct (path_configuration_idempotent "/home/u" "/home/u/.local/go" false 1000
                (withTree [("/home", Dir 493); ("/home/u", Dir 493)] []))
      as (_ & _ & _ & _ & Hidem).
    apply Hidem. intros Hroot. discriminate Hroot.
Defined.

Example user_profile_created :
  let fresh := withTree [("/home", Dir 493); ("/home/u", Dir 493)] [] in
  files (configurePath false 1000 "/home/u" "/home/u/.local/go" fresh).2
    !! "/home/u/.profile"
  = Some (File 438 ("export PATH=" ++ quote ++ "/home/u/.local/go/bin:$PATH" ++ quote ++ nl)).
Proof. reflexivity. Qed.

Example system_profile_created :
  let w := withTree [("/etc", Dir 493); ("/etc/profile.d", Dir 493); ("/root", Dir 448)] [] in
  let once := (configurePath true 0 "/root" "/usr/local/go" w).2 in
  files once !! "/etc/profile.d/go.sh"
  = Some (File 438 ("export PATH=" ++ quote ++ "/usr/local/go/bin:$PATH" ++ quote ++ nl))
  /\ files once !! "/root/.profile" = None
  /\ files (configurePath true 0 "/root" "/usr/local/go" once).2 = files once.
Proof. vm_compute. repeat split. Qed.

(** When the environment refuses to read the system profile it has just
    let the installer create, the second run falls back to the user
    profile: the hypothesis of the last part of C6 cannot be dropped. *)
Example system_profile_unreadable :
  let w := withTree [("/etc", Dir 493); ("/etc/profile.d", Dir 493); ("/root", Dir 448)]
                    [(SReadFile, "/etc/profile.d/go.sh")] in
  let once := (configurePath true 0 "/root" "/usr/local/go" w).2 in
  let twice := (configurePath true 0 "/root" "/usr/local/go" once).2 in
  files once !! "/root/.profile" = None
  /\ files twice !! "/root/.profile"
     = Some (File 438 ("export PATH=" ++ quote ++ "/usr/local/go/bin:$PATH" ++ quote ++ nl))
  /\ files twice !! "/etc/profile.d/go.sh" = files once !! "/etc/profile.d/go.sh".
Proof. vm_compute. repeat split. Qed.

(* ================================================================== *)
(** * Clearing the old installation *)
(* ================================================================== *)

Section Cleanup.

Context `{Codec}.

Lemma RemoveAll_clears (path : string) (w : world) (p : string) :
  faulty w SRemoveAll path = false -> within path p = true ->
  files (RemoveAll path w).2 !! p = None.
Proof.
  intros Hf Hp. unfold RemoveAll. rewrite faulty_logCall, Hf. cbn [snd files setFiles logCall].
  apply map_lookup_filter_None. right. intros x _. cbn [fst]. rewrite Hp. intros [].
Qed.

Lemma cleanupOldInstall_path (rootMode : bool) (euid : Z) (installPath : string)
  (w : world) :
  (cleanupOldInstall rootMode euid installPath w).1
  = if asRoot rootMode euid then "/usr/local/go" else installPath.
Proof.
  unfold cleanupOldInstall. rewrite !IO_bind_run. cbn [mret IO_ret fst snd].
  reflexivity.
Qed.

Lemma debugged_faulty (w w' : world) (c : syscall) (p : string) :
  debugged w w' -> faulty w' c p = faulty w c p.
Proof.
  intros D. destruct (debugged_frame _ _ D) as (_ & Hx & _).
  unfold faulty. rewrite Hx. reflexivity.
Qed.

Lemma debugged_Stat (w w' : world) (p : string) :
  debugged w w' -> Stat p w' = ((Stat p w).1, w').
Proof.
  intros D. destruct (debugged_frame _ _ D) as (Hf & _).
  unfold Stat. rewrite (debugged_faulty _ _ SStat p D), Hf.
  destruct (faulty w SStat p); [reflexivity|].
  destruct (files w !! p); reflexivity.
Qed.

Lemma Stat_emit (s : stream) (text p : string) (w : world) :
  (Stat p (emit s text w)).1 = (Stat p w).1.
Proof. rewrite !Stat_fst. reflexivity. Qed.

Lemma cleanupOldInstall_world (rootMode : bool) (euid : Z) (installPath : string)
  (w : world) :
  let ip := if asRoot rootMode euid then "/usr/local/go" else installPath in
  let w0 := emit Stdout ("Cleaning up old installation directory (if exists)...." ++ nl) w in
  exists w1,
    debugged w0 w1
    /\ if IsNotExist (Stat ip w).1 then (cleanupOldInstall rootMode euid installPath w).2 = w1
       else if faulty w SRemoveAll ip
            then (cleanupOldInstall rootMode euid installPath w).2
                 = emit Stderr ("Error: Failed to clean up old installation directory: "
                                ++ Error (PathError "unlinkat" ip EIO) ++ nl)
                     (logCall SRemoveAll ip w1)
            else debugged (RemoveAll ip w1).2
                   (cleanupOldInstall rootMode euid installPath w).2.
Proof.
  cbv zeta. unfold cleanupOldInstall, mbind, IO_bind, Printf, mret, IO_ret.
  destruct (asRoot rootMode euid); cbv beta iota;
    [debug_step D1; debug_step D2; pose proof (debugged_trans _ _ _ D1 D2) as Da
    |debug_step Da];
    debug_step Db; pose proof (debugged_trans _ _ _ Da Db) as Dab;
    rewrite (debugged_Stat _ _ _ Dab), Stat_emit;
    (destruct (IsNotExist _); cbn [negb];
     debug_step Dc; pose proof (debugged_trans _ _ _ Dab Dc) as Dabc;
     eexists; (split; [exact Dabc|]); [reflexivity|]);
    unfold RemoveAll;
    rewrite !faulty_logCall, (debugged_faulty _ _ _ _ Dabc), faulty_emit;
    (destruct (faulty w SRemoveAll _); [reflexivity|debug_step Dd; exact Dd]).
Qed.
(** The refused calls, the file tree and the journal after the clean-up. *)
Lemma cleanupOldInstall_disk (rootMode : bool) (euid : Z) (installPath : string)
  (w : world) :
  let ip := if asRoot rootMode euid then "/usr/local/go" else installPath in
  let cleared := (cleanupOldInstall rootMode euid installPath w).2 in
  faults cleared = faults w
  /\ files cleared
     = (if IsNotExist (Stat ip w).1 then files w
        else if faulty w SRemoveAll ip then files w
             else filter (fun kv => negb (within ip kv.1)) (files w))
  /\ journal cleared
     = (if IsNotExist (Stat ip w).1 then journal w
        else (journal w ++ [(SRemoveAll, ip)])%list).
Proof.
  cbv zeta.
  destruct (cleanupOldInstall_world rootMode euid installPath w) as (w1 & D1 & Hw).
  set (ip := if asRoot rootMode euid then "/usr/local/go" else installPath) in *.
  destruct (debugged_frame _ _ D1) as (Hf1 & Hx1 & Hj1 & _).
  cbn [files faults journal emit] in Hf1, Hx1, Hj1.
  destruct (IsNotExist (Stat ip w).1).
  - rewrite Hw. repeat split; assumption.
  - destruct (faulty w SRemoveAll ip) eqn:Hfault.
    + rewrite Hw. cbn [faults files journal emit logCall]. rewrite Hf1, Hx1, Hj1.
      repeat split.
    + destruct (debugged_frame _ _ Hw) as (-> & -> & -> & _).
      unfold RemoveAll.
      rewrite faulty_logCall, (debugged_faulty _ _ _ _ D1), faulty_emit, Hfault.
      cbn [snd faults files journal setFiles logCall]. rewrite Hf1, Hx1, Hj1.
      repeat split.
Qed.

(** The unpacking step runs [extractTarGz] after its announcement and
    debug lines only. *)
Lemma extractPackage_run (rootMode : bool) (euid : Z)
  (homeDir installPath downloadFilePath : string) (w : world) :
  let d := if asRoot rootMode euid then "/usr/local"
           else Filepath.Join [homeDir; ".local"] in
  exists w1,
    debugged (emit Stdout ("Extracting installation package to " ++ installPath
                           ++ "..." ++ nl) w) w1
    /\ extractPackage rootMode euid homeDir installPath downloadFilePath w
       = match (extractTarGz downloadFilePath d w1).1 with
         | Some e =>
             (Exit 1,
              emit Stderr ("Error: Failed to extract installation package: "
                           ++ Error e ++ nl) (extractTarGz downloadFilePath d w1).2)
         | None =>
             (Proceed tt,
              emit Stdout ("Extraction complete" ++ nl)
                (extractTarGz downloadFilePath d w1).2)
         end.
Proof.
  cbv zeta. unfold extractPackage, mbind, IO_bind, Printf, Eprintf, mret, IO_ret.
  destruct (asRoot rootMode euid); cbv beta iota;
    debug_step D1; debug_step D2;
    (eexists; split; [exact (debugged_trans _ _ _ D1 D2)|]);
    destruct (extractTarGz _ _ _) as [[e|] w3]; reflexivity.
Qed.

(** C8, amended.  Extraction is run in the world that the clean-up
    leaves.  Unless [os.Stat] reports that nothing is at the install
    path, the removal of the install path has been issued before
    extraction begins.  When the environment does not refuse that
    removal, nothing is left at the install path or below it when
    extraction begins (in a file tree where nothing lies below a missing
    directory); when it refuses, the file tree is as it was, stale
    contents included, the failure is printed, and extraction begins all
    the same.  Between the line that announces the clean-up and the
    failure come the lines of [debugPrint] only, and none without
    [--debug]. *)
Theorem cleanup_precedes_extraction (rootMode : bool) (euid : Z)
  (homeDir downloadFilePath : string) (w : world) :
  let installPath0 := Filepath.Join [homeDir; ".local"; "go"] in
  let installPath := if asRoot rootMode euid then "/usr/local/go" else installPath0 in
  let start := (cleanupOldInstall rootMode euid installPath0 w).2 in
  installPackage rootMode euid homeDir downloadFilePath w
  = (match (extractPackage rootMode euid homeDir installPath downloadFilePath start).1 with
     | Exit code => Exit code
     | Proceed _ => Proceed installPath
     end,
     (extractPackage rootMode euid homeDir installPath downloadFilePath start).2)
  /\ (IsNotExist (Stat installPath w).1 = false ->
      journal start = app (journal w) [(SRemoveAll, installPath)])
  /\ (faulty w SRemoveAll installPath = false ->
      (files w !! installPath = None ->
       forall p, within installPath p = true -> files w !! p = None) ->
      forall p, within installPath p = true -> files start !! p = None)
  /\ (faulty w SRemoveAll installPath = true ->
      files start = files w
      /\ (IsNotExist (Stat installPath w).1 = false ->
          (debugMode w = false ->
           console start = app (console w) (cleanupFailureLines installPath))
          /\ exists notes,
               Forall debugLine notes
               /\ console start
                  = app (console w)
                      ((Stdout, "Cleaning up old installation directory (if exists)...."
                                ++ nl)
                       :: app notes
                            [(Stderr,
                              "Error: Failed to clean up old installation directory: "
                              ++ Error (PathError "unlinkat" installPath EIO) ++ nl)]))).
Proof.
  cbv zeta.
  set (ip0 := Filepath.Join [homeDir; ".local"; "go"]).
  set (ip := if asRoot rootMode euid then "/usr/local/go" else ip0).
  pose proof (cleanupOldInstall_path rootMode euid ip0 w) as Hpath.
  destruct (cleanupOldInstall_world rootMode euid ip0 w) as (w1 & D1 & Hworld).
  fold ip in Hpath, Hworld.
  destruct (debugged_frame _ _ D1) as (Hf1 & Hx1 & Hj1 & _).
  cbn [files faults journal emit] in Hf1, Hx1, Hj1.
  split; [|split; [|split]].
  - unfold installPackage. fold ip0. rewrite !IO_bind_run, Hpath.
    destruct (extractPackage _ _ _ _ _ _).1; reflexivity.
  - intros Hstat. rewrite Hstat in Hworld.
    destruct (faulty w SRemoveAll ip) eqn:Hfault.
    + rewrite Hworld. cbn [journal emit logCall]. rewrite Hj1. reflexivity.
    + destruct (debugged_frame _ _ Hworld) as (_ & _ & -> & _).
      unfold RemoveAll. rewrite faulty_logCall, (debugged_faulty _ _ _ _ D1), faulty_emit.
      rewrite Hfault. cbn [snd journal setFiles logCall]. rewrite Hj1. reflexivity.
  - intros Hfault Htree p Hp. rewrite Hfault in Hworld.
    destruct (IsNotExist (Stat ip w).1) eqn:Hstat.
    + rewrite Hworld, Hf1. apply Htree; [|exact Hp].
      rewrite Stat_fst in Hstat. destruct (faulty w SStat ip); [discriminate|].
      destruct (files w !! ip); [discriminate|reflexivity].
    + destruct (debugged_frame _ _ Hworld) as (-> & _).
      apply RemoveAll_clears; [|exact Hp].
      rewrite (debugged_faulty _ _ _ _ D1), faulty_emit. exact Hfault.
  - intros Hfault. rewrite Hfault in Hworld. split.
    + destruct (IsNotExist (Stat ip w).1); rewrite Hworld; exact Hf1.
    + intros Hstat. rewrite Hstat in Hworld. rewrite Hworld.
      destruct D1 as (notes & -> & Hnotes & Hq).
      destruct (emitAll_frame notes
                  (emit Stdout ("Cleaning up old installation directory (if exists)...."
                                ++ nl) w)) as (_ & _ & _ & _ & _ & _ & _ & Hc).
      cbn [console emit logCall]. rewrite Hc. cbn [console emit].
      split.
      * intros Hd. rewrite (Hq Hd). rewrite <- !app_assoc. reflexivity.
      * exists notes. split; [exact Hnotes|]. rewrite <- !app_assoc. reflexivity.
Qed.

End Cleanup.

Lemma cleanup_precedes_extraction_witness :
  let start := (cleanupOldInstall false 1000 "/home/u/.local/go" (withTree staleTree [])).2 in
  files start !! "/home/u/.local/go" = None
  /\ files start !! "/home/u/.local/go/bin/oldtool" = None.
Proof.
  destruct (@cleanup_precedes_extraction (fixedCodec [goDirEntry; versionEntry])
              false 1000 "/home/u" "/tmp/go.tar.gz" (withTree staleTree []))
    as (_ & _ & Hclear & _).
  split; apply Hclear; try reflexivity; intros Hnone; vm_compute in Hnone;
    discriminate Hnone.
Defined.

(** C8 as stated fails: with the removal refused, extraction begins and
    ends well while the old [oldtool] is still at the install path. *)
Lemma extraction_over_stale_install :
  let w := withTree staleTree [(SRemoveAll, "/home/u/.local/go")] in
  let start := (cleanupOldInstall false 1000 "/home/u/.local/go" w).2 in
  let done := @installPackage (fixedCodec [goDirEntry; versionEntry])
                false 1000 "/home/u" "/tmp/go.tar.gz" w in
  files start !! "/home/u/.local/go/bin/oldtool" = Some (File 493 "go1.19")
  /\ done.1 = Proceed "/home/u/.local/go"
  /\ files done.2 !! "/home/u/.local/go/VERSION" = Some (File 420 "go1.22.0")
  /\ files done.2 !! "/home/u/.local/go/bin/oldtool" = Some (File 493 "go1.19")
  /\ journal done.2 = [(SRemoveAll, "/home/u/.local/go"); (SChmod, "/home/u/.local/go");
                       (SOpenFile, "/home/u/.local/go/VERSION");
                       (SWrite, "/home/u/.local/go/VERSION")].
Proof. vm_compute. repeat split. Qed.

(* ================================================================== *)
(** * Worked examples of the path functions *)
(* ================================================================== *)

Example clean1 : Filepath.Clean "a//b/./c/" = "a/b/c". Proof. reflexivity. Qed.
Example clean2 : Filepath.Clean "/../a" = "/a". Proof. reflexivity. Qed.
Example clean3 : Filepath.Clean "a/../../b" = "../b". Proof. reflexivity. Qed.
Example clean4 : Filepath.Clean "" = ".". Proof. reflexivity. Qed.
Example clean5 : Filepath.Clean "/" = "/". Proof. reflexivity. Qed.
Example clean6 : Filepath.Clean "abc/def/../../.." = "..". Proof. reflexivity. Qed.
Example clean7 : Filepath.Clean "/abc/def/../../.." = "/". Proof. reflexivity. Qed.
Example join1 : Filepath.Join ["/home/u/.local"; "../../evil"] = "/home/evil". Proof. reflexivity. Qed.
Example join2 : Filepath.Join [""; "/etc/x"] = "/etc/x". Proof. reflexivity. Qed.
Example join3 : Filepath.Join ["/a"; ""] = "/a". Proof. reflexivity. Qed.
Example anc1 : Filepath.ancestors "/a/b/c" = ["/a"; "/a/b"]. Proof. reflexivity. Qed.
Example anc2 : Filepath.ancestors "a/b/c" = ["a"; "a/b"]. Proof. reflexivity. Qed.
Example cnt1 : Strings.CountByte "1.22" "."%char = 1. Proof. reflexivity. Qed.
Example tp1 : Strings.TrimPrefix "go1.22.0" "go" = "1.22.0". Proof. reflexivity. Qed.
Example ct1 : Strings.Contains "abc /x/bin:" "/x/bin" = true. Proof. reflexivity. Qed.

(** Modes: 04755 and 0100644 as a tar header has them lose what lies
    above 0777; Go's own set-user-id bit becomes the Unix one. *)
Example mode1 : syscallMode (FileMode 2541) = 493%Z. Proof. reflexivity. Qed.
Example mode2 : syscallMode (FileMode 33188) = 420%Z. Proof. reflexivity. Qed.
Example mode3 : syscallMode (Z.lor (2 ^ 23) 493) = 2541%Z. Proof. reflexivity. Qed.
Example mode4 : FileModeString 493 = "-rwxr-xr-x". Proof. reflexivity. Qed.
Example mode5 : FileModeString (2 ^ 31 + 420) = "drw-r--r--". Proof. reflexivity. Qed.
Example mode6 : FileModeString (2 ^ 23 + 2 ^ 20 + 493) = "utrwxr-xr-x". Proof. reflexivity. Qed.

(** With [--debug] the extraction says so when it finds the directory of
    an entry in place. *)
Example debug_line_of_an_existing_directory :
  console (extractEntries "/home/u/.local" [goDirEntry]
             (verbose (withTree staleTree []))).2
  = [(Stdout, "Debug: Directory /home/u/.local/go already exists, setting mode to "
              ++ "-rwxr-xr-x" ++ nl)].
Proof. reflexivity. Qed.

(* ================================================================== *)
(** * Further properties: resolution and the catalog client *)
(* ================================================================== *)

Section FirstMatch.

Lemma find_first {A} (p : A -> bool) (pre : list A) (x : A) (post : list A) :
  (forall y, y ∈ pre -> p y = false) -> p x = true ->
  find p (pre ++ x :: post)%list = Some x.
Proof.
  intros Hpre Hx. induction pre as [|y pre IH]; simpl.
  - rewrite Hx. reflexivity.
  - rewrite (Hpre y) by apply list_elem_of_here.
    apply IH. intros z Hz. apply Hpre. apply list_elem_of_further, Hz.
Qed.

Lemma catalogMatch_intro (GOOS goArch key : string) (pre : list GoVersionInfo)
  (v : GoVersionInfo) (post : list GoVersionInfo) (fpre : list FileInfo)
  (f : FileInfo) (fpost : list FileInfo) :
  (forall u, u ∈ pre -> TrimPrefix (Version u) "go" = key ->
   forall g, g ∈ Files u -> hostArchive GOOS goArch g = false) ->
  TrimPrefix (Version v) "go" = key ->
  Files v = (fpre ++ f :: fpost)%list ->
  (forall g, g ∈ fpre -> hostArchive GOOS goArch g = false) ->
  hostArchive GOOS goArch f = true ->
  catalogMatch GOOS goArch key (pre ++ v :: post)%list = Some (v, f).
Proof.
  intros Hpre Hv Hfiles Hfpre Hf. unfold catalogMatch.
  assert (find (hostArchive GOOS goArch) (Files v) = Some f) as Hfind.
  { rewrite Hfiles. apply find_first; assumption. }
  rewrite find_first.
  - rewrite Hfind. reflexivity.
  - intros u Hu. unfold strippedVersion.
    destruct (String.eqb_spec (TrimPrefix (Version u) "go") key) as [Hk|]; [|reflexivity].
    simpl. apply find_none_existsb.
    destruct (find (hostArchive GOOS goArch) (Files u)) as [g|] eqn:Hg; [|reflexivity].
    destruct (find_split _ _ _ Hg) as (a & b & Hab & Hgt & _).
    rewrite (Hpre u Hu Hk g) in Hgt; [discriminate|].
    rewrite Hab. apply elem_of_app. right. apply list_elem_of_here.
  - unfold strippedVersion. rewrite Hv, String.eqb_refl. simpl.
    apply not_false_iff_true. intros Hex.
    apply find_none_existsb in Hex. congruence.
Qed.

End FirstMatch.

Section ResolutionExtras.

Context `{UnicodeTables}.
Variables GOOS goArch : string.

(** X1.  A requested version that the catalog lists with an archive for
    the host is installed from the catalog: the URL is the download
    prefix followed by the exact file name of the first host archive of
    the first entry carrying the (normalized) version.  No request is
    made and the file tree is left alone; the console gains the lines of
    [debugPrint] and no other, so that without [--debug] nothing is
    printed and the world is as it was. *)
Theorem requested_version_found_in_catalog (t : string) (rest : list string)
  (pre : list GoVersionInfo) (v : GoVersionInfo) (post : list GoVersionInfo)
  (fpre : list FileInfo) (f : FileInfo) (fpost : list FileInfo) (w : world) :
  let key := if (CountByte t "." =? 1)%nat then t ++ ".0" else t in
  (forall u, u ∈ pre -> TrimPrefix (Version u) "go" = key ->
   forall g, g ∈ Files u -> hostArchive GOOS goArch g = false) ->
  TrimPrefix (Version v) "go" = key ->
  Files v = (fpre ++ f :: fpost)%list ->
  (forall g, g ∈ fpre -> hostArchive GOOS goArch g = false) ->
  hostArchive GOOS goArch f = true ->
  exists w',
    selectRelease GOOS goArch (t :: rest) (Some (pre ++ v :: post)%list) w
    = (Proceed (key, "https://go.dev/dl/" ++ Filename f), w')
    /\ debugged w w'
    /\ requests w' = requests w /\ files w' = files w /\ journal w' = journal w
    /\ (debugMode w = false -> w' = w).
Proof.
  intros key Hpre Hv Hfiles Hfpre Hf.
  destruct (selectRelease_requested GOOS goArch t rest (Some (pre ++ v :: post)%list) w)
    as (w' & D & E).
  unfold lookupCatalog in E. change (normalizeVersion t) with key in E.
  rewrite (catalogMatch_intro GOOS goArch key pre v post fpre f fpost) in E by assumption.
  unfold strippedVersion in E. rewrite Hv in E.
  destruct (debugged_frame _ _ D) as (Hfs & _ & Hj & _ & _ & Hr & _).
  exists w'. split; [exact E|]. split; [exact D|].
  split; [exact Hr|]. split; [exact Hfs|]. split; [exact Hj|].
  exact (debugged_quiet _ _ D).
Qed.

(** X2.  With at least one requested version, resolution always goes on:
    it never exits, its URL always starts with the download prefix, it
    makes no request and leaves the file tree alone.  The "No matching Go
    version found" exit after the loop cannot be reached. *)
Theorem requested_version_never_exits (t : string) (rest : list string)
  (allVersions : option (list GoVersionInfo)) (w : world) :
  exists version url,
    (selectRelease GOOS goArch (t :: rest) allVersions w).1 = Proceed (version, url)
    /\ HasPrefix url "https://go.dev/dl/" = true
    /\ requests (selectRelease GOOS goArch (t :: rest) allVersions w).2 = requests w
    /\ files (selectRelease GOOS goArch (t :: rest) allVersions w).2 = files w
    /\ journal (selectRelease GOOS goArch (t :: rest) allVersions w).2 = journal w.
Proof.
  destruct (selectRelease_requested GOOS goArch t rest allVersions w) as (w' & D & ->).
  destruct (debugged_frame _ _ D) as (Hfs & _ & Hj & _ & _ & Hr & _).
  destruct (lookupCatalog GOOS goArch allVersions (normalizeVersion t)) as [[v f]|].
  - eexists _, _. split; [reflexivity|]. split; [apply HasPrefix_app|].
    repeat split; assumption.
  - eexists _, _. split; [reflexivity|]. split.
    + unfold constructedURL.
      change ("https://go.dev/dl/go" ++ ?x) with ("https://go.dev/dl/" ++ ("go" ++ x)).
      apply HasPrefix_app.
    + repeat split; assumption.
Qed.

End ResolutionExtras.

Section CatalogClient.

Context `{UnicodeTables}.

#[local] Arguments String.append !s1 s2 / : simpl nomatch.

(** The first line of a text that starts with a line-feed-free string
    followed by nothing or by a line feed. *)
Lemma SplitByte_first_line (line rest : string) :
  CountByte line (ascii_of_nat 10) = 0 ->
  rest = "" \/ HasPrefix rest nl = true ->
  exists more, SplitByte (line ++ rest) (ascii_of_nat 10) = line :: more.
Proof.
  intros Hline [->|Hrest].
  - exists []. rewrite string_app_nil_r. apply SplitByte_single, Hline.
  - apply HasPrefix_true in Hrest as [r ->].
    change (nl ++ r) with (String (ascii_of_nat 10) r).
    rewrite SplitByte_app, (SplitByte_single line) by exact Hline.
    eexists. reflexivity.
Qed.

Lemma getLatest_first_line (w : world) (body version rest : string) :
  textEndpoint w = Got 200 (Ok body) ->
  TrimSpace body = "go" ++ version ++ rest ->
  CountByte version (ascii_of_nat 10) = 0 ->
  rest = "" \/ HasPrefix rest nl = true ->
  (getLatestGoVersionFromTextHTTP w).1 = Ok version.
Proof.
  intros Hend Hbody Hv Hrest.
  unfold getLatestGoVersionFromTextHTTP, httpGetText, mbind, IO_bind, mret, IO_ret.
  rewrite Hend, Hbody. cbn [negb Z.eqb Pos.eqb].
  destruct (SplitByte_first_line ("go" ++ version) rest) as [more Hsplit];
    [exact Hv|exact Hrest|].
  rewrite string_app_assoc in Hsplit. rewrite Hsplit.
  rewrite HasPrefix_app. cbn [negb].
  destruct (debugPrint _ _). reflexivity.
Qed.

(** X3.  The text endpoint is read as: surrounding white space removed,
    first line taken, leading "go" removed.  A body whose trimmed text
    starts with "go", a version and then ends or goes to a new line gives
    that version, with one request to the endpoint; a body whose trimmed
    text is empty is refused with the version-format error.  The
    "unexpected output format" error of the [len(lines) < 1] test is
    never returned.  After the request a version found is shown by
    [debugPrint]; without [--debug] the world gains the request only. *)
Theorem latest_version_text_parsed (w : world) :
  (forall body version rest,
     textEndpoint w = Got 200 (Ok body) ->
     TrimSpace body = "go" ++ version ++ rest ->
     CountByte version (ascii_of_nat 10) = 0 ->
     rest = "" \/ HasPrefix rest nl = true ->
     getLatestGoVersionFromTextHTTP w
     = (Ok version,
        (debugPrint ("Got latest version from text URL via HTTP: " ++ version)
           (logRequest latestVersionTextURL w)).2)
     /\ (debugMode w = false ->
         getLatestGoVersionFromTextHTTP w
         = (Ok version, logRequest latestVersionTextURL w)))
  /\ (forall body,
        textEndpoint w = Got 200 (Ok body) ->
        TrimSpace body = "" ->
        (getLatestGoVersionFromTextHTTP w).1
        = Err (Errorf ("unexpected version format in output from "
                       ++ latestVersionTextURL ++ " via HTTP: ")))
  /\ (getLatestGoVersionFromTextHTTP w).1
     <> Err (Errorf ("unexpected output format from " ++ latestVersionTextURL
                     ++ " via HTTP")).
Proof.
  split; [|split].
  - intros body version rest Hend Hbody Hv Hrest.
    assert (getLatestGoVersionFromTextHTTP w
            = (Ok version,
               (debugPrint ("Got latest version from text URL via HTTP: " ++ version)
                  (logRequest latestVersionTextURL w)).2)) as Hrun.
    { unfold getLatestGoVersionFromTextHTTP, httpGetText, mbind, IO_bind, mret, IO_ret.
      rewrite Hend, Hbody. cbn [negb Z.eqb Pos.eqb].
      destruct (SplitByte_first_line ("go" ++ version) rest) as [more Hsplit];
        [exact Hv|exact Hrest|].
      rewrite string_app_assoc in Hsplit. rewrite Hsplit.
      rewrite HasPrefix_app. cbn [negb].
      change (TrimPrefix ("go" ++ version) "go") with version.
      destruct (debugPrint _ _); reflexivity. }
    split; [exact Hrun|].
    intros Hd. rewrite Hrun. unfold debugPrint. cbn [debugMode logRequest].
    rewrite Hd. reflexivity.
  - intros body Hend Hbody.
    unfold getLatestGoVersionFromTextHTTP, httpGetText, mbind, IO_bind, mret, IO_ret.
    rewrite Hend, Hbody. reflexivity.
  - unfold getLatestGoVersionFromTextHTTP, httpGetText, mbind, IO_bind, mret, IO_ret.
    destruct (textEndpoint w) as [e|status [body|e]]; [discriminate| |].
    + destruct (negb _); [discriminate|].
      destruct (SplitByte _ _) as [|line lines] eqn:Hs.
      * exfalso. exact (SplitByte_nonempty _ _ Hs).
      * destruct (negb _); [discriminate|]. destruct (debugPrint _ _); discriminate.
    + destruct (negb _); discriminate.
Qed.

(** X4.  The catalog stage hands on a list exactly when the endpoint
    answers 200 with a body that decodes to a non-empty array; in every
    other case it hands on nil after one line on the error stream.  It
    makes one request and never ends the process.  [debugPrint] announces
    the request before it is made and, when a list is handed on, shows the
    number of its entries afterwards; without [--debug] a list handed on
    leaves the world with one more request and nothing else. *)
Theorem catalog_fetched_or_nil (w : world) :
  let asked :=
    logRequest goVersionURL
      (debugPrint "Fetching all Go version information from JSON API..." w).2 in
  (forall versions,
     (fetchCatalog w).1 = Some versions
     <-> versions <> [] /\ catalogEndpoint w = Got 200 (Ok versions))
  /\ (forall versions,
        (fetchCatalog w).1 = Some versions ->
        (fetchCatalog w).2
        = (debugPrint ("Fetched " ++ pretty (length versions)
                       ++ " Go versions from JSON API") asked).2)
  /\ ((fetchCatalog w).1 = None ->
      exists err, (fetchCatalog w).2
                  = emit Stderr ("Error: Failed to get Go version list from JSON API: "
                                 ++ Error err ++ nl) asked)
  /\ requests (fetchCatalog w).2 = (requests w ++ [goVersionURL])%list
  /\ (debugMode w = false ->
      (fetchCatalog w).1 <> None -> (fetchCatalog w).2 = logRequest goVersionURL w).
Proof.
  cbv zeta.
  assert (forall text w0, debugMode w0 = false -> (debugPrint text w0).2 = w0) as Hquiet.
  { intros text w0 Hd. unfold debugPrint. rewrite Hd. reflexivity. }
  assert (forall text w0, requests (debugPrint text w0).2 = requests w0) as Hreq.
  { intros text w0. apply debugPrint_frame. }
  unfold fetchCatalog, getAllGoVersions, httpGetCatalog.
  rewrite !IO_bind_run. cbn [fst snd].
  set (w1 := (debugPrint "Fetching all Go version information from JSON API..." w).2).
  assert (catalogEndpoint w1 = catalogEndpoint w) as ->.
  { destruct (debugged_frame _ _ (debugPrint_world
                "Fetching all Go version information from JSON API..." w))
      as (_ & _ & _ & Hc & _). exact Hc. }
  assert (requests (logRequest goVersionURL w1) = (requests w ++ [goVersionURL])%list)
    as Hasked.
  { cbn [requests logRequest]. unfold w1. rewrite Hreq. reflexivity. }
  destruct (catalogEndpoint w) as [e|status [versions|e]]; cbn [mret IO_ret fst snd].
  - unfold Eprintf. rewrite !IO_bind_run. cbn [mret IO_ret fst snd].
    split; [|split; [|split; [|split]]].
    + intros vs. split; [discriminate|]. intros [_ [=]].
    + discriminate.
    + intros _. eexists. reflexivity.
    + exact Hasked.
    + intros _ Hn. contradiction.
  - destruct (Z.eqb_spec status 200) as [->|Hs]; cbn [negb mret IO_ret fst snd].
    + destruct versions as [|v versions]; cbn [length Nat.eqb mret IO_ret fst snd].
      * unfold Eprintf. rewrite !IO_bind_run. cbn [mret IO_ret fst snd].
        split; [|split; [|split; [|split]]].
        -- intros vs. split; [discriminate|]. intros [Hne [= <-]]. contradiction.
        -- discriminate.
        -- intros _. eexists. reflexivity.
        -- exact Hasked.
        -- intros _ Hn. contradiction.
      * rewrite !IO_bind_run. cbn [mret IO_ret fst snd].
        split; [|split; [|split; [|split]]].
        -- intros vs. split.
           ++ intros [= <-]. split; [discriminate|reflexivity].
           ++ intros [_ [= <-]]. reflexivity.
        -- intros vs [= <-]. reflexivity.
        -- discriminate.
        -- rewrite Hreq. exact Hasked.
        -- intros Hd _. rewrite Hquiet; unfold w1; rewrite Hquiet by exact Hd;
             [reflexivity|exact Hd].
    + unfold Eprintf. rewrite !IO_bind_run. cbn [mret IO_ret fst snd].
      split; [|split; [|split; [|split]]].
      * intros vs. split; [discriminate|]. intros [_ [= Hst _]]. contradiction.
      * discriminate.
      * intros _. eexists. reflexivity.
      * exact Hasked.
      * intros _ Hn. contradiction.
  - destruct (Z.eqb_spec status 200) as [->|Hs]; cbn [negb mret IO_ret fst snd];
      unfold Eprintf; rewrite !IO_bind_run; cbn [mret IO_ret fst snd];
      (split; [|split; [|split; [|split]]]);
      [intros vs; split; [discriminate|]; intros [_ [=]]
      |discriminate
      |intros _; eexists; reflexivity
      |exact Hasked
      |intros _ Hn; contradiction
      |intros vs; split; [discriminate|]; intros [_ [=]]
      |discriminate
      |intros _; eexists; reflexivity
      |exact Hasked
      |intros _ Hn; contradiction].
Qed.

End CatalogClient.

Section LatestFallback.

Context `{UnicodeTables}.
Variables GOOS goArch : string.

(** X5.  With no version requested and no stable catalog entry holding
    an archive for the host (or no catalog at all), a text endpoint that
    names a version decides: that version is installed from the
    constructed URL, after exactly one request to the text endpoint. *)
Theorem latest_version_from_text_endpoint
  (allVersions : option (list GoVersionInfo)) (w : world)
  (body version rest : string) :
  (forall cat, allVersions = Some cat ->
     forall v, v ∈ cat -> Stable v = true ->
     forall f, f ∈ Files v -> hostArchive GOOS goArch f = false) ->
  textEndpoint w = Got 200 (Ok body) ->
  TrimSpace body = "go" ++ version ++ rest ->
  CountByte version (ascii_of_nat 10) = 0 ->
  rest = "" \/ HasPrefix rest nl = true ->
  (selectRelease GOOS goArch [] allVersions w).1
  = Proceed (version,
             "https://go.dev/dl/go" ++ version ++ "." ++ GOOS ++ "-" ++ goArch ++ ".tar.gz")
  /\ requests (selectRelease GOOS goArch [] allVersions w).2
     = (requests w ++ [latestVersionTextURL])%list
  /\ files (selectRelease GOOS goArch [] allVersions w).2 = files w.
Proof.
  intros Hnone Hend Hbody Hv Hrest.
  destruct (selectRelease_latest_fallback GOOS goArch allVersions w)
    as (w1 & w2 & D1 & D2 & ->).
  { destruct allVersions as [cat|]; [|exact I].
    apply stableMatch_none. exact (Hnone cat eq_refl). }
  rewrite (getLatest_first_line w body version rest) by assumption.
  destruct (debugged_frame _ _ D1) as (Hf1 & _ & _ & _ & _ & Hr1 & _).
  destruct (debugged_frame _ _ D2) as (Hf2 & _ & _ & _ & _ & Hr2 & _).
  cbn [files requests logRequest emit] in Hf2, Hr2.
  split; [reflexivity|]. split.
  - cbn [snd requests emit]. rewrite Hr2, Hr1. reflexivity.
  - cbn [snd files emit]. rewrite Hf2, Hf1. reflexivity.
Qed.

End LatestFallback.

(* ================================================================== *)
(** * Further properties: platform detection *)
(* ================================================================== *)

Section Platform.

Context `{UnicodeTables}.

Lemma byteOfInt8_int8OfByte (c : ascii) : byteOfInt8 (int8OfByte c) = c.
Proof. destruct c as [[] [] [] [] [] [] [] []]; reflexivity. Qed.

Lemma int8OfByte_zero (c : ascii) : c <> NUL -> (int8OfByte c =? 0)%Z = false.
Proof.
  intros Hc. destruct c as [[] [] [] [] [] [] [] []]; try reflexivity.
  exfalso. apply Hc. reflexivity.
Qed.

Lemma CountByte_cons_zero (b : ascii) (s : string) (c : ascii) :
  CountByte (String b s) c = 0 -> b <> c /\ CountByte s c = 0.
Proof.
  simpl. destruct (Ascii.eqb_spec b c) as [->|Hne]; [discriminate|].
  intros Hs. split; [exact Hne|exact Hs].
Qed.

Lemma bytesToString_cString (s : string) (tail : list Z) :
  CountByte s NUL = 0 ->
  tail = [] \/ (exists pad, tail = 0%Z :: pad) ->
  bytesToString (cString s ++ tail)%list = s.
Proof.
  intros Hs Htail. induction s as [|c s IH].
  - destruct Htail as [->|[pad ->]]; reflexivity.
  - apply CountByte_cons_zero in Hs as [Hc Hs].
    change (cString (String c s) ++ tail)%list
      with (int8OfByte c :: (cString s ++ tail))%list.
    cbn [bytesToString]. rewrite (int8OfByte_zero c Hc), byteOfInt8_int8OfByte, IH by exact Hs.
    reflexivity.
Qed.

Lemma trimLeftByte_absent (s : string) (c : ascii) :
  CountByte s c = 0 -> trimLeftByte s c = s.
Proof.
  destruct s as [|b s]; [reflexivity|]. intros Hs.
  apply CountByte_cons_zero in Hs as [Hb _]. simpl.
  destruct (Ascii.eqb_spec b c); [contradiction|reflexivity].
Qed.

Lemma trimRightByte_absent (s : string) (c : ascii) :
  CountByte s c = 0 -> trimRightByte s c = s.
Proof.
  induction s as [|b s IH]; [reflexivity|]. intros Hs.
  apply CountByte_cons_zero in Hs as [Hb Hs]. simpl. rewrite IH by exact Hs.
  destruct (Ascii.eqb_spec b c); [contradiction|reflexivity].
Qed.

(** X6.  On Linux the two fields of [uname] are read as C strings: a
    field holding the bytes of a string without a zero byte, then either
    nothing or a zero byte and anything, gives back that string, and the
    call reports no error.  With a non-empty machine string [main] goes
    on with the mapped architecture. *)
Theorem uname_fields_read_as_c_strings (GOOS GOARCH release machine : string)
  (tailR tailM : list Z) (w : world) :
  CountByte release NUL = 0 ->
  CountByte machine NUL = 0 ->
  tailR = [] \/ (exists pad, tailR = 0%Z :: pad) ->
  tailM = [] \/ (exists pad, tailM = 0%Z :: pad) ->
  let u := {| Release := (cString release ++ tailR)%list;
              Machine := (cString machine ++ tailM)%list |} in
  getSystemInfo linux GOARCH (Ok u) = (release, machine, None)
  /\ (machine <> "" ->
      (detectArchitecture GOOS GOARCH (getSystemInfo linux GOARCH (Ok u)) w).1
      = Proceed (mapArchitecture machine)).
Proof.
  intros Hr Hm HtR HtM u.
  assert (getSystemInfo linux GOARCH (Ok u) = (release, machine, None)) as Hinfo.
  { unfold getSystemInfo, u, TrimByte. cbn [Release Machine].
    rewrite !bytesToString_cString by assumption.
    rewrite !trimLeftByte_absent, !trimRightByte_absent by assumption.
    reflexivity. }
  split; [exact Hinfo|].
  intros Hne. rewrite Hinfo.
  unfold detectArchitecture, Printf, Eprintf, mbind, IO_bind, mret, IO_ret.
  destruct (String.eqb_spec (mapArchitecture machine) "") as [He|_]; [|reflexivity].
  exfalso. exact (mapArchitecture_nonempty machine Hne He).
Qed.

(** X7.  The architecture mapping is idempotent: a name it returns is
    returned unchanged when mapped again, so the canonical names (those
    [runtime.GOARCH] takes) are fixed points. *)
Theorem mapArchitecture_idempotent (detectedArch : string) :
  mapArchitecture (mapArchitecture detectedArch) = mapArchitecture detectedArch.
Proof.
  unfold mapArchitecture at 2 3.
  destruct (caseOf (ToLower detectedArch) ["x86_64"; "amd64"]) eqn:E1; [reflexivity|].
  destruct (caseOf (ToLower detectedArch) ["aarch64"; "arm64"]) eqn:E2; [reflexivity|].
  destruct (caseOf (ToLower detectedArch) ["i386"; "i686"]) eqn:E3; [reflexivity|].
  destruct (caseOf (ToLower detectedArch) ["armv6l"; "armv7l"]) eqn:E4; [reflexivity|].
  destruct (caseOf (ToLower detectedArch) ["ppc64le"]) eqn:E5; [reflexivity|].
  destruct (caseOf (ToLower detectedArch) ["s390x"]) eqn:E6; [reflexivity|].
  unfold mapArchitecture. rewrite E1, E2, E3, E4, E5, E6. reflexivity.
Qed.

End Platform.

Section ArchitectureFallback.

Context `{UnicodeTables}.

(** X24.  Where the kernel is not asked (darwin, freebsd), where asking
    is not supported (the other systems) and where it fails to answer on
    Linux, the installer goes on with the architecture Go was built for:
    each of the six names the mapping produces passes through it
    unchanged, with or without the reported error. *)
Theorem fallback_architecture_is_GOARCH (build : buildTag) (GOOS GOARCH : string)
  (uname : result Utsname) (w : world) :
  build <> linux \/ (exists e, uname = Err e) ->
  GOARCH ∈ ["amd64"; "arm64"; "386"; "arm"; "ppc64le"; "s390x"] ->
  (detectArchitecture GOOS GOARCH (getSystemInfo build GOARCH uname) w).1
  = Proceed GOARCH.
Proof.
  intros Hbuild Harch.
  assert (forall kernel,
             (detectArchitecture GOOS GOARCH (kernel, GOARCH, None) w).1 = Proceed GOARCH)
    as Hmapped.
  { intros kernel. rewrite !elem_of_cons, elem_of_nil in Harch.
    repeat destruct Harch as [->|Harch]; try reflexivity; contradiction. }
  destruct build.
  - destruct Hbuild as [Hne|[e ->]]; [contradiction|reflexivity].
  - apply Hmapped.
  - apply Hmapped.
  - reflexivity.
Qed.

End ArchitectureFallback.

(* ================================================================== *)
(** * Further properties: what extraction leaves in the file tree *)
(* ================================================================== *)

Section SystemCalls.

Lemma OpenFile_create_run (t : string) (perm : Z) (w : world) :
  OpenFile t (Z.lor O_CREATE (Z.lor O_RDWR O_TRUNC)) perm w
  = if faulty w SOpenFile t
    then (Err (PathError "open" t EIO), logCall SOpenFile t w)
    else match files w !! t with
         | Some (Dir _) => (Err (PathError "open" t EISDIR), logCall SOpenFile t w)
         | Some (File p _) =>
             (Ok t, setFiles (<[t := File p ""]> (files w)) (logCall SOpenFile t w))
         | None =>
             if parentIsDir (files w) t
             then (Ok t, setFiles (<[t := File (syscallMode perm) ""]> (files w))
                           (logCall SOpenFile t w))
             else (Err (PathError "open" t ENOENT), logCall SOpenFile t w)
         end.
Proof. reflexivity. Qed.

Lemma WriteString_run (t data : string) (w : world) :
  WriteString t data w
  = if faulty w SWrite t
    then (Some (PathError "write" t EIO), logCall SWrite t w)
    else match files w !! t with
         | Some (File p old) =>
             (None, setFiles (<[t := File p (old ++ data)]> (files w)) (logCall SWrite t w))
         | _ => (Some (PathError "write" t ENOENT), logCall SWrite t w)
         end.
Proof. reflexivity. Qed.

Lemma Chmod_run (t : string) (mode : Z) (w : world) :
  Chmod t mode w
  = if faulty w SChmod t
    then (Some (PathError "chmod" t EIO), logCall SChmod t w)
    else match files w !! t with
         | Some (Dir _) =>
             (None, setFiles (<[t := Dir (syscallMode mode)]> (files w))
                      (logCall SChmod t w))
         | Some (File _ data) =>
             (None, setFiles (<[t := File (syscallMode mode) data]> (files w))
                      (logCall SChmod t w))
         | None => (Some (PathError "chmod" t ENOENT), logCall SChmod t w)
         end.
Proof. reflexivity. Qed.

Lemma MkdirAll_run (t : string) (perm : Z) (w : world) :
  MkdirAll t perm w
  = if faulty w SMkdirAll t
    then (Some (PathError "mkdir" t EIO), logCall SMkdirAll t w)
    else
      let r := fold_left (mkdirStep perm) (Filepath.ancestors t ++ [t]) (files w, None) in
      (r.2, setFiles r.1 (logCall SMkdirAll t w)).
Proof.
  unfold MkdirAll.
  change (faulty (logCall SMkdirAll t w) SMkdirAll t) with (faulty w SMkdirAll t).
  destruct (faulty w SMkdirAll t); [reflexivity|].
  change (files (logCall SMkdirAll t w)) with (files w).
  destruct (fold_left _ _ _) as [m err]. reflexivity.
Qed.

Lemma string_length_app (a b : string) :
  String.length (a ++ b) = String.length a + String.length b.
Proof.
  induction a as [|c a IH]; [reflexivity|].
  change (String c a ++ b) with (String c (a ++ b)). simpl. rewrite IH. reflexivity.
Qed.

Lemma ancestorsFrom_shorter (rest seen a : string) :
  a ∈ Filepath.ancestorsFrom seen rest ->
  String.length a < String.length seen + String.length rest.
Proof.
  revert seen. induction rest as [|c rest IH]; intros seen Ha; simpl in Ha.
  - apply elem_of_nil in Ha. contradiction.
  - apply elem_of_app in Ha as [Ha|Ha].
    + destruct (_ && _) in Ha.
      * apply list_elem_of_singleton in Ha. subst a. simpl. lia.
      * apply elem_of_nil in Ha. contradiction.
    + apply IH in Ha. rewrite string_length_app in Ha. simpl in *. lia.
Qed.

Lemma ancestors_proper (path : string) : path ∉ Filepath.ancestors path.
Proof.
  intros Hin. apply ancestorsFrom_shorter in Hin. simpl in Hin. lia.
Qed.

Lemma mkdirStep_absent (perm : Z) (dirs : list string) (m : gmap string node)
  (e : option error) (p : string) :
  p ∉ dirs -> m !! p = None ->
  (fold_left (mkdirStep perm) dirs (m, e)).1 !! p = None.
Proof.
  revert m e. induction dirs as [|d dirs IH]; intros m e Hp Hm; simpl; [exact Hm|].
  apply not_elem_of_cons in Hp as [Hne Hp].
  destruct e as [e|]; simpl; [apply IH; assumption|].
  destruct (m !! d) as [[perm'|perm' data]|] eqn:Ed; try (apply IH; assumption).
  apply IH; [exact Hp|]. rewrite lookup_insert_ne by congruence. exact Hm.
Qed.

(** A successful [MkdirAll] of a path that was not there leaves a
    directory at it, with the mode asked for as the kernel is given it. *)
Lemma MkdirAll_made (t : string) (perm : Z) (w : world) :
  files w !! t = None ->
  (MkdirAll t perm w).1 = None ->
  files (MkdirAll t perm w).2 !! t = Some (Dir (syscallMode perm)).
Proof.
  intros Habs. rewrite MkdirAll_run.
  destruct (faulty w SMkdirAll t); [discriminate|].
  cbn [fst snd]. rewrite fold_left_app.
  pose proof (mkdirStep_absent perm (Filepath.ancestors t) (files w) None t
                (ancestors_proper t) Habs) as Hstill.
  destruct (fold_left (mkdirStep perm) (Filepath.ancestors t) (files w, None))
    as [m [e|]]; cbn [fold_left mkdirStep fst snd] in *; [discriminate|].
  rewrite Hstill. cbn [fst snd]. intros _. apply lookup_insert_eq.
Qed.

End SystemCalls.

Section ExtractionSteps.

Variable d : string.
Variable P : string -> Prop.
Variable R : world -> world -> Prop.
Hypothesis R_refl : forall w, R w w.
Hypothesis R_trans : forall a b c, R a b -> R b c -> R a c.
Hypothesis R_mkdir : forall t perm w, P t -> R w (MkdirAll t perm w).2.
Hypothesis R_chmod : forall t mode w, P t -> R w (Chmod t mode w).2.
Hypothesis R_open : forall t perm w, P t ->
  R w (OpenFile t (Z.lor O_CREATE (Z.lor O_RDWR O_TRUNC)) perm w).2.
Hypothesis R_write : forall t data w, P t -> R w (WriteString t data w).2.
Hypothesis R_debug : forall text w, R w (debugPrint text w).2.

(** What every system call of the loop keeps, the loop keeps. *)
Lemma extractEntries_steps (items : list item) (w : world) :
  Forall P (targets d items) -> R w (extractEntries d items w).2.
Proof.
  revert w. induction items as [|[header data|err] items IH]; intros w Hall;
    [apply R_refl| |apply R_refl].
  cbn [targets] in Hall. apply Forall_cons in Hall as [Ht Hall].
  unfold targetOf in Ht. cbn [extractEntries].
  destruct (negb (HasPrefix (Filepath.Join [d; Name header]) (d ++ "/")));
    [apply R_refl|].
  destruct (Ascii.eqb (Typeflag header) TypeDir).
  - rewrite IO_bind_run, Stat_world.
    destruct (IsNotExist (Stat (Filepath.Join [d; Name header]) w).1).
    + rewrite IO_bind_run.
      pose proof (R_mkdir _ (FileMode (Mode header)) w Ht) as Hc.
      destruct (MkdirAll _ _ w) as [[e|] w1]; cbn [fst snd] in *; [exact Hc|].
      exact (R_trans _ _ _ Hc (IH w1 Hall)).
    + destruct (Stat _ w).1 as [e|]; [apply R_refl|].
      rewrite IO_bind_run.
      match goal with
      | |- context [debugPrint ?text w] =>
          apply (R_trans _ _ _ (R_debug text w)); generalize (debugPrint text w).2
      end.
      intros w0. rewrite IO_bind_run.
      pose proof (R_chmod _ (FileMode (Mode header)) w0 Ht) as Hc.
      destruct (Chmod _ _ w0) as [[e|] w1]; cbn [fst snd] in *; [exact Hc|].
      exact (R_trans _ _ _ Hc (IH w1 Hall)).
  - destruct (Ascii.eqb (Typeflag header) TypeReg); [|apply IH, Hall].
    rewrite IO_bind_run.
    pose proof (R_open _ (FileMode (Mode header)) w Ht) as Hc.
    pose proof (OpenFile_handle (Filepath.Join [d; Name header])
                  (Z.lor O_CREATE (Z.lor O_RDWR O_TRUNC)) (FileMode (Mode header)) w) as Hh.
    destruct (OpenFile _ _ _ w) as [[f|e] w1]; cbn [fst snd] in *; [|exact Hc].
    rewrite (Hh f eq_refl). rewrite IO_bind_run.
    pose proof (R_write _ data w1 Ht) as Hc2.
    destruct (WriteString _ data w1) as [[e|] w2]; cbn [fst snd] in *;
      [exact (R_trans _ _ _ Hc Hc2)|].
    exact (R_trans _ _ _ Hc (R_trans _ _ _ Hc2 (IH w2 Hall))).
Qed.

End ExtractionSteps.

Section ExtractionKeeps.

Lemma keepsNodes_refl (m : gmap string node) : keepsNodes m m.
Proof. intros p n Hp. exists n. split; [exact Hp|]. destruct n; reflexivity. Qed.

Lemma sameKind_trans (a b c : node) :
  sameKind a b = true -> sameKind b c = true -> sameKind a c = true.
Proof. destruct a, b, c; simpl; congruence. Qed.

Lemma keepsNodes_trans (m1 m2 m3 : gmap string node) :
  keepsNodes m1 m2 -> keepsNodes m2 m3 -> keepsNodes m1 m3.
Proof.
  intros H12 H23 p n Hp.
  destruct (H12 p n Hp) as (n' & Hp' & Hk).
  destruct (H23 p n' Hp') as (n'' & Hp'' & Hk').
  exists n''. split; [exact Hp''|]. exact (sameKind_trans _ _ _ Hk Hk').
Qed.

Lemma keepsNodes_insert (m : gmap string node) (t : string) (new : node) :
  (forall old, m !! t = Some old -> sameKind old new = true) ->
  keepsNodes m (<[t := new]> m).
Proof.
  intros Hold p n Hp. destruct (decide (p = t)) as [->|Hne].
  - exists new. split; [apply lookup_insert_eq|]. apply Hold, Hp.
  - exists n. split; [rewrite lookup_insert_ne by congruence; exact Hp|].
    destruct n; reflexivity.
Qed.

Lemma MkdirAll_keepsNodes (t : string) (perm : Z) (w : world) :
  keepsNodes (files w) (files (MkdirAll t perm w).2).
Proof.
  rewrite MkdirAll_run. destruct (faulty w SMkdirAll t); [apply keepsNodes_refl|].
  cbn [fst snd]. intros p n Hp. exists n. split; [|destruct n; reflexivity].
  cbn [files setFiles]. rewrite mkdirStep_keeps; [exact Hp|]. eexists; exact Hp.
Qed.

Lemma Chmod_keepsNodes (t : string) (mode : Z) (w : world) :
  keepsNodes (files w) (files (Chmod t mode w).2).
Proof.
  rewrite Chmod_run. destruct (faulty w SChmod t); [apply keepsNodes_refl|].
  destruct (files w !! t) as [[p|p data]|] eqn:Et; cbn [fst snd files setFiles];
    [| |apply keepsNodes_refl];
    apply keepsNodes_insert; intros old Hold; rewrite Et in Hold;
    injection Hold as <-; reflexivity.
Qed.

Lemma OpenFile_keepsNodes (t : string) (perm : Z) (w : world) :
  keepsNodes (files w)
    (files (OpenFile t (Z.lor O_CREATE (Z.lor O_RDWR O_TRUNC)) perm w).2).
Proof.
  rewrite OpenFile_create_run. destruct (faulty w SOpenFile t); [apply keepsNodes_refl|].
  destruct (files w !! t) as [[p|p data]|] eqn:Et; cbn [fst snd files setFiles];
    [apply keepsNodes_refl| |].
  - apply keepsNodes_insert. intros old Hold. rewrite Et in Hold.
    injection Hold as <-. reflexivity.
  - destruct (parentIsDir (files w) t); cbn [fst snd files setFiles];
      [|apply keepsNodes_refl].
    apply keepsNodes_insert. intros old Hold. rewrite Et in Hold. discriminate.
Qed.

Lemma WriteString_keepsNodes (t data : string) (w : world) :
  keepsNodes (files w) (files (WriteString t data w).2).
Proof.
  rewrite WriteString_run. destruct (faulty w SWrite t); [apply keepsNodes_refl|].
  destruct (files w !! t) as [[p|p old]|] eqn:Et; cbn [fst snd files setFiles];
    [apply keepsNodes_refl| |apply keepsNodes_refl].
  apply keepsNodes_insert. intros old' Hold. rewrite Et in Hold.
  injection Hold as <-. reflexivity.
Qed.

Lemma extractEntries_keepsNodes (d : string) (items : list item) (w : world) :
  keepsNodes (files w) (files (extractEntries d items w).2).
Proof.
  apply (extractEntries_steps d (fun _ => True)
           (fun w w' => keepsNodes (files w) (files w'))).
  - intros w0. apply keepsNodes_refl.
  - intros a b c. apply keepsNodes_trans.
  - intros t perm w0 _. apply MkdirAll_keepsNodes.
  - intros t mode w0 _. apply Chmod_keepsNodes.
  - intros t perm w0 _. apply OpenFile_keepsNodes.
  - intros t data w0 _. apply WriteString_keepsNodes.
  - intros text w0. destruct (debugPrint_frame text w0) as (-> & _).
    apply keepsNodes_refl.
  - apply Forall_forall. intros; exact I.
Qed.

Lemma keepsAt_refl (p : string) (w : world) : keepsAt p w w.
Proof. intros _. reflexivity. Qed.

Lemma keepsAt_trans (p : string) (a b c : world) :
  keepsAt p a b -> keepsAt p b c -> keepsAt p a c.
Proof.
  intros Hab Hbc Hsome. rewrite Hbc; [apply Hab, Hsome|].
  rewrite (Hab Hsome). exact Hsome.
Qed.

(** Entries with other joined paths leave the node at [p] as it is. *)
Lemma extractEntries_keepsAt (d p : string) (items : list item) (w : world) :
  Forall (fun t => t <> p) (targets d items) ->
  keepsAt p w (extractEntries d items w).2.
Proof.
  apply (extractEntries_steps d (fun t => t <> p) (keepsAt p)).
  - apply keepsAt_refl.
  - apply keepsAt_trans.
  - intros t perm w0 Hne Hsome. rewrite MkdirAll_run.
    destruct (faulty w0 SMkdirAll t); [reflexivity|].
    cbn [fst snd files setFiles]. apply mkdirStep_keeps, Hsome.
  - intros t mode w0 Hne Hsome. rewrite Chmod_run.
    destruct (faulty w0 SChmod t); [reflexivity|].
    destruct (files w0 !! t) as [[q|q data]|]; cbn [fst snd files setFiles];
      try reflexivity; apply lookup_insert_ne; exact Hne.
  - intros t perm w0 Hne Hsome. rewrite OpenFile_create_run.
    destruct (faulty w0 SOpenFile t); [reflexivity|].
    destruct (files w0 !! t) as [[q|q data]|]; cbn [fst snd files setFiles];
      try reflexivity; [apply lookup_insert_ne; exact Hne|].
    destruct (parentIsDir (files w0) t); cbn [fst snd files setFiles];
      [apply lookup_insert_ne; exact Hne|reflexivity].
  - intros t data w0 Hne Hsome. rewrite WriteString_run.
    destruct (faulty w0 SWrite t); [reflexivity|].
    destruct (files w0 !! t) as [[q|q old]|]; cbn [fst snd files setFiles];
      try reflexivity; apply lookup_insert_ne; exact Hne.
  - intros text w0 _. destruct (debugPrint_frame text w0) as (-> & _). reflexivity.
Qed.

End ExtractionKeeps.

Section ExtractionResults.

Context `{Codec}.

(** X8.  Extraction never removes anything and never turns a file into
    a directory or a directory into a file: whatever was in the file tree
    before [extractTarGz] is there afterwards as a node of the same kind,
    whether the extraction succeeds or stops with an error. *)
Theorem extraction_never_removes (filePath destDir : string) (w : world)
  (p : string) (n : node) :
  files w !! p = Some n ->
  exists n', files (extractTarGz filePath destDir w).2 !! p = Some n'
             /\ sameKind n n' = true.
Proof.
  revert p n. change (keepsNodes (files w) (files (extractTarGz filePath destDir w).2)).
  unfold extractTarGz, Open, mbind, IO_bind.
  destruct (faulty w SOpen filePath); [apply keepsNodes_refl|].
  destruct (files w !! filePath) as [[q|q bytes]|]; try apply keepsNodes_refl.
  destruct (decode bytes); [apply keepsNodes_refl|apply extractEntries_keepsNodes].
Qed.

(** X9.  After a successful extraction, the path of a regular-file
    entry that no later entry of the archive names holds a file with
    exactly the bytes of the entry.  When the entry made the file, its
    mode is what [os.OpenFile] hands to the kernel for
    [os.FileMode(header.Mode)]: the nine permission bits of the entry's
    mode, with set-user-id, set-group-id and sticky taken from Go's bits
    23, 22 and 20, so that the Unix bits above 0777 of a tar mode are
    dropped.  When a file was there before the entry was reached, it
    keeps the mode it had. *)
Theorem extracted_file_holds_entry_data (destDir : string) (before : list item)
  (header : Header) (data : string) (after : list item) (w : world) :
  Typeflag header = TypeReg ->
  Forall (fun t => t <> targetOf destDir header) (targets destDir after) ->
  (extractEntries destDir (before ++ Entry header data :: after) w).1 = None ->
  let reached := (extractEntries destDir before w).2 in
  let done := (extractEntries destDir (before ++ Entry header data :: after) w).2 in
  exists perm,
    files done !! targetOf destDir header = Some (File perm data)
    /\ (files reached !! targetOf destDir header = None ->
        perm = syscallMode (FileMode (Mode header)))
    /\ (forall perm0 old,
          files reached !! targetOf destDir header = Some (File perm0 old) ->
          perm = perm0).
Proof.
  intros Hreg Hafter. cbn zeta. rewrite extractEntries_app.
  destruct (extractEntries destDir before w) as [[e|] w1]; cbn [fst snd];
    [discriminate|].
  pose proof (extractEntries_keepsAt destDir (targetOf destDir header) after) as Hkeep.
  specialize (fun w2 => Hkeep w2 Hafter).
  cbn [extractEntries]. fold (targetOf destDir header).
  set (t := targetOf destDir header) in *.
  destruct (negb (HasPrefix t (destDir ++ "/"))); [discriminate|].
  rewrite Hreg. change (Ascii.eqb TypeReg TypeDir) with false.
  change (Ascii.eqb TypeReg TypeReg) with true. cbv iota.
  rewrite IO_bind_run, OpenFile_create_run.
  destruct (faulty w1 SOpenFile t); [discriminate|].
  destruct (files w1 !! t) as [[q|q old]|] eqn:Et; cbn [fst snd]; [discriminate| |].
  - rewrite IO_bind_run, WriteString_run.
    change (faulty (setFiles ?m (logCall ?c ?x w1)) SWrite t) with (faulty w1 SWrite t).
    destruct (faulty w1 SWrite t); [discriminate|].
    cbn [files setFiles]. rewrite lookup_insert_eq. cbn [fst snd].
    intros Hok. exists q. split; [|split].
    + rewrite Hkeep.
      * cbn [files setFiles]. apply lookup_insert_eq.
      * cbn [files setFiles]. rewrite lookup_insert_eq. eexists; reflexivity.
    + discriminate.
    + intros perm0 old0 [= <- _]. reflexivity.
  - destruct (parentIsDir (files w1) t); cbn [fst snd]; [|discriminate].
    rewrite IO_bind_run, WriteString_run.
    change (faulty (setFiles ?m (logCall ?c ?x w1)) SWrite t) with (faulty w1 SWrite t).
    destruct (faulty w1 SWrite t); [discriminate|].
    cbn [files setFiles]. rewrite lookup_insert_eq. cbn [fst snd].
    intros Hok. exists (syscallMode (FileMode (Mode header))). split; [|split].
    + rewrite Hkeep.
      * cbn [files setFiles]. apply lookup_insert_eq.
      * cbn [files setFiles]. rewrite lookup_insert_eq. eexists; reflexivity.
    + reflexivity.
    + discriminate.
Qed.

(** X10.  After a successful extraction, the path of a directory entry
    that no later entry names is a directory, whether the entry made it
    or found it.  Its mode is what [os.MkdirAll] and [os.Chmod] hand to
    the kernel for [os.FileMode(header.Mode)]: the nine permission bits
    of the entry's mode, with set-user-id, set-group-id and sticky taken
    from Go's bits 23, 22 and 20.  When a regular file had the path, the
    entry does not fail: the file stays a file with its bytes and takes
    that mode. *)
Theorem extracted_directory_has_entry_mode (destDir : string) (before : list item)
  (header : Header) (data : string) (after : list item) (w : world) :
  Typeflag header = TypeDir ->
  Forall (fun t => t <> targetOf destDir header) (targets destDir after) ->
  (extractEntries destDir (before ++ Entry header data :: after) w).1 = None ->
  let reached := (extractEntries destDir before w).2 in
  let done := (extractEntries destDir (before ++ Entry header data :: after) w).2 in
  files done !! targetOf destDir header
  = match files reached !! targetOf destDir header with
    | Some (File _ content) =>
        Some (File (syscallMode (FileMode (Mode header))) content)
    | _ => Some (Dir (syscallMode (FileMode (Mode header))))
    end.
Proof.
  intros Hdir Hafter. cbn zeta. rewrite extractEntries_app.
  destruct (extractEntries destDir before w) as [[e|] w1]; cbn [fst snd];
    [discriminate|].
  pose proof (extractEntries_keepsAt destDir (targetOf destDir header) after) as Hkeep.
  specialize (fun w2 => Hkeep w2 Hafter).
  cbn [extractEntries]. fold (targetOf destDir header).
  set (t := targetOf destDir header) in *.
  destruct (negb (HasPrefix t (destDir ++ "/"))); [discriminate|].
  rewrite Hdir. change (Ascii.eqb TypeDir TypeDir) with true. cbv iota.
  rewrite IO_bind_run, Stat_world, Stat_fst.
  destruct (faulty w1 SStat t); [discriminate|].
  destruct (files w1 !! t) as [[q|q old]|] eqn:Et; cbn [IsNotExist].
  - rewrite IO_bind_run.
    match goal with
    | |- context [debugPrint ?text w1] =>
        destruct (debugPrint_frame text w1) as (Hfs & _);
        set (w0 := (debugPrint text w1).2) in *; clearbody w0
    end.
    rewrite IO_bind_run, Chmod_run.
    destruct (faulty w0 SChmod t); [discriminate|].
    rewrite Hfs, Et. cbn [fst snd]. intros Hok.
    rewrite Hkeep; cbn [files setFiles]; rewrite lookup_insert_eq;
      [reflexivity|eexists; reflexivity].
  - rewrite IO_bind_run.
    match goal with
    | |- context [debugPrint ?text w1] =>
        destruct (debugPrint_frame text w1) as (Hfs & _);
        set (w0 := (debugPrint text w1).2) in *; clearbody w0
    end.
    rewrite IO_bind_run, Chmod_run.
    destruct (faulty w0 SChmod t); [discriminate|].
    rewrite Hfs, Et. cbn [fst snd]. intros Hok.
    rewrite Hkeep; cbn [files setFiles]; rewrite lookup_insert_eq;
      [reflexivity|eexists; reflexivity].
  - rewrite IO_bind_run.
    pose proof (MkdirAll_made t (FileMode (Mode header)) w1 Et) as Hmade.
    destruct (MkdirAll t (FileMode (Mode header)) w1) as [[e|] w2]; cbn [fst snd] in *;
      [discriminate|].
    intros Hok. rewrite Hkeep; rewrite (Hmade eq_refl); [reflexivity|].
    eexists; reflexivity.
Qed.

(** X11.  Extraction stops at the first failure: once the entries read
    so far have ended in an error, or the reader reports a damaged
    record, the result and the world are those of the entries before,
    whatever the archive holds after that point. *)
Theorem extraction_stops_at_first_error (filePath destDir : string) (w : world)
  (perm : Z) (bytes : string) (before rest : list item) :
  faulty w SOpen filePath = false ->
  files w !! filePath = Some (File perm bytes) ->
  (forall e,
     decode bytes = Stream (before ++ rest)%list ->
     (extractEntries destDir before w).1 = Some e ->
     extractTarGz filePath destDir w = extractEntries destDir before w)
  /\ (forall err,
        decode bytes = Stream (before ++ Broken err :: rest)%list ->
        (extractEntries destDir before w).1 = None ->
        extractTarGz filePath destDir w
        = (Some err, (extractEntries destDir before w).2)).
Proof.
  intros Hf Hfile. split.
  - intros e Hdec Hfail.
    rewrite (extractTarGz_stream _ _ _ _ _ _ Hf Hfile Hdec), extractEntries_app.
    rewrite Hfail. rewrite <- Hfail. symmetry. apply surjective_pairing.
  - intros err Hdec Hok.
    rewrite (extractTarGz_stream _ _ _ _ _ _ Hf Hfile Hdec), extractEntries_app.
    rewrite Hok. reflexivity.
Qed.

(** X12.  An archive that is not there, that the system refuses to
    open, that is a directory, or whose bytes are not a gzip stream makes
    [extractTarGz] return an error with the world exactly as it was: no
    call that could change the file tree is issued. *)
Theorem unreadable_archive_changes_nothing (filePath destDir : string) (w : world) :
  (faulty w SOpen filePath = true
   \/ files w !! filePath = None
   \/ (exists perm, files w !! filePath = Some (Dir perm))
   \/ (exists perm bytes err,
         files w !! filePath = Some (File perm bytes) /\ decode bytes = NotGzip err)) ->
  is_Some (extractTarGz filePath destDir w).1
  /\ (extractTarGz filePath destDir w).2 = w.
Proof.
  unfold extractTarGz, Open, mbind, IO_bind.
  intros [Hf|[Hnone|[[perm Hdir]|(perm & bytes & err & Hfile & Hdec)]]].
  - rewrite Hf. split; [eexists|]; reflexivity.
  - destruct (faulty w SOpen filePath); [split; [eexists|]; reflexivity|].
    rewrite Hnone. split; [eexists|]; reflexivity.
  - destruct (faulty w SOpen filePath); [split; [eexists|]; reflexivity|].
    rewrite Hdir. split; [eexists|]; reflexivity.
  - destruct (faulty w SOpen filePath); [split; [eexists|]; reflexivity|].
    rewrite Hfile, Hdec. split; [eexists|]; reflexivity.
Qed.

End ExtractionResults.

(* ================================================================== *)
(** * Further properties: clean-up and PATH configuration *)
(* ================================================================== *)

Section CleanupFrame.

(** X13.  Clearing the old installation only removes, and only at the
    install path or below it: every other path holds what it held (a
    sibling whose name merely starts with the install path included), and
    the one call it may issue is the removal of the install path. *)
Theorem cleanup_confined_to_install_path (rootMode : bool) (euid : Z)
  (installPath : string) (w : world) :
  let ip := if asRoot rootMode euid then "/usr/local/go" else installPath in
  let cleared := (cleanupOldInstall rootMode euid installPath w).2 in
  (forall p, within ip p = false -> files cleared !! p = files w !! p)
  /\ (forall p, files cleared !! p = None \/ files cleared !! p = files w !! p)
  /\ (journal cleared = journal w
      \/ journal cleared = (journal w ++ [(SRemoveAll, ip)])%list).
Proof.
  cbv zeta.
  destruct (cleanupOldInstall_disk rootMode euid installPath w) as (_ & -> & ->).
  set (ip := if asRoot rootMode euid then "/usr/local/go" else installPath).
  destruct (IsNotExist (Stat ip w).1).
  - split; [|split]; [reflexivity|right; reflexivity|left; reflexivity].
  - destruct (faulty w SRemoveAll ip) eqn:Hf.
    + split; [|split]; [reflexivity|right; reflexivity|right; reflexivity].
    + split; [|split]; [| |right; reflexivity].
      * intros p Hp. destruct (files w !! p) as [n|] eqn:Ep.
        -- apply map_lookup_filter_Some. split; [exact Ep|].
           cbn [fst]. rewrite Hp. exact I.
        -- apply map_lookup_filter_None. left. exact Ep.
      * intros p. destruct (within ip p) eqn:Hp.
        -- left. apply map_lookup_filter_None. right. intros x _. cbn [fst].
           rewrite Hp. intros [].
        -- right. destruct (files w !! p) as [n|] eqn:Ep.
           ++ apply map_lookup_filter_Some. split; [exact Ep|].
              cbn [fst]. rewrite Hp. exact I.
           ++ apply map_lookup_filter_None. left. exact Ep.
Qed.

End CleanupFrame.

Section ConfigureFrame.

Variables homeDir installPath : string.

(** One run of the profile routine on [P], seen from any path [q]. *)
Lemma after_only_appends (B P : string) (refused : list (syscall * string))
  (m : gmap string node) (q : string) :
  match m !! q with
  | Some (Dir perm) => after B P refused m !! q = Some (Dir perm)
  | Some (File perm content) =>
      after B P refused m !! q = Some (File perm content)
      \/ (q = P /\ Contains content B = false
          /\ after B P refused m !! q
             = Some (File perm (content ++ nl ++ exportLineFor B ++ nl)))
  | None =>
      after B P refused m !! q = None
      \/ (q = P /\ (after B P refused m !! q = Some (File 438 "")
                    \/ after B P refused m !! q
                       = Some (File 438 (exportLineFor B ++ nl))))
  end.
Proof.
  destruct (decide (q = P)) as [->|Hne].
  - rewrite after_self. unfold ensured, ensureNode.
    destruct (refusedAt refused P SStat).
    { destruct (m !! P) as [[perm|perm content]|]; [reflexivity|left; reflexivity
                                                     |left; reflexivity]. }
    destruct (m !! P) as [[perm|perm content]|]; [reflexivity| |].
    + destruct (refusedAt refused P SReadFile); [left; reflexivity|].
      destruct (Contains content B); [left; reflexivity|].
      destruct (refusedAt refused P SOpenFile); [left; reflexivity|].
      destruct (refusedAt refused P SWrite); [left; reflexivity|].
      right. repeat split; reflexivity.
    + destruct (_ || _); [left; reflexivity|].
      destruct (refusedAt refused P SWrite); right; (split; [reflexivity|]);
        [left|right]; reflexivity.
  - rewrite after_other by exact Hne.
    destruct (m !! q) as [[perm|perm content]|]; [reflexivity|left; reflexivity
                                                  |left; reflexivity].
Qed.

(** X14.  PATH configuration never shortens, replaces or removes
    anything: a directory stays as it is, a file keeps its mode and
    either its content or its content followed by a line feed, the export
    line and a line feed (only a profile that did not hold the bin path),
    and a path that held nothing holds nothing, unless it is one of the
    two profiles, made with mode 0666 and holding the export line or,
    when the write was refused, nothing. *)
Theorem path_configuration_only_appends (rootMode : bool) (euid : Z) (w : world)
  (q : string) :
  let B := Filepath.Join [installPath; "bin"] in
  let Pu := Filepath.Join [homeDir; ".profile"] in
  let Ps := Filepath.Join [systemProfileDDirextory; systemGoProfileFilename] in
  let configured := (configurePath rootMode euid homeDir installPath w).2 in
  match files w !! q with
  | Some (Dir perm) => files configured !! q = Some (Dir perm)
  | Some (File perm content) =>
      files configured !! q = Some (File perm content)
      \/ ((q = Pu \/ q = Ps) /\ Contains content B = false
          /\ files configured !! q
             = Some (File perm (content ++ nl ++ exportLineFor B ++ nl)))
  | None =>
      files configured !! q = None
      \/ ((q = Pu \/ q = Ps)
          /\ (files configured !! q = Some (File 438 "")
              \/ files configured !! q = Some (File 438 (exportLineFor B ++ nl))))
  end.
Proof.
  cbv zeta.
  set (B := Filepath.Join [installPath; "bin"]).
  set (Pu := Filepath.Join [homeDir; ".profile"]).
  set (Ps := Filepath.Join [systemProfileDDirextory; systemGoProfileFilename]).
  assert (forall m, match m !! q with
                    | Some (Dir perm) => after B Pu (faults w) m !! q = Some (Dir perm)
                    | Some (File perm content) =>
                        after B Pu (faults w) m !! q = Some (File perm content)
                        \/ ((q = Pu \/ q = Ps) /\ Contains content B = false
                            /\ after B Pu (faults w) m !! q
                               = Some (File perm (content ++ nl ++ exportLineFor B ++ nl)))
                    | None =>
                        after B Pu (faults w) m !! q = None
                        \/ ((q = Pu \/ q = Ps)
                            /\ (after B Pu (faults w) m !! q = Some (File 438 "")
                                \/ after B Pu (faults w) m !! q
                                   = Some (File 438 (exportLineFor B ++ nl))))
                    end) as Huser.
  { intros m. pose proof (after_only_appends B Pu (faults w) m q) as Ha.
    destruct (m !! q) as [[perm|perm content]|]; [exact Ha| |].
    - destruct Ha as [Ha|(Hq & Hc & Ha)]; [left; exact Ha|right].
      split; [left; exact Hq|split; assumption].
    - destruct Ha as [Ha|(Hq & Ha)]; [left; exact Ha|right].
      split; [left; exact Hq|exact Ha]. }
  destruct (asRoot rootMode euid) eqn:Hroot.
  - unfold configurePath. rewrite Hroot.
    destruct (configureSystemPath_disk homeDir installPath w) as [_ ->].
    fold B Pu. unfold sysDisk. fold Ps.
    destruct (_ || _); [apply Huser|].
    change (writeBack Ps (ensured B Ps (faults w) (files w)).1 (files w))
      with (after B Ps (faults w) (files w)).
    pose proof (after_only_appends B Ps (faults w) (files w) q) as Hs.
    destruct (userProfile_not_system homeDir) as [Hne _]. fold Pu Ps in Hne.
    destruct (ensured B Ps (faults w) (files w)).2.
    + pose proof (Huser (after B Ps (faults w) (files w))) as Hu.
      destruct (decide (q = Pu)) as [Hq|Hq].
      * subst q. rewrite (after_other B (faults w) Ps Pu) in Hu by exact Hne.
        exact Hu.
      * rewrite (after_other B (faults w) Pu q) by exact Hq.
        destruct (files w !! q) as [[perm|perm content]|]; [exact Hs| |].
        -- destruct Hs as [Hs|(Hqs & Hc & Hs)]; [left; exact Hs|right].
           split; [right; exact Hqs|split; assumption].
        -- destruct Hs as [Hs|(Hqs & Hs)]; [left; exact Hs|right].
           split; [right; exact Hqs|exact Hs].
    + destruct (files w !! q) as [[perm|perm content]|]; [exact Hs| |].
      * destruct Hs as [Hs|(Hqs & Hc & Hs)]; [left; exact Hs|right].
        split; [right; exact Hqs|split; assumption].
      * destruct Hs as [Hs|(Hqs & Hs)]; [left; exact Hs|right].
        split; [right; exact Hqs|exact Hs].
  - rewrite (touches_files _ _ _ _ (configurePath_user homeDir installPath rootMode euid w
                                      Hroot)).
    apply Huser.
Qed.

End ConfigureFrame.

Section ConfigureSuccess.

Variables homeDir installPath : string.

Lemma ensureNode_unrefused (B : string) (F : syscall -> bool) (cur : option node) :
  (forall c, F c = false) ->
  (forall perm, cur <> Some (Dir perm)) ->
  (ensureNode B F true cur).2 = false
  /\ (cur = None -> (ensureNode B F true cur).1 = Some (File 438 (exportLineFor B ++ nl))).
Proof.
  intros Hfree Hfile. unfold ensureNode. rewrite !Hfree.
  destruct cur as [[perm|perm content]|]; [destruct (Hfile perm eq_refl)| |].
  - split; [|discriminate]. destruct (Contains content B); reflexivity.
  - split; reflexivity.
Qed.

(** X15.  Configuration for the current user succeeds whenever nothing
    stands in its way: if no call on the user's profile is refused, the
    directory of the profile is there and the profile is not itself a
    directory, then after [main]'s PATH stage the profile is a file that
    contains the bin path; a profile that was missing holds exactly the
    export line and a line feed; no other path has changed. *)
Theorem user_configuration_exports_bin_path (rootMode : bool) (euid : Z) (w : world) :
  let B := Filepath.Join [installPath; "bin"] in
  let Pu := Filepath.Join [homeDir; ".profile"] in
  let configured := (configurePath rootMode euid homeDir installPath w).2 in
  asRoot rootMode euid = false ->
  (forall c, faulty w c Pu = false) ->
  parentIsDir (files w) Pu = true ->
  (forall perm, files w !! Pu <> Some (Dir perm)) ->
  holdsBinPath B Pu configured
  /\ (files w !! Pu = None ->
      files configured !! Pu = Some (File 438 (exportLineFor B ++ nl)))
  /\ (forall q, q <> Pu -> files configured !! q = files w !! q).
Proof.
  cbv zeta. intros Hroot Hfree Hparent Hfile.
  set (B := Filepath.Join [installPath; "bin"]) in *.
  set (Pu := Filepath.Join [homeDir; ".profile"]) in *.
  unfold holdsBinPath.
  rewrite (touches_files _ _ _ _ (configurePath_user homeDir installPath rootMode euid w
                                    Hroot)).
  fold B Pu.
  destruct (ensureNode_unrefused B (refusedAt (faults w) Pu) (files w !! Pu))
    as [Hdone Hnew].
  { intros c. rewrite <- faulty_refusedAt. apply Hfree. }
  { exact Hfile. }
  split; [|split].
  - destruct (ensureNode_done B _ true _ Hdone) as (perm & content & Hn & Hhas).
    exists perm, content. split; [|exact Hhas].
    rewrite after_self. unfold ensured. rewrite Hparent. exact Hn.
  - intros Hnone. rewrite after_self. unfold ensured. rewrite Hparent.
    apply Hnew, Hnone.
  - intros q Hq. apply after_other, Hq.
Qed.

(** X16.  System-wide configuration succeeds whenever nothing stands in
    its way: running as root with [--root], with [/etc/profile.d] there
    as a directory, no call on it or on its [go.sh] refused and [go.sh]
    not a directory, the PATH stage leaves a [go.sh] that contains the bin
    path and changes no other path: the user's own profile is not
    touched. *)
Theorem system_configuration_exports_bin_path (rootMode : bool) (euid : Z) (w : world)
  (dirPerm : Z) :
  let B := Filepath.Join [installPath; "bin"] in
  let Ps := Filepath.Join [systemProfileDDirextory; systemGoProfileFilename] in
  let configured := (configurePath rootMode euid homeDir installPath w).2 in
  asRoot rootMode euid = true ->
  files w !! systemProfileDDirextory = Some (Dir dirPerm) ->
  faulty w SStat systemProfileDDirextory = false ->
  (forall c, faulty w c Ps = false) ->
  (forall perm, files w !! Ps <> Some (Dir perm)) ->
  holdsBinPath B Ps configured
  /\ (files w !! Ps = None ->
      files configured !! Ps = Some (File 438 (exportLineFor B ++ nl)))
  /\ (forall q, q <> Ps -> files configured !! q = files w !! q).
Proof.
  cbv zeta. intros Hroot Hdir Hstat Hfree Hfile.
  set (B := Filepath.Join [installPath; "bin"]) in *.
  set (Ps := Filepath.Join [systemProfileDDirextory; systemGoProfileFilename]) in *.
  unfold holdsBinPath, configurePath. rewrite Hroot.
  destruct (configureSystemPath_disk homeDir installPath w) as [_ ->].
  fold B. unfold sysDisk. fold Ps.
  rewrite <- faulty_refusedAt, Hstat. unfold present. rewrite Hdir. cbn [negb orb].
  assert (parentIsDir (files w) Ps = true) as Hparent.
  { unfold parentIsDir.
    change (last (Filepath.ancestors Ps)) with (Some systemProfileDDirextory).
    cbv iota beta. rewrite Hdir. reflexivity. }
  destruct (ensureNode_unrefused B (refusedAt (faults w) Ps) (files w !! Ps))
    as [Hdone Hnew].
  { intros c. rewrite <- faulty_refusedAt. apply Hfree. }
  { exact Hfile. }
  unfold ensured. rewrite Hparent, Hdone.
  destruct (ensureNode_done B _ true _ Hdone) as (perm & content & Hn & Hhas).
  rewrite Hn. cbn [writeBack fst].
  split; [|split].
  - exists perm, content. split; [apply lookup_insert_eq|exact Hhas].
  - intros Hnone. rewrite lookup_insert_eq, <- Hn. apply Hnew, Hnone.
  - intros q Hq. apply lookup_insert_ne. congruence.
Qed.

End ConfigureSuccess.

(* ================================================================== *)
(** * Further properties: sizes and the download *)
(* ================================================================== *)

Section FormatBytes.

Context `{Rendering}.

Open Scope Z_scope.

Lemma wrapInt64_id (z : Z) : - 2 ^ 63 <= z < 2 ^ 63 -> wrapInt64 z = z.
Proof.
  intros Hz. unfold wrapInt64. rewrite Z.mod_small; lia.
Qed.

Lemma wrapInt64_range (z : Z) : - 2 ^ 63 <= wrapInt64 z < 2 ^ 63.
Proof.
  unfold wrapInt64.
  pose proof (Z.mod_pos_bound (z + 2 ^ 63) (2 ^ 64) ltac:(lia)). lia.
Qed.

Lemma unitLoop_spec (bytes : Z) (fuel : nat) (n div : Z) (exp : nat) :
  bytes < 2 ^ 63 ->
  1 <= n < 1024 ^ (Z.of_nat fuel + 1) ->
  div = 1024 ^ (Z.of_nat exp + 1) ->
  div * n <= bytes < div * (n + 1) ->
  exists exp' : nat,
    unitLoop fuel n div exp = Some (1024 ^ (Z.of_nat exp' + 1), exp')
    /\ 1024 ^ (Z.of_nat exp' + 1) <= bytes < 1024 ^ (Z.of_nat exp' + 2).
Proof.
  intros Hbytes. revert n div exp.
  induction fuel as [|fuel IH]; intros n div exp Hn Hdiv Hb;
    assert (0 < div) as Hpos by (subst div; apply Z.pow_pos_nonneg; lia);
    cbn [unitLoop]; destruct (Z.leb_spec 1024 n) as [Hge|Hlt].
  - change (1024 ^ (Z.of_nat 0 + 1)) with 1024 in Hn. lia.
  - exists exp. subst div. split; [reflexivity|].
    replace (Z.of_nat exp + 2) with (Z.succ (Z.of_nat exp + 1)) by lia.
    rewrite Z.pow_succ_r by lia. nia.
  - assert (Z.quot n 1024 = n / 1024) as -> by (apply Z.quot_div_nonneg; lia).
    pose proof (Z.div_mod n 1024 ltac:(lia)) as Hdm.
    pose proof (Z.mod_pos_bound n 1024 ltac:(lia)) as Hmod.
    assert (div * 1024 <= bytes) as Hfit by nia.
    rewrite wrapInt64_id by lia.
    destruct (IH (n / 1024) (div * 1024) (S exp)) as (exp' & Hrun & Hres).
    + split; [lia|].
      apply Z.div_lt_upper_bound; [lia|].
      replace (Z.of_nat (S fuel) + 1) with (Z.succ (Z.of_nat fuel + 1)) in Hn by lia.
      rewrite Z.pow_succ_r in Hn by lia. lia.
    + subst div. replace (Z.of_nat (S exp) + 1) with (Z.succ (Z.of_nat exp + 1)) by lia.
      rewrite Z.pow_succ_r by lia. lia.
    + nia.
    + exists exp'. split; assumption.
  - exists exp. subst div. split; [reflexivity|].
    replace (Z.of_nat exp + 2) with (Z.succ (Z.of_nat exp + 1)) by lia.
    rewrite Z.pow_succ_r by lia. nia.
Qed.

(** The loop of [formatBytes] on an [int64] of 1024 or more: it ends
    within the passes granted, on the largest power of 1024 not above
    the value, after at most five passes. *)
Lemma unitLoop_int64 (bytes : Z) :
  1024 <= bytes < 2 ^ 63 ->
  exists exp : nat,
    unitLoop 64 (Z.quot bytes 1024) 1024 0 = Some (1024 ^ (Z.of_nat exp + 1), exp)
    /\ 1024 ^ (Z.of_nat exp + 1) <= bytes < 1024 ^ (Z.of_nat exp + 2)
    /\ (exp <= 5)%nat.
Proof.
  intros Hrange.
  assert (Z.quot bytes 1024 = bytes / 1024) as Hq by (apply Z.quot_div_nonneg; lia).
  pose proof (Z.div_mod bytes 1024 ltac:(lia)) as Hdm.
  pose proof (Z.mod_pos_bound bytes 1024 ltac:(lia)) as Hmod.
  destruct (unitLoop_spec bytes 64 (Z.quot bytes 1024) 1024 0) as (exp & Hrun & Hres).
  - lia.
  - rewrite Hq. split; [lia|].
    apply Z.div_lt_upper_bound; [lia|].
    change (1024 ^ (Z.of_nat 64 + 1)) with (2 ^ 650).
    assert (2 ^ 63 < 2 ^ 650) by (apply Z.pow_lt_mono_r; lia). lia.
  - reflexivity.
  - rewrite Hq. lia.
  - exists exp. split; [exact Hrun|]. split; [exact Hres|].
    destruct (le_lt_dec exp 5) as [Hle|Hgt]; [exact Hle|exfalso].
    assert (1024 ^ 7 <= 1024 ^ (Z.of_nat exp + 1)) by (apply Z.pow_le_mono_r; lia).
    change (1024 ^ 7) with (2 ^ 70) in *.
    assert (2 ^ 63 < 2 ^ 70) by (apply Z.pow_lt_mono_r; lia). lia.
Qed.

Lemma unit_letter (exp : nat) :
  (exp <= 5)%nat -> exists unit, String.get exp "KMGTPE" = Some unit.
Proof.
  intros Hexp. do 6 (destruct exp as [|exp]; [eexists; reflexivity|]). lia.
Qed.

Lemma formatBytes_returns (bytes : Z) :
  - 2 ^ 63 <= bytes < 2 ^ 63 -> exists text, formatBytes bytes = Returns text.
Proof.
  intros Hrange. unfold formatBytes.
  destruct (Z.ltb_spec bytes 1024) as [Hlt|Hge]; [eexists; reflexivity|].
  destruct (unitLoop_int64 bytes) as (exp & -> & _ & Hexp); [lia|].
  destruct (unit_letter exp Hexp) as [unit ->]. eexists. reflexivity.
Qed.

(** X17.  [formatBytes] returns for every [int64], without a panic of
    its index into "KMGTPE" and without an overflow of its divisor.  A
    value below 1024, negative ones included, is printed in decimal with
    the unit B; any other value is handed to the [%.1f] rendering with
    the largest power of 1024 not above it as the divisor, and the unit
    letter is the one for that power, up to E.  The quotient of the value
    by that power is at least 1 and below 1024; how [%.1f] shows it is
    the library's matter (it rounds, so a quotient just below 1024 reads
    1024.0) and is not stated here. *)
Theorem formatBytes_picks_unit (bytes : Z) :
  - 2 ^ 63 <= bytes < 2 ^ 63 ->
  (bytes < 1024 -> formatBytes bytes = Returns (pretty bytes ++ " B")%string)
  /\ (1024 <= bytes ->
      exists (exp : nat) (unit : ascii),
        (exp <= 5)%nat
        /\ String.get exp "KMGTPE" = Some unit
        /\ 1024 ^ (Z.of_nat exp + 1) <= bytes < 1024 ^ (Z.of_nat exp + 2)
        /\ 1 <= bytes / 1024 ^ (Z.of_nat exp + 1) < 1024
        /\ formatBytes bytes
           = Returns (quotient1 bytes (1024 ^ (Z.of_nat exp + 1)) ++ " "
                      ++ String unit "iB")%string).
Proof.
  intros Hrange. unfold formatBytes. split.
  - intros Hlt. destruct (Z.ltb_spec bytes 1024); [reflexivity|lia].
  - intros Hge. destruct (Z.ltb_spec bytes 1024); [lia|].
    destruct (unitLoop_int64 bytes) as (exp & Hrun & Hbounds & Hexp); [lia|].
    destruct (unit_letter exp Hexp) as [unit Hunit].
    rewrite Hrun, Hunit. exists exp, unit.
    split; [exact Hexp|]. split; [exact Hunit|]. split; [exact Hbounds|].
    split; [|reflexivity].
    assert (0 < 1024 ^ (Z.of_nat exp + 1)) as Hpos by (apply Z.pow_pos_nonneg; lia).
    replace (Z.of_nat exp + 2) with (Z.succ (Z.of_nat exp + 1)) in Hbounds by lia.
    rewrite Z.pow_succ_r in Hbounds by lia.
    split.
    + apply Z.div_le_lower_bound; [exact Hpos|lia].
    + apply Z.div_lt_upper_bound; [exact Hpos|lia].
Qed.

End FormatBytes.

Section Download.

Context `{Rendering}.

Lemma onlyPrints_refl (w : world) : onlyPrints w w.
Proof. repeat split. Qed.

Lemma onlyPrints_emit (s : stream) (text : string) (w : world) :
  onlyPrints w (emit s text w).
Proof. repeat split. Qed.

Lemma printProgress_returns (pb : progressBarWriter) (t : timer) :
  (- 2 ^ 63 <= downloaded pb < 2 ^ 63)%Z ->
  (Total pb < 2 ^ 63)%Z ->
  exists text, (printProgress pb t).1 = Returns text /\ HasPrefix text cr = true.
Proof.
  intros Hd Ht. unfold printProgress.
  destruct (formatBytes_returns (downloaded pb) Hd) as [size Hsize].
  destruct (Z.leb_spec (Total pb) 0) as [Hle|Hgt]; cbn [fst].
  - rewrite Hsize. eexists. split; [reflexivity|]. apply HasPrefix_app.
  - destruct (Since (Some (start pb)) t) as [elapsed t']. cbn [fst].
    destruct (formatBytes_returns (Total pb)) as [total Htotal]; [lia|].
    destruct (formatBytes_returns (wrapInt64 (speedOf (downloaded pb) elapsed))
                (wrapInt64_range _)) as [speed Hspeed].
    rewrite Hsize, Htotal, Hspeed. eexists. split; [reflexivity|]. apply HasPrefix_app.
Qed.

(** One call of the progress writer, as far as the copy is concerned. *)
Lemma Write_run (pb : progressBarWriter) (t : timer) (p : string) (w : world) :
  (Total pb < 2 ^ 63)%Z ->
  exists pb' t' w',
    Write pb t p w = (Returns (Z.of_nat (String.length p), None), pb', t', w')
    /\ Total pb' = Total pb
    /\ downloaded pb' = wrapInt64 (downloaded pb + Z.of_nat (String.length p))
    /\ start pb' = start pb
    /\ onlyPrints w w'.
Proof.
  intros Ht. unfold Write.
  cbn [Total downloaded lastPrint start].
  destruct (Since (lastPrint pb) t) as [sinceLast t1].
  match goal with |- context [if ?b then _ else _] => destruct b end.
  - destruct (printProgress_returns
                {| Total := Total pb;
                   downloaded := wrapInt64 (downloaded pb + Z.of_nat (String.length p));
                   start := start pb; lastPrint := lastPrint pb |} t1
                (wrapInt64_range _) Ht) as (text & Htext & _).
    destruct (printProgress _ t1) as [r t2]. cbn [fst] in Htext. subst r.
    destruct (Now t2) as [now t3].
    eexists _, _, _. split; [reflexivity|]. repeat split.
  - eexists _, _, _. split; [reflexivity|]. repeat split.
Qed.

Lemma copyBody_run (out : string) (body : list packet) (pb : progressBarWriter)
  (t : timer) (w : world) (perm : Z) (content : string) :
  (Total pb < 2 ^ 63)%Z ->
  faulty w SWrite out = false ->
  files w !! out = Some (File perm content) ->
  exists w',
    copyBody out body pb t w = (Returns (verdict body), w')
    /\ files w' !! out = Some (File perm (content ++ received body))
    /\ (forall q, q <> out -> files w' !! q = files w !! q)
    /\ faults w' = faults w
    /\ requests w' = requests w.
Proof.
  revert pb t w content.
  induction body as [|[data|err] body IH]; intros pb t w content Ht Hf Hfile.
  - exists w. cbn [copyBody received verdict]. rewrite string_app_nil_r.
    repeat split; assumption.
  - cbn [copyBody received verdict].
    destruct (String.eqb_spec data "") as [->|Hdata].
    + change ("" ++ received body) with (received body). apply IH; assumption.
    + destruct (Write_run pb t data w Ht)
        as (pb' & t' & w1 & Hrun & HT & _ & _ & Hfiles & Hfaults & Hjournal & Hreq).
      rewrite Hrun. rewrite WriteString_run.
      unfold faulty in *. rewrite Hfaults, Hf, Hfiles, Hfile.
      destruct (IH pb' t'
                  (setFiles (<[out := File perm (content ++ data)]> (files w1))
                     (logCall SWrite out w1)) (content ++ data))
        as (w' & Hcopy & Hout & Hother & Hfaults' & Hreq').
      * rewrite HT. exact Ht.
      * cbn [faults setFiles logCall]. rewrite Hfaults. exact Hf.
      * cbn [files setFiles]. rewrite Hfiles. apply lookup_insert_eq.
      * exists w'. rewrite Hfiles in Hcopy. split; [exact Hcopy|].
        split; [rewrite Hout, string_app_assoc; reflexivity|].
        split; [|split].
        -- intros q Hq. rewrite (Hother q Hq). cbn [files setFiles].
           rewrite Hfiles. apply lookup_insert_ne. congruence.
        -- rewrite Hfaults'. exact Hfaults.
        -- rewrite Hreq'. exact Hreq.
  - exists w. cbn [copyBody received verdict]. rewrite string_app_nil_r.
    repeat split; assumption.
Qed.

(** X18.  When the destination can be created and no write to it is
    refused, [downloadFile] stores at the destination exactly the bytes
    the body delivered, in their order, in place of anything the file
    held: the whole body when it ends well (the result is then nil), the
    bytes before the failing read otherwise (the result is that read's
    error).  It makes one request, changes no other path and does not
    panic, whatever the clock and the content length say. *)
Theorem download_stores_received_bytes (t : timer) (contentLength : Z)
  (body : list packet) (url filepath out : string) (w : world) :
  (Create filepath w).1 = Ok out ->
  faulty w SWrite filepath = false ->
  (contentLength < 2 ^ 63)%Z ->
  let r := downloadFile t (Answer 200 contentLength body) url filepath w in
  r.1 = Returns (verdict body)
  /\ (exists perm, files r.2 !! filepath = Some (File perm (received body)))
  /\ (forall q, q <> filepath -> files r.2 !! q = files w !! q)
  /\ requests r.2 = (requests w ++ [url])%list.
Proof.
  intros Hcreate Hwrite Hlen. cbv zeta. unfold downloadFile.
  rewrite Create_run in Hcreate |- *.
  destruct (faulty w SOpenFile filepath); [discriminate|].
  assert (exists perm w1,
             match files w !! filepath with
             | Some (Dir _) =>
                 (@Err string (PathError "open" filepath EISDIR), logCall SOpenFile filepath w)
             | Some (File p _) =>
                 (Ok filepath,
                  setFiles (<[filepath := File p ""]> (files w)) (logCall SOpenFile filepath w))
             | None =>
                 if parentIsDir (files w) filepath
                 then (Ok filepath,
                       setFiles (<[filepath := File 438 ""]> (files w))
                         (logCall SOpenFile filepath w))
                 else (Err (PathError "open" filepath ENOENT), logCall SOpenFile filepath w)
             end = (Ok filepath, w1)
             /\ files w1 = <[filepath := File perm ""]> (files w)
             /\ faults w1 = faults w /\ requests w1 = requests w)
    as (perm & w1 & -> & Hfiles1 & Hfaults1 & Hreq1).
  { destruct (files w !! filepath) as [[p|p old]|]; [discriminate| |].
    - eexists _, _. repeat split.
    - destruct (parentIsDir (files w) filepath); [|discriminate].
      eexists _, _. repeat split. }
  cbn [negb Z.eqb Pos.eqb].
  set (w2 := if (contentLength <=? 0)%Z then _ else _).
  assert (files w2 = files w1 /\ faults w2 = faults w1
          /\ requests w2 = (requests w1 ++ [url])%list) as (Hfiles2 & Hfaults2 & Hreq2).
  { unfold w2. destruct (contentLength <=? 0)%Z; repeat split. }
  destruct (Now t) as [now t1].
  destruct (copyBody_run filepath body
              {| Total := contentLength; downloaded := 0; start := now; lastPrint := None |}
              t1 w2 perm "")
    as (w3 & Hcopy & Hout & Hother & Hfaults3 & Hreq3).
  - exact Hlen.
  - unfold faulty in *. rewrite Hfaults2, Hfaults1. exact Hwrite.
  - rewrite Hfiles2, Hfiles1. apply lookup_insert_eq.
  - rewrite Hcopy. cbn [fst snd files requests emit].
    split; [reflexivity|]. split; [exists perm; exact Hout|]. split.
    + intros q Hq. rewrite (Hother q Hq), Hfiles2, Hfiles1.
      apply lookup_insert_ne. congruence.
    + rewrite Hreq3, Hreq2, Hreq1. reflexivity.
Qed.

(** X19.  The destination is opened before the request is made.  When
    it cannot be opened, no request is made and the file tree is as it
    was.  When it can, and the request fails or is answered with a status
    other than 200, the error is returned and an empty file is left at
    the destination: what a file there held is lost. *)
Theorem download_opens_destination_first (t : timer) (resp : download)
  (url filepath : string) (w : world) :
  let r := downloadFile t resp url filepath w in
  (forall err,
     (Create filepath w).1 = Err err ->
     r.1 = Returns (Some err) /\ requests r.2 = requests w /\ files r.2 = files w)
  /\ (forall out,
        (Create filepath w).1 = Ok out ->
        (exists err, resp = Refused err)
        \/ (exists status contentLength body,
              resp = Answer status contentLength body /\ status <> 200%Z) ->
        (exists err, r.1 = Returns (Some err))
        /\ (exists perm, files r.2 !! filepath = Some (File perm ""))
        /\ requests r.2 = (requests w ++ [url])%list
        /\ console r.2 = console w).
Proof.
  cbv zeta. unfold downloadFile. rewrite Create_run.
  destruct (faulty w SOpenFile filepath).
  { split; [intros err [= <-]; repeat split|intros out [=]]. }
  destruct (files w !! filepath) as [[p|p old]|].
  - split; [intros err [= <-]; repeat split|intros out [=]].
  - split; [intros err [=]|]. intros out _ Hresp. cbn [fst snd].
    destruct Hresp as [[err ->]|(status & len & body & -> & Hstatus)].
    + split; [eexists; reflexivity|]. split; [|split; reflexivity].
      exists p. cbn [fst snd files setFiles logRequest]. apply lookup_insert_eq.
    + destruct (Z.eqb_spec status 200); [contradiction|]. cbn [negb fst snd].
      split; [eexists; reflexivity|]. split; [|split; reflexivity].
      exists p. cbn [fst snd files setFiles logRequest]. apply lookup_insert_eq.
  - destruct (parentIsDir (files w) filepath).
    + split; [intros err [=]|]. intros out _ Hresp. cbn [fst snd].
      destruct Hresp as [[err ->]|(status & len & body & -> & Hstatus)].
      * split; [eexists; reflexivity|]. split; [|split; reflexivity].
        exists 438%Z. cbn [fst snd files setFiles logRequest]. apply lookup_insert_eq.
      * destruct (Z.eqb_spec status 200); [contradiction|]. cbn [negb fst snd].
        split; [eexists; reflexivity|]. split; [|split; reflexivity].
        exists 438%Z. cbn [fst snd files setFiles logRequest]. apply lookup_insert_eq.
    + split; [intros err [= <-]; repeat split|intros out [=]].
Qed.

End Download.

Section ProgressWriter.

Context `{Rendering}.

(** X20.  The progress writer never fails and never reports a short
    write, so the copy cannot end on its account; each call adds the
    length of the chunk to the byte count (an [int64]) and touches nothing
    but the console.  It prints a line, starting with a carriage return,
    on its first call and whenever the count reaches the announced total,
    whatever the clock says; otherwise it prints nothing until more than
    100 ms have passed since the last line. *)
Theorem progress_writer_counts_and_throttles (pb : progressBarWriter) (t : timer)
  (p : string) (w : world) :
  (Total pb < 2 ^ 63)%Z ->
  exists pb' t' w',
    Write pb t p w = (Returns (Z.of_nat (String.length p), None), pb', t', w')
    /\ downloaded pb' = wrapInt64 (downloaded pb + Z.of_nat (String.length p))
    /\ Total pb' = Total pb
    /\ onlyPrints w w'
    /\ (lastPrint pb = None \/ downloaded pb' = Total pb ->
        exists text now,
          console w' = (console w ++ [(Stdout, text)])%list
          /\ HasPrefix text cr = true /\ lastPrint pb' = Some now)
    /\ (forall last,
          lastPrint pb = Some last ->
          (readings t (taken t) - last <= 100000000)%Z ->
          downloaded pb' <> Total pb ->
          console w' = console w /\ lastPrint pb' = Some last).
Proof.
  intros Ht. unfold Write. cbn [Total downloaded lastPrint start].
  set (count := wrapInt64 (downloaded pb + Z.of_nat (String.length p))).
  unfold Since at 1. unfold Now at 1. cbn [readings taken].
  set (t1 := {| readings := readings t; taken := S (taken t) |}).
  set (sinceLast := match lastPrint pb with
                    | Some before => (readings t (taken t) - before)%Z
                    | None => (2 ^ 63 - 1)%Z
                    end).
  destruct (printProgress_returns
              {| Total := Total pb; downloaded := count; start := start pb;
                 lastPrint := lastPrint pb |} t1 (wrapInt64_range _) Ht)
    as (text & Htext & Hcr).
  destruct ((100000000 <? sinceLast)%Z || (count =? Total pb)%Z) eqn:Hprint.
  - destruct (printProgress _ t1) as [r t2]. cbn [fst] in Htext. subst r.
    destruct (Now t2) as [now t3].
    eexists _, _, _. split; [reflexivity|]. cbn [Total downloaded lastPrint].
    split; [reflexivity|]. split; [reflexivity|]. split; [repeat split|]. split.
    + intros _. exists text, now. repeat split. exact Hcr.
    + intros last Hlast Hrecent Hcount. exfalso.
      apply orb_true_iff in Hprint as [Hlate|Heq].
      * unfold sinceLast in Hlate. rewrite Hlast in Hlate.
        apply Z.ltb_lt in Hlate. lia.
      * apply Z.eqb_eq in Heq. contradiction.
  - apply orb_false_iff in Hprint as [Hlate Hne].
    eexists _, _, _. split; [reflexivity|]. cbn [Total downloaded lastPrint].
    split; [reflexivity|]. split; [reflexivity|]. split; [repeat split|]. split.
    + intros [Hfirst|Hdone]; exfalso.
      * unfold sinceLast in Hlate. rewrite Hfirst in Hlate. discriminate Hlate.
      * apply Z.eqb_neq in Hne. contradiction.
    + intros last Hlast _ _. split; [reflexivity|exact Hlast].
Qed.

End ProgressWriter.

(* ================================================================== *)
(** * Further properties: the paths of [main] agree *)
(* ================================================================== *)

Section CleanTwice.

#[local] Arguments String.append !s1 s2 / : simpl nomatch.

Lemma ordinary_plain (e : string) : ordinary e -> plain e.
Proof. intros (H1 & H2 & H3 & _). repeat split; assumption. Qed.

Lemma cleanStep_plain (r : bool) (kept : list string) (e : string) :
  plain e -> Filepath.cleanStep r kept e = e :: kept.
Proof.
  intros (H1 & H2 & H3). unfold Filepath.cleanStep.
  destruct (String.eqb_spec e ""); [contradiction|].
  destruct (String.eqb_spec e "."); [contradiction|].
  destruct (String.eqb_spec e ".."); [contradiction|reflexivity].
Qed.

Lemma cleanStep_stackOk (r : bool) (kept : list string) (e : string) :
  stackOk r kept -> stackOk r (Filepath.cleanStep r kept e).
Proof.
  intros (names & dots & -> & Hnames & Hdots & Hr). unfold Filepath.cleanStep.
  destruct (String.eqb_spec e "") as [|Hne]; [exists names, dots; auto|].
  destruct (String.eqb_spec e ".") as [|Hnd]; [exists names, dots; auto|]. cbn [orb].
  destruct (String.eqb_spec e "..") as [->|Hndd].
  - destruct names as [|top names]; cbn [app].
    + destruct dots as [|top dots].
      * destruct r.
        -- exists [], []. repeat split; auto.
        -- exists [], [".."]. repeat split; auto. discriminate.
      * inversion Hdots as [|? ? Htop Hrest]; subst.
        cbn [String.eqb Ascii.eqb Bool.eqb]. 
        exists [], (".." :: ".." :: dots). repeat split; auto.
        intros Hroot. specialize (Hr Hroot). discriminate Hr.
    + inversion Hnames as [|? ? Htop Hrest]; subst.
      destruct (String.eqb_spec top "..") as [->|_].
      * destruct Htop as (_ & _ & Hdd). contradiction.
      * exists names, dots. repeat split; auto.
  - exists (e :: names), dots. repeat split; auto.
    constructor; [repeat split; assumption|exact Hnames].
Qed.

Lemma fold_stackOk (r : bool) (elems kept : list string) :
  stackOk r kept -> stackOk r (fold_left (Filepath.cleanStep r) elems kept).
Proof.
  revert kept. induction elems as [|e elems IH]; intros kept Hk; [exact Hk|].
  cbn [fold_left]. apply IH, cleanStep_stackOk, Hk.
Qed.

Lemma stackOk_nil (r : bool) : stackOk r [].
Proof. exists [], []. repeat split; auto. Qed.

(** Cleaning the kept elements again keeps all of them. *)
Lemma replay_names (r : bool) (names under : list string) :
  Forall plain names ->
  fold_left (Filepath.cleanStep r) (rev names) under = (names ++ under)%list.
Proof.
  induction names as [|e names IH]; intros Hall; [reflexivity|].
  inversion Hall as [|? ? He Hrest]; subst.
  cbn [rev]. rewrite fold_left_app, IH by exact Hrest. cbn [fold_left].
  apply cleanStep_plain, He.
Qed.

Lemma replay_dots (dots : list string) :
  Forall (fun e => e = "..") dots ->
  fold_left (Filepath.cleanStep false) (rev dots) [] = dots.
Proof.
  induction dots as [|e dots IH]; intros Hall; [reflexivity|].
  inversion Hall as [|? ? He Hrest]; subst.
  cbn [rev]. rewrite fold_left_app, IH by exact Hrest. cbn [fold_left].
  destruct dots as [|top dots]; [reflexivity|].
  inversion Hrest; subst. reflexivity.
Qed.

Lemma replay (r : bool) (kept : list string) :
  stackOk r kept -> fold_left (Filepath.cleanStep r) (rev kept) [] = kept.
Proof.
  intros (names & dots & -> & Hnames & Hdots & Hr).
  rewrite rev_app_distr, fold_left_app.
  destruct r.
  - rewrite (Hr eq_refl). cbn [rev fold_left]. apply replay_names, Hnames.
  - rewrite replay_dots by exact Hdots. apply replay_names, Hnames.
Qed.

Lemma cleanStep_sepfree (r : bool) (kept : list string) (e : string) :
  Forall (fun x => CountByte x Filepath.Separator = 0) kept ->
  CountByte e Filepath.Separator = 0 ->
  Forall (fun x => CountByte x Filepath.Separator = 0) (Filepath.cleanStep r kept e).
Proof.
  intros Hk He. unfold Filepath.cleanStep.
  destruct (_ || _); [exact Hk|].
  destruct (String.eqb e "..").
  - destruct kept as [|top below]; [destruct r; repeat constructor; exact He|].
    inversion Hk; subst.
    destruct (String.eqb top ".."); [constructor; assumption|assumption].
  - constructor; assumption.
Qed.

Lemma fold_sepfree (r : bool) (elems kept : list string) :
  Forall (fun x => CountByte x Filepath.Separator = 0) elems ->
  Forall (fun x => CountByte x Filepath.Separator = 0) kept ->
  Forall (fun x => CountByte x Filepath.Separator = 0)
    (fold_left (Filepath.cleanStep r) elems kept).
Proof.
  revert kept. induction elems as [|e elems IH]; intros kept He Hk; [exact Hk|].
  inversion He; subst. cbn [fold_left]. apply IH; [assumption|].
  apply cleanStep_sepfree; assumption.
Qed.

Lemma stackOk_nonempty (r : bool) (kept : list string) :
  stackOk r kept -> Forall (fun e => e <> "") kept.
Proof.
  intros (names & dots & -> & Hnames & Hdots & _). apply Forall_app. split.
  - eapply Forall_impl; [exact Hnames|]. intros e (He & _). exact He.
  - eapply Forall_impl; [exact Hdots|]. intros e ->. discriminate.
Qed.

Lemma keptOf_stackOk (path : string) : stackOk (HasPrefix path "/") (keptOf path).
Proof. apply fold_stackOk, stackOk_nil. Qed.

Lemma keptOf_sepfree (path : string) :
  Forall (fun x => CountByte x Filepath.Separator = 0) (keptOf path).
Proof. apply fold_sepfree; [apply SplitByte_sepfree|constructor]. Qed.

Lemma Join_snoc (l : list string) (e sep : string) :
  l <> [] -> Strings.Join (l ++ [e]) sep = Strings.Join l sep ++ sep ++ e.
Proof.
  induction l as [|a l IH]; [contradiction|]. intros _.
  destruct l as [|b l]; [reflexivity|].
  change (Strings.Join ((a :: b :: l) ++ [e]) sep)
    with (a ++ sep ++ Strings.Join ((b :: l) ++ [e]) sep).
  rewrite IH by discriminate.
  change (Strings.Join (a :: b :: l) sep) with (a ++ sep ++ Strings.Join (b :: l) sep).
  rewrite !string_app_assoc. reflexivity.
Qed.

Lemma HasPrefix_sep_app (a b : string) :
  a <> "" -> HasPrefix (a ++ b) "/" = HasPrefix a "/".
Proof. destruct a as [|c a]; [contradiction|]. intros _. reflexivity. Qed.

Lemma Join_head_not_sep (l : list string) :
  l <> [] ->
  Forall (fun x => CountByte x Filepath.Separator = 0) l ->
  Forall (fun e => e <> "") l ->
  HasPrefix (Strings.Join l "/") "/" = false.
Proof.
  destruct l as [|e l]; [contradiction|]. intros _ Hsep Hne.
  inversion Hsep as [|? ? He _]; inversion Hne as [|? ? Hn _]; subst.
  destruct e as [|c e]; [contradiction|].
  simpl in He. destruct (Ascii.eqb_spec c Filepath.Separator) as [|Hc]; [discriminate|].
  assert (forall rest, HasPrefix (String c rest) "/" = false) as Hhead.
  { intros rest. cbn [HasPrefix].
    destruct (Ascii.eqb_spec "/"%char c) as [Heq|]; [|reflexivity].
    exfalso. apply Hc. symmetry. exact Heq. }
  destruct l as [|b l]; [apply Hhead|].
  change (Strings.Join (String c e :: b :: l) "/")
    with (String c (e ++ "/" ++ Strings.Join (b :: l) "/")).
  apply Hhead.
Qed.

Lemma keptOf_push (x e : string) :
  x <> "" -> ordinary e ->
  HasPrefix (x ++ "/" ++ e) "/" = HasPrefix x "/"
  /\ keptOf (x ++ "/" ++ e) = e :: keptOf x.
Proof.
  intros Hx He. split; [apply HasPrefix_sep_app, Hx|].
  unfold keptOf. rewrite HasPrefix_sep_app by exact Hx.
  change (x ++ "/" ++ e) with (x ++ String Filepath.Separator e).
  rewrite SplitByte_app, fold_left_app.
  rewrite (SplitByte_single e) by (destruct He as (_ & _ & _ & Hs); exact Hs).
  cbn [fold_left]. apply cleanStep_plain, ordinary_plain, He.
Qed.

(** A cleaned path in terms of the elements kept. *)
Lemma Clean_keptOf (path : string) :
  keptOf path <> [] ->
  Filepath.Clean path
  = (if HasPrefix path "/" then "/" else "") ++ Strings.Join (rev (keptOf path)) "/".
Proof.
  intros Hk. unfold Filepath.Clean. fold (keptOf path).
  destruct (HasPrefix path "/"); [reflexivity|].
  destruct (String.eqb_spec (Strings.Join (rev (keptOf path)) "/") "") as [He|_];
    [|reflexivity].
  exfalso.
  pose proof (Join_head_not_sep (rev (keptOf path))) as Hh.
  destruct (keptOf path) as [|top below] eqn:Ek; [contradiction|].
  pose proof (stackOk_nonempty _ _ (keptOf_stackOk path)) as Hne.
  rewrite Ek in Hne. apply Forall_rev in Hne.
  cbn [rev] in He, Hne.
  destruct (rev below) as [|a l].
  - cbn in He. inversion Hne; subst. contradiction.
  - cbn [app Strings.Join] in He. inversion Hne as [|? ? Ha _]; subst.
    destruct a; [contradiction|].
    destruct (l ++ [top])%list; simpl in He; discriminate He.
Qed.

Lemma keptOf_Clean (path : string) :
  keptOf path <> [] ->
  HasPrefix (Filepath.Clean path) "/" = HasPrefix path "/"
  /\ keptOf (Filepath.Clean path) = keptOf path.
Proof.
  intros Hk. rewrite (Clean_keptOf path Hk).
  pose proof (keptOf_stackOk path) as Hok.
  pose proof (keptOf_sepfree path) as Hsep.
  assert (rev (keptOf path) <> []) as Hrev.
  { intros Hr. apply Hk. rewrite <- (rev_involutive (keptOf path)), Hr. reflexivity. }
  assert (HasPrefix (Strings.Join (rev (keptOf path)) "/") "/" = false) as Hhead.
  { apply Join_head_not_sep; [exact Hrev|apply Forall_rev, Hsep|].
    apply Forall_rev, (stackOk_nonempty _ _ Hok). }
  assert (SplitByte (Strings.Join (rev (keptOf path)) "/") Filepath.Separator
          = rev (keptOf path)) as Hsplit.
  { apply (SplitByte_Join (rev (keptOf path)) Filepath.Separator Hrev).
    apply Forall_rev, Hsep. }
  destruct (HasPrefix path "/") eqn:Hr.
  - split; [reflexivity|]. unfold keptOf at 1.
    change (HasPrefix ("/" ++ Strings.Join (rev (keptOf path)) "/") "/") with true.
    change (SplitByte ("/" ++ Strings.Join (rev (keptOf path)) "/") Filepath.Separator)
      with ("" :: SplitByte (Strings.Join (rev (keptOf path)) "/") Filepath.Separator).
    rewrite Hsplit. cbn [fold_left].
    change (Filepath.cleanStep true [] "") with (@nil string).
    apply replay, Hok.
  - change ("" ++ Strings.Join (rev (keptOf path)) "/")
      with (Strings.Join (rev (keptOf path)) "/").
    split; [exact Hhead|]. unfold keptOf at 1. rewrite Hhead, Hsplit.
    apply replay, Hok.
Qed.

(** A name joined to a cleaned path that ends in a name is appended
    after a separator, and that is also what joining all of them at once
    gives. *)
Lemma Clean_push_twice (x e1 e2 : string) :
  x <> "" -> ordinary e1 -> ordinary e2 ->
  let c := Filepath.Clean (x ++ "/" ++ e1) in
  c <> ""
  /\ Filepath.Clean (c ++ "/" ++ e2) = c ++ "/" ++ e2
  /\ Filepath.Clean (x ++ "/" ++ e1 ++ "/" ++ e2) = c ++ "/" ++ e2.
Proof.
  intros Hx He1 He2. cbv zeta.
  destruct (keptOf_push x e1 Hx He1) as [Hr1 Hk1].
  assert (keptOf (x ++ "/" ++ e1) <> []) as Hne1 by (rewrite Hk1; discriminate).
  destruct (keptOf_Clean (x ++ "/" ++ e1) Hne1) as [Hrc Hkc].
  set (c := Filepath.Clean (x ++ "/" ++ e1)) in *.
  assert (c <> "") as Hc.
  { unfold c. rewrite (Clean_keptOf _ Hne1), Hk1. cbn [rev].
    intros Hempty.
    pose proof (lastByte_Join (rev (keptOf x)) e1 "/") as Hlast.
    destruct e1 as [|a e1]; [destruct He1 as (Hn & _); contradiction|].
    destruct (lastByte (String a e1)) as [b|] eqn:Eb.
    - specialize (Hlast b eq_refl).
      assert (lastByte ((if HasPrefix (x ++ "/" ++ String a e1) "/" then "/" else "")
                        ++ Strings.Join (rev (keptOf x) ++ [String a e1]) "/") = Some b)
        as Hl2.
      { rewrite lastByte_app; [exact Hlast|exact (lastByte_some_nonempty _ _ Hlast)]. }
      rewrite Hempty in Hl2. discriminate Hl2.
    - clear -Eb. revert a Eb. induction e1 as [|b e1 IH]; intros a Eb; [discriminate|].
      apply (IH b). exact Eb. }
  split; [exact Hc|].
  assert (forall y, y <> "" -> keptOf y = e1 :: keptOf x ->
                    Filepath.Clean (y ++ "/" ++ e2)
                    = ((if HasPrefix y "/" then "/" else "")
                       ++ Strings.Join (rev (keptOf x) ++ [e1]) "/") ++ "/" ++ e2) as Hpush.
  { intros y Hy Hky. destruct (keptOf_push y e2 Hy He2) as [Hr2 Hk2].
    rewrite Clean_keptOf by (rewrite Hk2; discriminate).
    rewrite Hr2, Hk2, Hky. cbn [rev].
    rewrite Join_snoc by (destruct (rev (keptOf x)); discriminate).
    rewrite string_app_assoc. reflexivity. }
  assert (c = (if HasPrefix x "/" then "/" else "")
              ++ Strings.Join (rev (keptOf x) ++ [e1]) "/") as Hcval.
  { unfold c. rewrite (Clean_keptOf _ Hne1), Hr1, Hk1. reflexivity. }
  split.
  - rewrite (Hpush c Hc) by (rewrite Hkc; exact Hk1).
    rewrite Hrc, Hr1, <- Hcval. reflexivity.
  - replace (x ++ "/" ++ e1 ++ "/" ++ e2) with ((x ++ "/" ++ e1) ++ "/" ++ e2)
      by (rewrite !string_app_assoc; reflexivity).
    rewrite (Hpush (x ++ "/" ++ e1)); [|destruct x; [contradiction|discriminate]|exact Hk1].
    rewrite Hr1, <- Hcval. reflexivity.
Qed.

End CleanTwice.

Section MainPaths.

Lemma Join_two (a b : string) :
  a <> "" -> Filepath.Join [a; b] = Filepath.Clean (a ++ "/" ++ b).
Proof.
  intros Ha. cbn [Filepath.Join].
  destruct (String.eqb_spec a ""); [contradiction|reflexivity].
Qed.

Lemma ordinary_local : ordinary ".local".
Proof. repeat split; discriminate. Qed.

Lemma ordinary_go : ordinary "go".
Proof. repeat split; discriminate. Qed.

Lemma ordinary_bin : ordinary "bin".
Proof. repeat split; discriminate. Qed.

Lemma userInstallPath_under_local (homeDir : string) :
  Filepath.Join [Filepath.Join [homeDir; ".local"]; "go"]
  = Filepath.Join [homeDir; ".local"; "go"].
Proof.
  destruct (String.eqb_spec homeDir "") as [->|Hh]; [reflexivity|].
  destruct (Clean_push_twice homeDir ".local" "go" Hh ordinary_local ordinary_go)
    as (Hc & Hagain & Honce).
  rewrite (Join_two homeDir ".local" Hh), (Join_two _ "go" Hc), Hagain, <- Honce.
  cbn [Filepath.Join]. destruct (String.eqb_spec homeDir ""); [contradiction|reflexivity].
Qed.

Lemma userInstallPath_bin (homeDir : string) :
  Filepath.Join [Filepath.Join [homeDir; ".local"; "go"]; "bin"]
  = Filepath.Join [homeDir; ".local"; "go"] ++ "/bin".
Proof.
  destruct (String.eqb_spec homeDir "") as [->|Hh]; [reflexivity|].
  assert (homeDir ++ "/" ++ ".local" <> "") as Hx
    by (destruct homeDir; [contradiction|discriminate]).
  destruct (Clean_push_twice (homeDir ++ "/" ++ ".local") "go" "bin" Hx
              ordinary_go ordinary_bin) as (Hc & Hagain & _).
  assert (Filepath.Join [homeDir; ".local"; "go"]
          = Filepath.Clean ((homeDir ++ "/" ++ ".local") ++ "/" ++ "go")) as ->.
  { cbn [Filepath.Join]. destruct (String.eqb_spec homeDir ""); [contradiction|].
    cbn [Strings.Join]. rewrite !string_app_assoc. reflexivity. }
  rewrite (Join_two _ "bin" Hc). exact Hagain.
Qed.

Lemma shown_line (installPath : string) :
  nl ++ "export PATH=" ++ quote ++ installPath ++ "/bin:$PATH" ++ quote ++ nl ++ nl
  = shownExportLine (installPath ++ "/bin").
Proof.
  unfold shownExportLine, exportLineFor.
  change "/bin:$PATH" with ("/bin" ++ ":$PATH").
  rewrite !string_app_assoc. reflexivity.
Qed.

(** X22.  The export line that the manual instruction prints, built as
    the install path followed by "/bin", is the line that configuration
    writes to a profile, built with [filepath.Join]: for the install path
    of either mode the two spellings of the bin directory are the same
    string. *)
Theorem manual_instruction_shows_profile_line (rootMode : bool) (euid : Z)
  (homeDir : string) (w0 w : world) :
  let installPath :=
    (cleanupOldInstall rootMode euid (Filepath.Join [homeDir; ".local"; "go"]) w0).1 in
  let goBinPath := Filepath.Join [installPath; "bin"] in
  goBinPath = installPath ++ "/bin"
  /\ exists before after,
       console (printManualPathInstruction installPath w).2
       = (console w ++ before
          ++ [(Stdout, shownExportLine goBinPath)] ++ after)%list.
Proof.
  cbv zeta. rewrite cleanupOldInstall_path.
  assert (Filepath.Join [if asRoot rootMode euid then "/usr/local/go"
                         else Filepath.Join [homeDir; ".local"; "go"]; "bin"]
          = (if asRoot rootMode euid then "/usr/local/go"
             else Filepath.Join [homeDir; ".local"; "go"]) ++ "/bin") as Hbin.
  { destruct (asRoot rootMode euid); [reflexivity|apply userInstallPath_bin]. }
  split; [exact Hbin|]. rewrite Hbin.
  set (ip := if asRoot rootMode euid then _ else _).
  rewrite <- shown_line.
  eexists [_; _; _], [_; _].
  unfold printManualPathInstruction, Println, Printf, mbind, IO_bind.
  cbn [snd console emit].
  rewrite <- !app_assoc. reflexivity.
Qed.

End MainPaths.

Section EntriesBelow.

#[local] Arguments String.append !s1 s2 / : simpl nomatch.

Lemma Join_app (a b : list string) (sep : string) :
  a <> [] -> b <> [] ->
  Strings.Join (a ++ b) sep = Strings.Join a sep ++ sep ++ Strings.Join b sep.
Proof.
  intros Ha Hb. induction a as [|x a IH]; [contradiction|].
  destruct a as [|y a].
  - destruct b as [|z b]; [contradiction|reflexivity].
  - change (Strings.Join ((x :: y :: a) ++ b) sep)
      with (x ++ sep ++ Strings.Join ((y :: a) ++ b) sep).
    rewrite IH by discriminate.
    change (Strings.Join (x :: y :: a) sep) with (x ++ sep ++ Strings.Join (y :: a) sep).
    rewrite !string_app_assoc. reflexivity.
Qed.

(** The elements kept of a path followed by names. *)
Lemma keptOf_names (x : string) (names : list string) :
  x <> "" -> Forall ordinary names -> names <> [] ->
  HasPrefix (x ++ "/" ++ Strings.Join names "/") "/" = HasPrefix x "/"
  /\ keptOf (x ++ "/" ++ Strings.Join names "/") = (rev names ++ keptOf x)%list.
Proof.
  intros Hx. induction names as [|e names IH] using rev_ind; [contradiction|].
  intros Hall _. apply Forall_app in Hall as [Hnames He].
  inversion He as [|? ? Hord _]; subst.
  destruct names as [|n names].
  - cbn [app Strings.Join rev]. apply keptOf_push; assumption.
  - destruct (IH Hnames) as [Hr Hk]; [discriminate|].
    rewrite Join_snoc by discriminate.
    replace (x ++ "/" ++ Strings.Join (n :: names) "/" ++ "/" ++ e)
      with ((x ++ "/" ++ Strings.Join (n :: names) "/") ++ "/" ++ e)
      by (rewrite !string_app_assoc; reflexivity).
    destruct (keptOf_push (x ++ "/" ++ Strings.Join (n :: names) "/") e) as [Hr' Hk'].
    + destruct x; [contradiction|discriminate].
    + exact Hord.
    + rewrite Hr', Hk', Hr, Hk. rewrite rev_app_distr. split; reflexivity.
Qed.

Lemma cleanForm_Clean (path : string) : keptOf path <> [] -> cleanForm (Filepath.Clean path).
Proof.
  intros Hk. destruct (keptOf_Clean path Hk) as [Hr Hkc].
  assert (Filepath.Clean path <> "") as Hne.
  { unfold Filepath.Clean. destruct (HasPrefix path "/"); [simpl; discriminate|].
    destruct (String.eqb_spec (Strings.Join (rev (fold_left (Filepath.cleanStep false)
                (SplitByte path Filepath.Separator) [])) "/") "") as [|Hb];
      [discriminate|exact Hb]. }
  split; [exact Hne|]. split; [rewrite Hkc; exact Hk|].
  rewrite Hr, Hkc. apply Clean_keptOf, Hk.
Qed.

(** Names joined to a clean path are appended to it, one separator
    before each. *)
Lemma Join_names_below (d : string) (names : list string) :
  cleanForm d -> Forall ordinary names -> names <> [] ->
  Filepath.Join [d; Strings.Join names "/"] = d ++ "/" ++ Strings.Join names "/".
Proof.
  intros (Hd & Hk & Hform) Hall Hne.
  rewrite (Join_two d _ Hd).
  destruct (keptOf_names d names Hd Hall Hne) as [Hr Hkn].
  rewrite Clean_keptOf by (rewrite Hkn; destruct (rev names) eqn:E;
                           [apply (f_equal (@rev string)) in E;
                            rewrite rev_involutive in E; contradiction|discriminate]).
  rewrite Hr, Hkn, rev_app_distr, rev_involutive.
  rewrite Join_app; [|intros E; apply Hk;
                       rewrite <- (rev_involutive (keptOf d)), E; reflexivity|exact Hne].
  rewrite <- string_app_assoc, <- Hform. reflexivity.
Qed.

Lemma cleanForm_usr_local : cleanForm "/usr/local".
Proof. split; [discriminate|]. split; [discriminate|reflexivity]. Qed.

Lemma cleanForm_user_local (homeDir : string) :
  cleanForm (Filepath.Join [homeDir; ".local"]).
Proof.
  destruct (String.eqb_spec homeDir "") as [->|Hh].
  - split; [discriminate|]. split; [discriminate|reflexivity].
  - rewrite (Join_two homeDir ".local" Hh). apply cleanForm_Clean.
    destruct (keptOf_push homeDir ".local" Hh ordinary_local) as [_ ->]. discriminate.
Qed.

(** X21.  An archive entry named [go], or [go] followed by names, is
    unpacked at the install path, or at the install path followed by the
    same names, and passes the prefix check of [extractTarGz]: in both
    modes and for every home directory, the directory that [main] cleans
    up and whose [bin] it adds to PATH is the one the archive's [go]
    directory lands in. *)
Theorem archive_entries_land_under_install_path (rootMode : bool) (euid : Z)
  (homeDir : string) (w : world) (header : Header) (names : list string) :
  let installPath :=
    (cleanupOldInstall rootMode euid (Filepath.Join [homeDir; ".local"; "go"]) w).1 in
  let extractDestDir :=
    if asRoot rootMode euid then "/usr/local" else Filepath.Join [homeDir; ".local"] in
  Forall ordinary names ->
  Name header = Strings.Join ("go" :: names) "/" ->
  targetOf extractDestDir header = Strings.Join (installPath :: names) "/"
  /\ HasPrefix (targetOf extractDestDir header) (extractDestDir ++ "/") = true.
Proof.
  cbv zeta. intros Hnames Hname. rewrite cleanupOldInstall_path. unfold targetOf.
  rewrite Hname.
  set (d := if asRoot rootMode euid then "/usr/local" else Filepath.Join [homeDir; ".local"]).
  assert (cleanForm d) as Hd.
  { unfold d. destruct (asRoot rootMode euid);
      [apply cleanForm_usr_local|apply cleanForm_user_local]. }
  assert ((if asRoot rootMode euid then "/usr/local/go"
           else Filepath.Join [homeDir; ".local"; "go"]) = d ++ "/" ++ "go") as ->.
  { pose proof (Join_names_below d ["go"] Hd) as Hgo.
    cbn [Strings.Join] in Hgo. rewrite <- Hgo;
      [|constructor; [exact ordinary_go|constructor]|discriminate].
    unfold d. destruct (asRoot rootMode euid); [reflexivity|].
    symmetry. apply userInstallPath_under_local. }
  rewrite (Join_names_below d ("go" :: names) Hd);
    [|constructor; [exact ordinary_go|exact Hnames]|discriminate].
  split.
  - destruct names as [|n names]; [reflexivity|].
    change (Strings.Join ("go" :: n :: names) "/")
      with ("go" ++ "/" ++ Strings.Join (n :: names) "/").
    change (Strings.Join ((d ++ "/" ++ "go") :: n :: names) "/")
      with ((d ++ "/" ++ "go") ++ "/" ++ Strings.Join (n :: names) "/").
    rewrite !string_app_assoc. reflexivity.
  - rewrite <- string_app_assoc. apply HasPrefix_app.
Qed.

End EntriesBelow.

(** The [go] command of the archive. *)
Lemma archive_entries_land_under_install_path_witness :
  targetOf "/home/u/.local" {| Name := "go/bin/go"; Typeflag := TypeReg; Mode := 493 |}
  = "/home/u/.local/go/bin/go".
Proof.
  destruct (archive_entries_land_under_install_path false 1000 "/home/u" emptyWorld
              {| Name := "go/bin/go"; Typeflag := TypeReg; Mode := 493 |} ["bin"; "go"])
    as [Htarget _].
  - repeat constructor; discriminate.
  - reflexivity.
  - exact Htarget.
Defined.

Section DownloadName.

#[local] Arguments String.append !s1 s2 / : simpl nomatch.

Lemma trimRightByte_keeps (s : string) (c b : ascii) :
  lastByte s = Some b -> b <> c -> trimRightByte s c = s.
Proof.
  induction s as [|a s IH]; [discriminate|]. intros Hlast Hb.
  cbn [trimRightByte]. destruct s as [|a' s].
  - injection Hlast as ->. cbn [trimRightByte].
    destruct (Ascii.eqb_spec b c); [contradiction|reflexivity].
  - rewrite (IH Hlast Hb). rewrite andb_false_r. reflexivity.
Qed.

Lemma lastByte_sepfree (s : string) (b c : ascii) :
  CountByte s c = 0 -> lastByte s = Some b -> b <> c.
Proof.
  induction s as [|a s IH]; [discriminate|]. intros Hs Hlast.
  apply CountByte_cons_zero in Hs as [Ha Hs].
  destruct s as [|a' s]; [injection Hlast as <-; exact Ha|].
  apply IH; assumption.
Qed.

Lemma lastByte_is_Some (s : string) : s <> "" -> exists b, lastByte s = Some b.
Proof.
  induction s as [|a s IH]; [contradiction|]. intros _.
  destruct s as [|a' s]; [exists a; reflexivity|].
  destruct IH as [b Hb]; [discriminate|]. exists b. exact Hb.
Qed.

(** The base of the download prefix followed by a name. *)
Lemma Base_download (name : string) :
  CountByte name Filepath.Separator = 0 -> name <> "" ->
  Base ("https://go.dev/dl/" ++ name) = name.
Proof.
  intros Hsep Hne. unfold Base.
  assert (String.eqb ("https://go.dev/dl/" ++ name) "" = false) as -> by reflexivity.
  change ("https://go.dev/dl/" ++ name)
    with ("https://go.dev/dl" ++ String Filepath.Separator name).
  destruct (lastByte_is_Some name Hne) as [b Hb].
  rewrite (trimRightByte_keeps _ Filepath.Separator b).
  - rewrite SplitByte_app, (SplitByte_single name) by exact Hsep.
    rewrite last_snoc. change (default "" (Some name)) with name.
    destruct (String.eqb_spec name ""); [contradiction|reflexivity].
  - rewrite lastByte_app by discriminate.
    destruct name as [|a name]; [contradiction|exact Hb].
  - exact (lastByte_sepfree _ _ _ Hsep Hb).
Qed.

(** What the stage hands on depends on the last element of the URL only. *)
Lemma downloadTarget_result (tempDir downloadURL : string) (w : world) :
  (downloadTarget tempDir downloadURL w).1
  = if String.eqb (Base downloadURL) "." || String.eqb (Base downloadURL) ""
    then Exit 1
    else Proceed (Base downloadURL, Filepath.Join [tempDir; Base downloadURL]).
Proof.
  unfold downloadTarget, Printf, Eprintf, mbind, IO_bind, mret, IO_ret.
  debug_step D1. debug_step D2.
  destruct (String.eqb (Base downloadURL) "." || String.eqb (Base downloadURL) "");
    reflexivity.
Qed.

(** X23.  The file-name check of [main] and the URLs of the resolver.
    For the download prefix followed by a name without a separator, other
    than the empty name and ".", the stage goes on with that very name,
    placed in the temporary directory; this covers every URL the resolver
    constructs.  A catalog file named "." is the one case that ends in
    the invalid-URL exit, and an empty catalog file name is not caught:
    the name becomes "dl". *)
Theorem download_name_is_last_url_element (tempDir name : string) (w : world) :
  (CountByte name Filepath.Separator = 0 -> name <> "" -> name <> "." ->
   (downloadTarget tempDir ("https://go.dev/dl/" ++ name) w).1
   = Proceed (name, Filepath.Join [tempDir; name]))
  /\ (forall version GOOS goArch,
        name = "go" ++ version ++ "." ++ GOOS ++ "-" ++ goArch ++ ".tar.gz" ->
        CountByte name Filepath.Separator = 0 ->
        (downloadTarget tempDir (constructedURL version GOOS goArch) w).1
        = Proceed (name, Filepath.Join [tempDir; name]))
  /\ (downloadTarget tempDir ("https://go.dev/dl/" ++ ".") w).1 = Exit 1
  /\ (downloadTarget tempDir ("https://go.dev/dl/" ++ "") w).1
     = Proceed ("dl", Filepath.Join [tempDir; "dl"]).
Proof.
  assert (forall n, CountByte n Filepath.Separator = 0 -> n <> "" -> n <> "." ->
                    (downloadTarget tempDir ("https://go.dev/dl/" ++ n) w).1
                    = Proceed (n, Filepath.Join [tempDir; n])) as Hgo.
  { intros n Hsep Hne Hnd. rewrite downloadTarget_result.
    rewrite (Base_download n Hsep Hne).
    destruct (String.eqb_spec n "."); [contradiction|].
    destruct (String.eqb_spec n ""); [contradiction|]. reflexivity. }
  split; [apply Hgo|]. split; [|split; rewrite downloadTarget_result; reflexivity].
  intros version GOOS goArch Hname Hsep.
  unfold constructedURL.
  change ("https://go.dev/dl/go" ++ version ++ "." ++ GOOS ++ "-" ++ goArch ++ ".tar.gz")
    with ("https://go.dev/dl/" ++ ("go" ++ version ++ "." ++ GOOS ++ "-" ++ goArch ++ ".tar.gz")).
  rewrite <- Hname. apply Hgo; [exact Hsep| |]; rewrite Hname; discriminate.
Qed.

End DownloadName.

(* ================================================================== *)
(** * Further properties: what an installation leaves at the install path *)
(* ================================================================== *)

Section Creates.

Lemma makesOnly_refl (ts : list string) (w : world) : makesOnly ts w w.
Proof. intros p Hnone [n Hsome]. congruence. Qed.

Lemma makesOnly_trans (ts : list string) (a b c : world) :
  makesOnly ts a b -> makesOnly ts b c -> makesOnly ts a c.
Proof.
  intros Hab Hbc p Hnone Hsome.
  destruct (files b !! p) as [n|] eqn:Eb.
  - apply Hab; [exact Hnone|]. rewrite Eb. eexists; reflexivity.
  - apply Hbc; assumption.
Qed.

Lemma makesOnly_same (ts : list string) (w w' : world) :
  files w' = files w -> makesOnly ts w w'.
Proof. intros Heq p Hnone [n Hsome]. rewrite Heq in Hsome. congruence. Qed.

Lemma makesOnly_insert (ts : list string) (t : string) (n : node) (w w' : world) :
  t ∈ ts -> files w' = <[t := n]> (files w) -> makesOnly ts w w'.
Proof.
  intros Ht Heq p Hnone [x Hsome]. rewrite Heq in Hsome.
  destruct (decide (p = t)) as [->|Hne].
  - exists t. split; [exact Ht|left; reflexivity].
  - rewrite lookup_insert_ne in Hsome by congruence. congruence.
Qed.

Lemma mkdirStep_new (perm : Z) (dirs : list string) (m : gmap string node)
  (e : option error) (p : string) :
  m !! p = None ->
  is_Some ((fold_left (mkdirStep perm) dirs (m, e)).1 !! p) ->
  p ∈ dirs.
Proof.
  revert m e. induction dirs as [|d dirs IH]; intros m e Hnone Hsome.
  - destruct Hsome as [n Hn]. cbn in Hn. congruence.
  - destruct (decide (p = d)) as [->|Hne]; [apply list_elem_of_here|].
    apply list_elem_of_further. cbn [fold_left] in Hsome.
    destruct e as [e|]; cbn [mkdirStep] in Hsome; [exact (IH _ _ Hnone Hsome)|].
    destruct (m !! d) as [[q|q data]|]; try exact (IH _ _ Hnone Hsome).
    apply (IH (<[d := Dir (syscallMode perm)]> m) None); [|exact Hsome].
    rewrite lookup_insert_ne by congruence. exact Hnone.
Qed.

Lemma extractEntries_makesOnly (d : string) (items : list item) (w : world) :
  makesOnly (targets d items) w (extractEntries d items w).2.
Proof.
  apply (extractEntries_steps d (fun t => t ∈ targets d items)
           (makesOnly (targets d items))).
  - apply makesOnly_refl.
  - apply makesOnly_trans.
  - intros t perm w0 Ht. rewrite MkdirAll_run.
    destruct (faulty w0 SMkdirAll t); [apply makesOnly_same; reflexivity|].
    cbn [fst snd]. intros p Hnone Hsome. cbn [files setFiles] in Hsome.
    apply mkdirStep_new in Hsome; [|exact Hnone].
    exists t. split; [exact Ht|].
    apply elem_of_app in Hsome as [Hanc|Hself]; [right; exact Hanc|left].
    apply list_elem_of_singleton in Hself. exact Hself.
  - intros t mode w0 Ht. rewrite Chmod_run.
    destruct (faulty w0 SChmod t); [apply makesOnly_same; reflexivity|].
    destruct (files w0 !! t) as [[q|q data]|]; cbn [fst snd];
      [eapply makesOnly_insert; [exact Ht|reflexivity] ..
      |apply makesOnly_same; reflexivity].
  - intros t perm w0 Ht. rewrite OpenFile_create_run.
    destruct (faulty w0 SOpenFile t); [apply makesOnly_same; reflexivity|].
    destruct (files w0 !! t) as [[q|q data]|]; cbn [fst snd];
      [apply makesOnly_same; reflexivity
      |eapply makesOnly_insert; [exact Ht|reflexivity]|].
    destruct (parentIsDir (files w0) t); cbn [fst snd];
      [eapply makesOnly_insert; [exact Ht|reflexivity]
      |apply makesOnly_same; reflexivity].
  - intros t data w0 Ht. rewrite WriteString_run.
    destruct (faulty w0 SWrite t); [apply makesOnly_same; reflexivity|].
    destruct (files w0 !! t) as [[q|q old]|]; cbn [fst snd];
      [apply makesOnly_same; reflexivity
      |eapply makesOnly_insert; [exact Ht|reflexivity]
      |apply makesOnly_same; reflexivity].
  - intros text w0. apply makesOnly_same. apply debugPrint_frame.
  - apply Forall_forall. intros t Ht. exact Ht.
Qed.

End Creates.

Section FreshInstall.

Context `{Codec}.

(** X25.  After the two steps of an installation whose removal of the
    install path was not refused, everything at the install path or below
    it comes from the archive: it is the joined path of an entry of the
    archive that was read, or a directory on the way to one.  Nothing of
    an earlier installation is left there. *)
Theorem installation_holds_only_archive_paths (rootMode : bool) (euid : Z)
  (homeDir downloadFilePath : string) (w : world) (p : string) :
  let installPath :=
    if asRoot rootMode euid then "/usr/local/go"
    else Filepath.Join [homeDir; ".local"; "go"] in
  let extractDestDir :=
    if asRoot rootMode euid then "/usr/local" else Filepath.Join [homeDir; ".local"] in
  let done := (installPackage rootMode euid homeDir downloadFilePath w).2 in
  faulty w SRemoveAll installPath = false ->
  (files w !! installPath = None ->
   forall q, within installPath q = true -> files w !! q = None) ->
  within installPath p = true ->
  is_Some (files done !! p) ->
  exists perm bytes items,
    files w !! downloadFilePath = Some (File perm bytes)
    /\ decode bytes = Stream items
    /\ comesFrom (targets extractDestDir items) p.
Proof.
  cbv zeta. set (ip := if asRoot rootMode euid then _ else _).
  set (d := if asRoot rootMode euid then "/usr/local" else _).
  intros Hfault Htree Hp Hsome.
  destruct (cleanupOldInstall_disk rootMode euid
              (Filepath.Join [homeDir; ".local"; "go"]) w) as (Hfaults & Hworld & _).
  fold ip in Hworld. rewrite Hfault in Hworld.
  set (start := (cleanupOldInstall rootMode euid
                   (Filepath.Join [homeDir; ".local"; "go"]) w).2) in *.
  assert (files start !! p = None) as Hcleared.
  { rewrite Hworld. destruct (IsNotExist (Stat ip w).1) eqn:Hstat.
    - apply Htree; [|exact Hp].
      rewrite Stat_fst in Hstat. destruct (faulty w SStat ip); [discriminate|].
      destruct (files w !! ip); [discriminate|reflexivity].
    - apply map_lookup_filter_None. right. intros x _. cbn [fst].
      rewrite Hp. intros []. }
  assert (forall q, files start !! q = None \/ files start !! q = files w !! q) as Honly.
  { intros q. rewrite Hworld. destruct (IsNotExist (Stat ip w).1); [right; reflexivity|].
    destruct (files w !! q) as [n|] eqn:Eq.
    - destruct (within ip q) eqn:Hq.
      + left. apply map_lookup_filter_None. right. intros x _. cbn [fst].
        rewrite Hq. intros [].
      + right. apply map_lookup_filter_Some. split; [exact Eq|].
        cbn [fst]. rewrite Hq. exact I.
    - left. apply map_lookup_filter_None. left. exact Eq. }
  assert (exists w1,
            files w1 = files start
            /\ files (installPackage rootMode euid homeDir downloadFilePath w).2
               = files (extractTarGz downloadFilePath d w1).2) as (w1 & Hsame & Hfiles).
  { unfold installPackage. rewrite !IO_bind_run. fold start.
    rewrite cleanupOldInstall_path. fold ip.
    destruct (extractPackage_run rootMode euid homeDir ip downloadFilePath start)
      as (w1 & D1 & ->). fold d.
    destruct (debugged_frame _ _ D1) as (Hf1 & _).
    exists w1. split; [exact Hf1|].
    destruct (extractTarGz downloadFilePath d w1) as [[e|] w2]; reflexivity. }
  rewrite Hfiles in Hsome. clear Hfiles.
  unfold extractTarGz, Open, mbind, IO_bind in Hsome.
  assert (files w1 !! p = None) as Hnone1 by (rewrite Hsame; exact Hcleared).
  destruct (faulty w1 SOpen downloadFilePath).
  { change (is_Some (files w1 !! p)) in Hsome. rewrite Hnone1 in Hsome.
    destruct Hsome; discriminate. }
  destruct (files w1 !! downloadFilePath) as [[q|q bytes]|] eqn:Efile;
    try (change (is_Some (files w1 !! p)) in Hsome; rewrite Hnone1 in Hsome;
         destruct Hsome; discriminate).
  destruct (decode bytes) as [err|items] eqn:Edec.
  { change (is_Some (files w1 !! p)) in Hsome. rewrite Hnone1 in Hsome.
    destruct Hsome; discriminate. }
  exists q, bytes, items. split; [|split; [exact Edec|]].
  - rewrite Hsame in Efile.
    destruct (Honly downloadFilePath) as [Hgone|Hkept]; congruence.
  - exact (extractEntries_makesOnly d items w1 p Hnone1 Hsome).
Qed.

End FreshInstall.

(* ================================================================== *)
(** * The further properties at concrete inputs *)
(* ================================================================== *)

(** "1.22.0" in a catalog that lists a release candidate before it,
    with [--debug]. *)
Lemma requested_version_found_in_catalog_witness :
  exists w',
    @selectRelease asciiTables "linux" "amd64" ["1.22.0"] (Some [go1_23rc1; go1_22_0])
      (verbose emptyWorld)
    = (Proceed ("1.22.0", "https://go.dev/dl/go1.22.0.linux-amd64.tar.gz"), w')
    /\ debugged (verbose emptyWorld) w'
    /\ requests w' = [] /\ files w' = ∅ /\ journal w' = [].
Proof.
  destruct (@requested_version_found_in_catalog asciiTables "linux" "amd64" "1.22.0" []
              [go1_23rc1] go1_22_0 [] [sourceArchive] linuxArchive []
              (verbose emptyWorld)) as (w' & Hrun & Hd & Hr & Hf & Hj & _).
  - intros u Hu Hkey. apply list_elem_of_singleton in Hu. subst u.
    vm_compute in Hkey. discriminate Hkey.
  - reflexivity.
  - reflexivity.
  - intros g Hg. apply list_elem_of_singleton in Hg. subst g. reflexivity.
  - reflexivity.
  - exists w'. split; [exact Hrun|]. split; [exact Hd|].
    split; [exact Hr|]. split; [exact Hf|exact Hj].
Defined.

(** What [--debug] shows of the search for "1.22": the request as given
    and as normalized, the entry found, the source archive passed over
    and the archive taken. *)
Example debug_lines_of_a_request :
  console (@selectRelease asciiTables "linux" "amd64" ["1.22"]
             (Some [go1_23rc1; go1_22_0]) (verbose emptyWorld)).2
  = [(Stdout, "Debug: Target versions specified: [1.22]" ++ nl);
     (Stdout, "Debug: Appended .0 to version: 1.22 -> 1.22.0" ++ nl);
     (Stdout, "Debug: Found matching version in JSON list: go1.22.0" ++ nl);
     (Stdout, "Debug: Skipping file go1.22.0.src.tar.gz (OS: , Arch: ), "
              ++ "expected linux/amd64" ++ nl);
     (Stdout, "Debug: Found matching download file for linux/amd64: "
              ++ "go1.22.0.linux-amd64.tar.gz" ++ nl)].
Proof. reflexivity. Qed.

(** Without [--debug] the same search prints nothing. *)
Example no_debug_lines_without_the_flag :
  console (@selectRelease asciiTables "linux" "amd64" ["1.22"]
             (Some [go1_23rc1; go1_22_0]) emptyWorld).2 = [].
Proof. reflexivity. Qed.

(** The answer of go.dev, and an empty answer. *)
Lemma latest_version_text_parsed_witness :
  @getLatestGoVersionFromTextHTTP asciiTables (online (GetFailed "offline")
                                                 (Got 200 (Ok versionText)))
  = (Ok "1.22.3",
     logRequest latestVersionTextURL (online (GetFailed "offline")
                                        (Got 200 (Ok versionText))))
  /\ (@getLatestGoVersionFromTextHTTP asciiTables
        (online (GetFailed "offline") (Got 200 (Ok "")))).1
     = Err (Errorf ("unexpected version format in output from "
                    ++ latestVersionTextURL ++ " via HTTP: ")).
Proof.
  split.
  - destruct (@latest_version_text_parsed asciiTables
                (online (GetFailed "offline") (Got 200 (Ok versionText))))
      as (Hparse & _ & _).
    destruct (Hparse versionText "1.22.3" (nl ++ "time 2024-05-07T16:25:52Z"))
      as [_ Hquiet]; [reflexivity|reflexivity|reflexivity|right; reflexivity|].
    exact (Hquiet eq_refl).
  - destruct (@latest_version_text_parsed asciiTables
                (online (GetFailed "offline") (Got 200 (Ok ""))))
      as (_ & Hblank & _).
    apply (Hblank ""); reflexivity.
Defined.

Lemma catalog_fetched_or_nil_witness :
  (fetchCatalog (online (Got 200 (Ok [go1_22_0])) (GetFailed "offline"))).1
  = Some [go1_22_0]
  /\ exists err,
       (fetchCatalog (online (Got 200 (Ok [])) (GetFailed "offline"))).2
       = emit Stderr ("Error: Failed to get Go version list from JSON API: "
                      ++ Error err ++ nl)
           (logRequest goVersionURL (online (Got 200 (Ok [])) (GetFailed "offline"))).
Proof.
  split.
  - destruct (catalog_fetched_or_nil
                (online (Got 200 (Ok [go1_22_0])) (GetFailed "offline")))
      as (Hsome & _).
    apply Hsome. split; [discriminate|reflexivity].
  - destruct (catalog_fetched_or_nil (online (Got 200 (Ok [])) (GetFailed "offline")))
      as (_ & _ & Hnone & _).
    apply Hnone. reflexivity.
Defined.

(** With [--debug] the catalog stage prints before the request and
    after it. *)
Example debug_lines_of_the_catalog_stage :
  console (fetchCatalog (verbose (online (Got 200 (Ok [go1_23rc1; go1_22_0]))
                                    (GetFailed "offline")))).2
  = [(Stdout, "Debug: Fetching all Go version information from JSON API..." ++ nl);
     (Stdout, "Debug: Fetched 2 Go versions from JSON API" ++ nl)].
Proof. reflexivity. Qed.

(** No catalog, and the text endpoint names go1.22.3. *)
Lemma latest_version_from_text_endpoint_witness :
  (@selectRelease asciiTables "linux" "amd64" [] None
     (online (GetFailed "offline") (Got 200 (Ok versionText)))).1
  = Proceed ("1.22.3", "https://go.dev/dl/go1.22.3.linux-amd64.tar.gz")
  /\ requests (@selectRelease asciiTables "linux" "amd64" [] None
                 (online (GetFailed "offline") (Got 200 (Ok versionText)))).2
     = [latestVersionTextURL].
Proof.
  destruct (@latest_version_from_text_endpoint asciiTables "linux" "amd64" None
              (online (GetFailed "offline") (Got 200 (Ok versionText)))
              versionText "1.22.3" (nl ++ "time 2024-05-07T16:25:52Z"))
    as (Hres & Hreq & _).
  - intros cat Hcat. discriminate Hcat.
  - reflexivity.
  - reflexivity.
  - reflexivity.
  - right. reflexivity.
  - split; [exact Hres|exact Hreq].
Defined.

(** The fields of an x86-64 machine, padded with zero bytes. *)
Lemma uname_fields_read_as_c_strings_witness :
  getSystemInfo linux "amd64"
    (Ok {| Release := (cString "6.1.0" ++ [0; 0])%list%Z;
           Machine := (cString "x86_64" ++ [0; 0; 0])%list%Z |})
  = ("6.1.0", "x86_64", None)
  /\ (@detectArchitecture asciiTables "linux" "amd64"
        (getSystemInfo linux "amd64"
           (Ok {| Release := (cString "6.1.0" ++ [0; 0])%list%Z;
                  Machine := (cString "x86_64" ++ [0; 0; 0])%list%Z |})) emptyWorld).1
     = Proceed "amd64".
Proof.
  destruct (@uname_fields_read_as_c_strings asciiTables "linux" "amd64" "6.1.0" "x86_64"
              [0; 0]%Z [0; 0; 0]%Z emptyWorld) as [Hinfo Hgo].
  - reflexivity.
  - reflexivity.
  - right. eexists. reflexivity.
  - right. eexists. reflexivity.
  - split; [exact Hinfo|]. apply Hgo. discriminate.
Defined.

(** A file of an earlier installation is still there after the archive
    of the examples is unpacked over it. *)
Lemma extraction_never_removes_witness :
  exists n',
    files (@extractTarGz (fixedCodec [goDirEntry; versionEntry]) "/tmp/go.tar.gz"
             "/home/u/.local" (withTree staleTree [])).2
      !! "/home/u/.local/go/bin/oldtool" = Some n'
    /\ sameKind (File 493 "go1.19") n' = true.
Proof.
  apply (@extraction_never_removes (fixedCodec [goDirEntry; versionEntry])
           "/tmp/go.tar.gz" "/home/u/.local" (withTree staleTree [])
           "/home/u/.local/go/bin/oldtool" (File 493 "go1.19")).
  reflexivity.
Defined.

(** An entry whose mode is 04755, set-user-id in the Unix encoding:
    the file is made with 0755. *)
Lemma extracted_file_holds_entry_data_witness :
  files (extractEntries "/home/u/.local"
           [goDirEntry; Entry {| Name := "go/tool"; Typeflag := TypeReg; Mode := 2541 |}
                          "ELF"]
           (withTree userTree [])).2 !! "/home/u/.local/go/tool"
  = Some (File 493 "ELF").
Proof.
  destruct (extracted_file_holds_entry_data "/home/u/.local" [goDirEntry]
              {| Name := "go/tool"; Typeflag := TypeReg; Mode := 2541 |} "ELF" []
              (withTree userTree [])) as (perm & Hfile & Hnew & _).
  - reflexivity.
  - constructor.
  - vm_compute. reflexivity.
  - assert (perm = 493%Z) as Hperm by (apply Hnew; vm_compute; reflexivity).
    rewrite <- Hperm. exact Hfile.
Defined.

(** A directory entry whose mode is 040755, with the Unix bit of a
    directory: the directory is made with 0755. *)
Lemma extracted_directory_has_entry_mode_witness :
  files (extractEntries "/home/u/.local"
           [Entry {| Name := "go/"; Typeflag := TypeDir; Mode := 16877 |} ""; versionEntry]
           (withTree userTree [])).2 !! "/home/u/.local/go"
  = Some (Dir 493).
Proof.
  apply (extracted_directory_has_entry_mode "/home/u/.local" []
           {| Name := "go/"; Typeflag := TypeDir; Mode := 16877 |} "" [versionEntry]
           (withTree userTree [])).
  - reflexivity.
  - constructor; [|constructor]. vm_compute. discriminate.
  - vm_compute. reflexivity.
Defined.

(** An entry that leaves the destination ends the extraction: the entry
    after it is not read. *)
Lemma extraction_stops_at_first_error_witness :
  @extractTarGz (fixedCodec [evilEntry TypeReg; versionEntry]) "/tmp/go.tar.gz"
    "/home/u/.local" (withTree userTree [])
  = extractEntries "/home/u/.local" [evilEntry TypeReg] (withTree userTree []).
Proof.
  destruct (@extraction_stops_at_first_error (fixedCodec [evilEntry TypeReg; versionEntry])
              "/tmp/go.tar.gz" "/home/u/.local" (withTree userTree []) 420 "bytes"
              [evilEntry TypeReg] [versionEntry]) as [Hstop _].
  - reflexivity.
  - reflexivity.
  - apply (Hstop (Errorf "illegal file path: /home/evil")); reflexivity.
Defined.

(** The directory above the install path survives the clean-up. *)
Lemma cleanup_confined_to_install_path_witness :
  files (cleanupOldInstall false 1000 "/home/u/.local/go" (withTree staleTree [])).2
    !! "/home/u/.local" = Some (Dir 493)
  /\ files (cleanupOldInstall false 1000 "/home/u/.local/go" (withTree staleTree [])).2
       !! "/tmp/go.tar.gz" = Some (File 420 "bytes").
Proof.
  destruct (cleanup_confined_to_install_path false 1000 "/home/u/.local/go"
              (withTree staleTree [])) as (Hout & _ & _).
  split.
  - rewrite (Hout "/home/u/.local"); reflexivity.
  - rewrite (Hout "/tmp/go.tar.gz"); reflexivity.
Defined.

(** A home directory without a profile. *)
Lemma user_configuration_exports_bin_path_witness :
  files (configurePath false 1000 "/home/u" "/home/u/.local/go"
           (withTree [("/home", Dir 493); ("/home/u", Dir 493)] [])).2
    !! "/home/u/.profile"
  = Some (File 438 (exportLineFor "/home/u/.local/go/bin" ++ nl)).
Proof.
  destruct (user_configuration_exports_bin_path "/home/u" "/home/u/.local/go" false 1000
              (withTree [("/home", Dir 493); ("/home/u", Dir 493)] []))
    as (_ & Hnew & _).
  - reflexivity.
  - intros c. reflexivity.
  - reflexivity.
  - intros perm. vm_compute. discriminate.
  - apply Hnew. reflexivity.
Defined.

(** Root, with [/etc/profile.d] there and no [go.sh] in it. *)
Lemma system_configuration_exports_bin_path_witness :
  files (configurePath true 0 "/root" "/usr/local/go"
           (withTree [("/etc", Dir 493); ("/etc/profile.d", Dir 493); ("/root", Dir 448)]
              [])).2 !! "/etc/profile.d/go.sh"
  = Some (File 438 (exportLineFor "/usr/local/go/bin" ++ nl))
  /\ files (configurePath true 0 "/root" "/usr/local/go"
              (withTree [("/etc", Dir 493); ("/etc/profile.d", Dir 493);
                         ("/root", Dir 448)] [])).2 !! "/root/.profile" = None.
Proof.
  destruct (system_configuration_exports_bin_path "/root" "/usr/local/go" true 0
              (withTree [("/etc", Dir 493); ("/etc/profile.d", Dir 493);
                         ("/root", Dir 448)] []) 493)
    as (_ & Hnew & Hother).
  - reflexivity.
  - reflexivity.
  - reflexivity.
  - intros c. reflexivity.
  - intros perm. vm_compute. discriminate.
  - split; [apply Hnew; reflexivity|].
    rewrite (Hother "/root/.profile"); [reflexivity|discriminate].
Defined.

(** 1023 bytes, and one kibibyte and a half. *)
Lemma formatBytes_picks_unit_witness :
  @formatBytes plainRendering 1023 = Returns "1023 B"
  /\ exists (exp : nat) (unit : ascii),
       (1024 ^ (Z.of_nat exp + 1) <= 1536 < 1024 ^ (Z.of_nat exp + 2))%Z
       /\ @formatBytes plainRendering 1536
          = Returns (@quotient1 plainRendering 1536 (1024 ^ (Z.of_nat exp + 1)) ++ " "
                     ++ String unit "iB").
Proof.
  split.
  - destruct (@formatBytes_picks_unit plainRendering 1023%Z) as [Hsmall _]; [lia|].
    apply Hsmall. lia.
  - destruct (@formatBytes_picks_unit plainRendering 1536%Z) as [_ Hbig]; [lia|].
    destruct Hbig as (exp & unit & _ & _ & Hbounds & _ & Hrun); [lia|].
    exists exp, unit. split; [exact Hbounds|exact Hrun].
Defined.

(** Two chunks are stored one after the other. *)
Lemma download_stores_received_bytes_witness :
  (@downloadFile plainRendering steadyClock
     (Answer 200 11 [Chunk "hello "; Chunk "world"])
     "https://go.dev/dl/go1.22.0.linux-amd64.tar.gz" "/tmp/go1.22.0.linux-amd64.tar.gz"
     (withTree [("/tmp", Dir 511)] [])).1 = Returns None
  /\ exists perm,
       files (@downloadFile plainRendering steadyClock
                (Answer 200 11 [Chunk "hello "; Chunk "world"])
                "https://go.dev/dl/go1.22.0.linux-amd64.tar.gz"
                "/tmp/go1.22.0.linux-amd64.tar.gz"
                (withTree [("/tmp", Dir 511)] [])).2
         !! "/tmp/go1.22.0.linux-amd64.tar.gz" = Some (File perm "hello world").
Proof.
  destruct (@download_stores_received_bytes plainRendering steadyClock 11
              [Chunk "hello "; Chunk "world"]
              "https://go.dev/dl/go1.22.0.linux-amd64.tar.gz"
              "/tmp/go1.22.0.linux-amd64.tar.gz" "/tmp/go1.22.0.linux-amd64.tar.gz"
              (withTree [("/tmp", Dir 511)] [])) as (Hres & Hfile & _).
  - reflexivity.
  - reflexivity.
  - lia.
  - split; [exact Hres|exact Hfile].
Defined.

(** The server answers 404: the archive of an earlier run is emptied. *)
Lemma download_opens_destination_first_witness :
  exists perm,
    files (@downloadFile plainRendering steadyClock (Answer 404 0 [])
             "https://go.dev/dl/go9.9.9.linux-amd64.tar.gz" "/tmp/go.tar.gz"
             (withTree userTree [])).2 !! "/tmp/go.tar.gz" = Some (File perm "").
Proof.
  destruct (@download_opens_destination_first plainRendering steadyClock (Answer 404 0 [])
              "https://go.dev/dl/go9.9.9.linux-amd64.tar.gz" "/tmp/go.tar.gz"
              (withTree userTree [])) as [_ Hopen].
  destruct (Hopen "/tmp/go.tar.gz") as (_ & Hfile & _).
  - reflexivity.
  - right. exists 404%Z, 0%Z, []. split; [reflexivity|discriminate].
  - exact Hfile.
Defined.

(** The first chunk of a download of ten bytes. *)
Lemma progress_writer_counts_and_throttles_witness :
  exists pb' t' w',
    @Write plainRendering
      {| Total := 10; downloaded := 0; start := 0; lastPrint := None |} steadyClock
      "hello" emptyWorld
    = (Returns (5%Z, None), pb', t', w')
    /\ downloaded pb' = 5%Z.
Proof.
  destruct (@progress_writer_counts_and_throttles plainRendering
              {| Total := 10; downloaded := 0; start := 0; lastPrint := None |}
              steadyClock "hello" emptyWorld) as (pb' & t' & w' & Hrun & Hcount & _).
  - reflexivity.
  - exists pb', t', w'. split; [exact Hrun|exact Hcount].
Defined.

(** A build for darwin on Apple silicon. *)
Lemma fallback_architecture_is_GOARCH_witness :
  (@detectArchitecture asciiTables "darwin" "arm64"
     (getSystemInfo darwin "arm64" (Err (Errorf "unused"))) emptyWorld).1
  = Proceed "arm64".
Proof.
  apply (@fallback_architecture_is_GOARCH asciiTables darwin "darwin" "arm64"
           (Err (Errorf "unused")) emptyWorld).
  - left. discriminate.
  - right. left.
Defined.

(** No archive at the path given. *)
Lemma unreadable_archive_changes_nothing_witness :
  is_Some (@extractTarGz (fixedCodec []) "/tmp/missing.tar.gz" "/home/u/.local"
             (withTree userTree [])).1
  /\ (@extractTarGz (fixedCodec []) "/tmp/missing.tar.gz" "/home/u/.local"
        (withTree userTree [])).2 = withTree userTree [].
Proof.
  apply (@unreadable_archive_changes_nothing (fixedCodec []) "/tmp/missing.tar.gz"
           "/home/u/.local" (withTree userTree [])).
  right. left. reflexivity.
Defined.

(** The archive of go1.22.0 for linux/amd64. *)
Lemma download_name_is_last_url_element_witness :
  (downloadTarget "/tmp" "https://go.dev/dl/go1.22.0.linux-amd64.tar.gz" emptyWorld).1
  = Proceed ("go1.22.0.linux-amd64.tar.gz", "/tmp/go1.22.0.linux-amd64.tar.gz").
Proof.
  destruct (download_name_is_last_url_element "/tmp" "go1.22.0.linux-amd64.tar.gz"
              emptyWorld) as (Hname & _ & _ & _).
  apply Hname; [reflexivity|discriminate|discriminate].
Defined.

(** Over the stale tree of the examples: the new [VERSION] is there and
    comes from the archive. *)
Lemma installation_holds_only_archive_paths_witness :
  exists perm bytes items,
    files (withTree staleTree []) !! "/tmp/go.tar.gz" = Some (File perm bytes)
    /\ @decode (fixedCodec [goDirEntry; versionEntry]) bytes = Stream items
    /\ comesFrom (targets "/home/u/.local" items) "/home/u/.local/go/VERSION".
Proof.
  apply (@installation_holds_only_archive_paths (fixedCodec [goDirEntry; versionEntry])
           false 1000 "/home/u" "/tmp/go.tar.gz" (withTree staleTree [])
           "/home/u/.local/go/VERSION").
  - reflexivity.
  - intros Hnone. vm_compute in Hnone. discriminate Hnone.
  - reflexivity.
  - eexists. vm_compute. reflexivity.
Defined.
